(** * The trampoline scheduler and its echo server

    A shallow embedding of the two coroutine trampolines of the repository,
    [src/trampolinepfp.py] and [src/treamp2.py]: the scheduler
    ([Trampoline.schedule], its inner closure [resume], [run], [stop],
    [add]), the suspension primitives ([nonblocking_read],
    [nonblocking_write], [nonblocking_accept]) and the two coroutines built
    on them ([echo_handler], [listen_on]).

    Python objects with identity (generator objects, sockets) live in
    stores indexed by identifiers; every function that touches them passes
    the store explicitly.  The closure [resume] that [schedule] appends to
    the queue is represented by the four variables it captures. *)

From Stdlib Require Import List ZArith Lia Bool String Ascii.
From stdpp Require Import base option list gmap.
Import ListNotations.

Set Implicit Arguments.
Set Default Proof Using "Type".

(** ** Python values *)

Definition bytes := list Byte.byte.
Definition gen_id := nat.
Definition sock_id := nat.

(** The exception classes the two files raise, catch, or receive from the
    interpreter.  [OSError] is [socket.error] (an alias since Python 3.3)
    together with its subclasses; [UserError] stands for any other class. *)
Inductive exn_class :=
| StopIteration
| ConnectionLost
| OSError
| TypeError
| ValueError
| AttributeError
| UnicodeDecodeError
| RuntimeError
| UserError (tag : nat).

Inductive value :=
| VNone
| VBytes (b : bytes)
| VStr (s : string)
| VGenerator (g : gen_id)            (* a generator object *)
| VSocket (fd : sock_id)             (* a socket.socket *)
| VSocketWrapper (sock : value)      (* SocketWrapper(sock) *)
| VExcClass (c : exn_class)          (* an exception class *)
| VExcInstance (c : exn_class) (arg : value)
| VTraceback.

(** A raised exception: its class and the argument it was built with
    (for [StopIteration], the returned value). *)
Record exception := Exc { exc_type : exn_class; exc_arg : value }.

Definition exn_class_eqb (a b : exn_class) : bool :=
  match a, b with
  | StopIteration, StopIteration | ConnectionLost, ConnectionLost
  | OSError, OSError | TypeError, TypeError | ValueError, ValueError
  | AttributeError, AttributeError | UnicodeDecodeError, UnicodeDecodeError
  | RuntimeError, RuntimeError => true
  | UserError m, UserError n => Nat.eqb m n
  | _, _ => false
  end.

(** [isinstance(value, types.GeneratorType)] *)
Definition is_generator (v : value) : bool :=
  match v with VGenerator _ => true | _ => false end.

(** [sys.exc_info()] inside an [except] clause handling [e]. *)
Definition exc_info (e : exception) : value * list value :=
  (VExcClass (exc_type e),
   [VExcInstance (exc_type e) (exc_arg e); VTraceback]).

(** ** The scheduler's data *)

(** The closure [resume] built by [schedule(coroutine, stack, val, *exc)].
    [stack] is the nested tuple [()] / [(coroutine, stack)], kept as the
    list of its first components. *)
Record resume_closure := Resume {
  coroutine : gen_id;
  stack : list gen_id;
  val : value;
  exc : list value
}.

Record Trampoline := Tramp {
  queue : list resume_closure;     (* collections.deque *)
  running : bool
}.

(** [Trampoline()] *)
Definition Trampoline_init : Trampoline := Tramp [] false.

(** [schedule]: build the closure, [self.queue.append(resume)]. *)
Definition schedule (c : gen_id) (stk : list gen_id) (v : value)
    (ex : list value) (t : Trampoline) : Trampoline :=
  Tramp (queue t ++ [Resume c stk v ex]) (running t).

(** [add]: [self.schedule(coroutine)] with the defaults [stack=()],
    [val=None] and no [exc]. *)
Definition add (c : gen_id) (t : Trampoline) : Trampoline :=
  schedule c [] VNone [] t.

(** [stop]: [self.running = False]. *)
Definition stop (t : Trampoline) : Trampoline :=
  Tramp (queue t) false.

(** What a coroutine may do to the trampoline while it runs: call its
    public methods.  (In the source only [listen_on] does, with [add];
    [stop] has no caller in the repository.) *)
Inductive call := CallAdd (c : gen_id) | CallStop.

Definition exec_call (t : Trampoline) (c : call) : Trampoline :=
  match c with
  | CallAdd g => add g t
  | CallStop => stop t
  end.

Definition exec_calls (cs : list call) (t : Trampoline) : Trampoline :=
  fold_left exec_call cs t.

(** ** The generator protocol, as the scheduler sees it

    [coroutine.send(v)] and [coroutine.throw(args...)] either come back
    with the value the generator yields or raise (exhaustion raises
    [StopIteration]).  While the generator runs it may change the world
    (its own frame, other objects, sockets) and call the trampoline. *)
Inductive outcome :=
| Yields (v : value)
| Raises (e : exception).

Class Runtime (W : Type) := {
  coroutine_send : gen_id -> value -> W -> outcome * list call * W;
  coroutine_throw : gen_id -> list value -> W -> outcome * list call * W;
  time_sleep : W -> W
}.

(** How a call ([resume()], [run()]) ends. *)
Inductive completion :=
| Normal
| Propagates (e : exception).

Inductive run_result (W : Type) :=
| RunReturns (v : value) (t : Trampoline) (w : W)
| RunRaises (e : exception) (t : Trampoline) (w : W)
| RunOutOfFuel (t : Trampoline) (w : W).
Arguments RunReturns {W}.
Arguments RunRaises {W}.
Arguments RunOutOfFuel {W}.

Definition exited {W} (r : run_result W) : bool :=
  match r with RunOutOfFuel _ _ => false | _ => true end.

Definition final_trampoline {W} (r : run_result W) : Trampoline :=
  match r with
  | RunReturns _ t _ | RunRaises _ t _ | RunOutOfFuel t _ => t
  end.

(** The [finally: self.running = False] of [run]. *)
Definition finally_not_running {W} (r : run_result W) : run_result W :=
  match r with
  | RunReturns v t w => RunReturns v (stop t) w
  | RunRaises e t w => RunRaises e (stop t) w
  | RunOutOfFuel t w => RunOutOfFuel t w
  end.

(** ** Truth values and text *)

(** Truth value of an object ([if x], [while x], [not x]). *)
Definition truthy (v : value) : bool :=
  match v with
  | VNone => false
  | VBytes [] => false
  | VStr EmptyString => false
  | _ => true
  end.

Definition byte_in (lo hi : N) (b : Byte.byte) : bool :=
  ((lo <=? Byte.to_N b) && (Byte.to_N b <=? hi))%N.

Definition continuation_byte : Byte.byte -> bool := byte_in 128 191.

(** Well-formed UTF-8, the condition under which [data.decode('utf-8')]
    does not raise [UnicodeDecodeError]. *)
Fixpoint utf8_valid (bs : bytes) : bool :=
  match bs with
  | [] => true
  | b0 :: r0 =>
      if byte_in 0 127 b0 then utf8_valid r0 else
      match r0 with
      | [] => false
      | b1 :: r1 =>
          if byte_in 194 223 b0 then continuation_byte b1 && utf8_valid r1 else
          match r1 with
          | [] => false
          | b2 :: r2 =>
              if byte_in 224 224 b0 then
                byte_in 160 191 b1 && continuation_byte b2 && utf8_valid r2
              else if byte_in 225 236 b0 || byte_in 238 239 b0 then
                continuation_byte b1 && continuation_byte b2 && utf8_valid r2
              else if byte_in 237 237 b0 then
                byte_in 128 159 b1 && continuation_byte b2 && utf8_valid r2
              else
              match r2 with
              | [] => false
              | b3 :: r3 =>
                  if byte_in 240 240 b0 then
                    byte_in 144 191 b1 && continuation_byte b2
                    && continuation_byte b3 && utf8_valid r3
                  else if byte_in 241 243 b0 then
                    continuation_byte b1 && continuation_byte b2
                    && continuation_byte b3 && utf8_valid r3
                  else if byte_in 244 244 b0 then
                    byte_in 128 143 b1 && continuation_byte b2
                    && continuation_byte b3 && utf8_valid r3
                  else false
              end
          end
      end
  end.

(** The default [chunk_size=8192] of [nonblocking_read]. *)
Definition chunk_size_default : nat := N.to_nat 8192.

(** ** The operating system

    Each socket carries the answers the system will give to the calls made
    on it, in the order of the calls, and the bytes it has accepted from
    [send] so far.  A call that does not find the kind of answer it can
    use finds nothing: select times out, and the operation would block
    ([BlockingIOError], an [OSError]). *)
Inductive os_event :=
| Timeout                 (* a select that reports nothing within 0.1 s *)
| Ready                   (* a select that reports the descriptor *)
| SelectFault             (* a select that fails *)
| OpFault                 (* a recv / send / accept that fails *)
| Data (b : bytes)        (* what recv finds; empty: the peer has closed *)
| Room (n : nat)          (* how many bytes send can take *)
| Conn (fd : sock_id).    (* the connection accept returns *)

Record socket := Socket {
  events : list os_event;
  sent : bytes
}.

(** ** Generator objects and the world they live in *)

Inductive result (A : Type) :=
| Ok (a : A)
| Err (e : exception).
Arguments Ok {A}.
Arguments Err {A}.

(** What is passed into a suspended frame. *)
Inductive input :=
| Send (v : value)
| Throw (e : exception).

(** How far a generator body gets when resumed: to its next [yield]
  (leaving the frame [f]) or to its end. *)
Inductive step (F : Type) :=
| Yield (v : value) (f : F)
| Return (v : value).
Arguments Yield {F}.
Arguments Return {F}.

Section World.
Variable F : Type.

Inductive generator :=
| Gen (f : F)
| Closed.

Record world := World {
  heap : gmap gen_id generator;
  next_gen : gen_id;
  sockets : gmap sock_id socket;
  stdout : list string;
  calls : list call               (* calls made on the trampoline *)
}.

(** Code that may raise and may change the world. *)
Definition M (A : Type) : Type := world -> result A * world.

Definition ret {A} (a : A) : M A := fun w => (Ok a, w).
Definition raise {A} (e : exception) : M A := fun w => (Err e, w).
Definition bind {A B} (m : M A) (k : A -> M B) : M B :=
  fun w =>
    match m w with
    | (Ok a, w') => k a w'
    | (Err e, w') => (Err e, w')
    end.

(** [try: m  except cls: h] *)
Definition try_except {A} (m : M A) (cls : exn_class) (h : M A) : M A :=
  fun w =>
    match m w with
    | (Err e, w') =>
        if exn_class_eqb (exc_type e) cls then h w' else (Err e, w')
    | r => r
    end.

(** [print(line)] *)
Definition print (line : string) : M unit :=
  fun w => (Ok tt, World (heap w) (next_gen w) (sockets w)
                         (stdout w ++ [line]) (calls w)).

(** A call on the trampoline object. *)
Definition trampoline_call (c : call) : M unit :=
  fun w => (Ok tt, World (heap w) (next_gen w) (sockets w)
                         (stdout w) (calls w ++ [c])).

(** Calling a generator function: a new generator object whose frame
    holds the arguments; no code of the body runs. *)
Definition new_generator (f : F) : M gen_id :=
  fun w => (Ok (next_gen w),
            World (<[next_gen w := Gen f]> (heap w)) (S (next_gen w))
                  (sockets w) (stdout w) (calls w)).

Definition set_socket (fd : sock_id) (s : socket) (w : world) : world :=
  World (heap w) (next_gen w) (<[fd := s]> (sockets w)) (stdout w) (calls w).

Definition os_error : exception := Exc OSError VNone.

(** [select.select] on one descriptor with the 0.1 s timeout. *)
Definition os_select (fd : sock_id) : M bool :=
  fun w =>
    match sockets w !! fd with
    | None => (Err os_error, w)
    | Some s =>
        match events s with
        | Timeout :: r => (Ok false, set_socket fd (Socket r (sent s)) w)
        | Ready :: r => (Ok true, set_socket fd (Socket r (sent s)) w)
        | SelectFault :: r => (Err os_error, set_socket fd (Socket r (sent s)) w)
        | _ => (Ok false, w)
        end
    end.

(** [socket.recv(size)] on a nonblocking socket: at most [size] bytes
    of what has arrived; [BlockingIOError] (an [OSError]) when nothing
    has. *)
Definition os_recv (fd : sock_id) (size : nat) : M bytes :=
  fun w =>
    match sockets w !! fd with
    | None => (Err os_error, w)
    | Some s =>
        match events s with
        | Data b :: r =>
            let r' := match skipn size b with
                      | [] => r
                      | later => Ready :: Data later :: r
                      end in
            (Ok (firstn size b), set_socket fd (Socket r' (sent s)) w)
        | OpFault :: r => (Err os_error, set_socket fd (Socket r (sent s)) w)
        | _ => (Err os_error, w)
        end
    end.

(** [socket.send(data)]: the system takes a prefix of [data] and
    returns its length. *)
Definition os_send (fd : sock_id) (data : bytes) : M nat :=
  fun w =>
    match sockets w !! fd with
    | None => (Err os_error, w)
    | Some s =>
        match events s with
        | Room n :: r =>
            let k := Nat.min n (length data) in
            (Ok k, set_socket fd (Socket r (sent s ++ firstn k data)) w)
        | OpFault :: r => (Err os_error, set_socket fd (Socket r (sent s)) w)
        | _ => (Err os_error, w)
        end
    end.

(** [socket.accept()], the address dropped. *)
Definition os_accept (fd : sock_id) : M sock_id :=
  fun w =>
    match sockets w !! fd with
    | None => (Err os_error, w)
    | Some s =>
        match events s with
        | Conn c :: r => (Ok c, set_socket fd (Socket r (sent s)) w)
        | OpFault :: r => (Err os_error, set_socket fd (Socket r (sent s)) w)
        | _ => (Err os_error, w)
        end
    end.

Definition attribute_error {A} : M A := raise (Exc AttributeError VNone).

(** [x.fileno()]: [SocketWrapper.fileno] forwards to [self.sock]. *)
Fixpoint fileno (x : value) : M sock_id :=
  match x with
  | VSocket fd => ret fd
  | VSocketWrapper inner => fileno inner
  | _ => attribute_error
  end.

(** [select.select([x], [], [], 0.1)[0]] and
    [select.select([], [x], [], 0.1)[1]], as a truth value. *)
Definition select (x : value) : M bool :=
  match x with
  | VSocket _ | VSocketWrapper _ => bind (fileno x) os_select
  | _ => raise (Exc TypeError VNone)
  end.

(** [x.recv(size)]: [SocketWrapper.recv] forwards to [self.sock]. *)
Fixpoint recv (x : value) (size : nat) : M bytes :=
  match x with
  | VSocket fd => os_recv fd size
  | VSocketWrapper inner => recv inner size
  | _ => attribute_error
  end.

(** [x.send(data)] *)
Fixpoint send (x : value) (data : bytes) : M nat :=
  match x with
  | VSocket fd => os_send fd data
  | VSocketWrapper inner => send inner data
  | _ => attribute_error
  end.

(** [x.accept()], the address dropped: [SocketWrapper.accept] calls
    [self.sock.accept()] and wraps the new socket with [wrap], the
    constructor [SocketWrapper] of the file at hand. *)
Fixpoint accept (wrap : value -> M value) (x : value) : M value :=
  match x with
  | VSocket fd => bind (os_accept fd) (fun c => ret (VSocket c))
  | VSocketWrapper inner => bind (accept wrap inner) wrap
  | _ => attribute_error
  end.

(** [x.sock] *)
Definition attr_sock (x : value) : M value :=
  match x with
  | VSocketWrapper inner => ret inner
  | _ => attribute_error
  end.

(** ** The generator protocol on a heap object *)

(** A generator's frame leaves through [StopIteration] only by
    returning: a [StopIteration] that escapes the body is replaced by
    [RuntimeError] (PEP 479). *)
Definition generator_raised_StopIteration : exception :=
  Exc RuntimeError (VStr "generator raised StopIteration").

Definition generator_boundary {A} (m : M A) : M A :=
  try_except m StopIteration (raise generator_raised_StopIteration).

(** [issubclass(c', c)] among the classes above: a class and itself,
    and [UnicodeDecodeError], which is a [ValueError].  (Every [UserError]
    is a class of its own, derived from [Exception] directly, as
    [ConnectionLost] is.) *)
Definition exn_subclass (c' c : exn_class) : bool :=
  exn_class_eqb c' c
  || match c', c with
     | UnicodeDecodeError, ValueError => true
     | _, _ => false
     end.

(** The call [c()] or [c(v)] that [throw] makes to build the instance.
    [UnicodeDecodeError] takes exactly five arguments: the call fails,
    and its [TypeError] is what is injected. *)
Definition construct (c : exn_class) (arg : option value) : exception :=
  match c with
  | UnicodeDecodeError =>
      Exc TypeError
        (VStr match arg with
              | None => "function takes exactly 5 arguments (0 given)"
              | Some _ => "function takes exactly 5 arguments (1 given)"
              end)
  | _ => Exc c match arg with Some v => v | None => VNone end
  end.

(** The exception a [throw(...)] call injects, from its one to three
    positional arguments: a class with an optional instance of it (or
    the argument to build one from), or an instance alone.  An instance
    followed by a second argument other than [None], a third argument
    that is no traceback, or anything else, is a [TypeError] raised by
    the call itself. *)
Definition thrown (args : list value) : result exception :=
  let bad := Err (Exc TypeError VNone) in
  let traceback_ok tb :=
    match tb with [] | [VNone] | [VTraceback] => true | _ => false end in
  match args with
  | VExcClass c :: rest =>
      match rest with
      | [] => Ok (construct c None)
      | v :: tb =>
          if traceback_ok tb then
            match v with
            | VNone => Ok (construct c None)
            | VExcInstance c' a =>
                if exn_subclass c' c then Ok (Exc c' a)
                else Ok (construct c (Some v))
            | _ => Ok (construct c (Some v))
            end
          else bad
      end
  | VExcInstance c a :: rest =>
      match rest with
      | [] => Ok (Exc c a)
      | VNone :: tb => if traceback_ok tb then Ok (Exc c a) else bad
      | _ => bad
      end
  | _ => bad
  end.

Variable started : F -> bool.        (* has the frame run yet? *)
Variable delegating : F -> bool.     (* is it suspended in a yield from? *)
Variable resume_frame : F -> input -> M (step F).

Definition set_generator (g : gen_id) (o : generator) (w : world) : world :=
  World (<[g := o]> (heap w)) (next_gen w) (sockets w) (stdout w) (calls w).

Definition clear_calls (w : world) : world :=
  World (heap w) (next_gen w) (sockets w) (stdout w) [].

Definition escaping (e : exception) : exception :=
  if exn_class_eqb (exc_type e) StopIteration
  then generator_raised_StopIteration else e.

(** Run the frame [f] of generator [g] on [i] and translate the way the
    body ends into what the caller of [send] / [throw] sees. *)
Definition run_frame (g : gen_id) (f : F) (i : input) (w : world)
    : outcome * list call * world :=
  match resume_frame f i (clear_calls w) with
  | (Ok (Yield v f'), w') =>
      (Yields v, calls w', clear_calls (set_generator g (Gen f') w'))
  | (Ok (Return v), w') =>
      (Raises (Exc StopIteration v), calls w',
       clear_calls (set_generator g Closed w'))
  | (Err e, w') =>
      (Raises (escaping e), calls w',
       clear_calls (set_generator g Closed w'))
  end.

(** An identifier that names no generator object stands for an object
    without [send] and [throw]. *)
Definition no_such_method (w : world) : outcome * list call * world :=
  (Raises (Exc AttributeError VNone), [], w).

Definition generator_send (g : gen_id) (v : value) (w : world)
    : outcome * list call * world :=
  match heap w !! g with
  | None => no_such_method w
  | Some Closed => (Raises (Exc StopIteration VNone), [], w)
  | Some (Gen f) =>
      if started f then run_frame g f (Send v) w
      else
        match v with
        | VNone => run_frame g f (Send VNone) w
        | _ => (Raises (Exc TypeError
                  (VStr "can't send non-None value to a just-started generator")),
                [], w)
        end
  end.

Definition generator_throw (g : gen_id) (args : list value) (w : world)
    : outcome * list call * world :=
  match heap w !! g with
  | None => no_such_method w
  | Some o =>
      match thrown args, o with
      | Ok e, Closed => (Raises e, [], w)
      | Ok e, Gen f =>
          if started f then run_frame g f (Throw e) w
          else (Raises (escaping e), [], set_generator g Closed w)
      | Err e, Gen f =>
          (* the sub-generator of a [yield from] refuses the arguments;
             its caller's frame is resumed with that error *)
          if delegating f then run_frame g f (Throw e) w
          else (Raises e, [], w)
      | Err e, Closed => (Raises e, [], w)
      end
  end.

(** [time.sleep(0.01)] changes nothing the program can see. *)
Definition python_runtime : Runtime world :=
  {| coroutine_send := generator_send;
     coroutine_throw := generator_throw;
     time_sleep := fun w => w |}.
End World.

Arguments Gen {F}.
Arguments Closed {F}.
Arguments ret {F A}.
Arguments raise {F A}.
Arguments bind {F A B}.
Arguments try_except {F A}.
Arguments print {F}.
Arguments trampoline_call {F}.
Arguments new_generator {F}.
Arguments select {F}.
Arguments recv {F}.
Arguments send {F}.
Arguments attr_sock {F}.
Arguments accept {F}.
Arguments attribute_error {F A}.
Arguments M F A : clear implicits.
Arguments fileno {F}.
Arguments generator_boundary {F A}.

(** Does a computation end, or a call come back, with an exception of
    class [cls]? *)
Definition raises_class {A} (cls : exn_class) (r : result A) : bool :=
  match r with
  | Err e => exn_class_eqb (exc_type e) cls
  | Ok _ => false
  end.

Definition surfaces (cls : exn_class) (o : outcome) : bool :=
  match o with
  | Raises e => exn_class_eqb (exc_type e) cls
  | Yields _ => false
  end.

(** The bytes socket [fd] has accepted from [send] so far. *)
Definition wire {F} (fd : sock_id) (w : world F) : bytes :=
  match sockets w !! fd with
  | Some s => sent s
  | None => []
  end.

(** The descriptor an object stands for, if any (what [fileno] returns). *)
Fixpoint descriptor (x : value) : option sock_id :=
  match x with
  | VSocket fd => Some fd
  | VSocketWrapper inner => descriptor inner
  | _ => None
  end.

(** A world with the given sockets and no generator yet, and the calls
    of generator functions that populate it: the n-th call creates
    generator n. *)
Definition fresh_world {F} (socks : gmap sock_id socket) : world F :=
  World ∅ 0 socks [] [].

Fixpoint allocate {F} (fs : list F) (w : world F) : world F :=
  match fs with
  | [] => w
  | f :: rest => allocate rest (snd (new_generator f w))
  end.


Notation "x <- m ;; k" := (bind m (fun x => k))
  (at level 100, m at next level, right associativity).
Notation "m ;; k" := (bind m (fun _ => k))
  (at level 100, right associativity).

(** ** [src/trampolinepfp.py] *)
Module trampolinepfp.

(** *** Frames: the locals at each [yield] *)

Inductive read_frame :=
| ReadFrame (sock : value) (chunk_size : nat).      (* line 44 *)

Inductive write_frame :=
| WriteFrame (sock : value) (data : bytes).         (* line 52 *)

Inductive accept_frame :=
| AcceptedFrame (sock : value)                      (* line 59 *)
| RetryFrame (sock : value).                        (* line 61 *)

(** A generator object's frame: the arguments of a call that has not
    run yet, or a suspension point.  The generator a [yield from]
    iterates belongs to the delegating frame alone and is kept inside
    it. *)
Inductive frame :=
| Call_nonblocking_read (sock : value) (chunk_size : nat)
| Call_nonblocking_write (sock : value) (data : bytes)
| Call_nonblocking_accept (sock : value)
| Call_echo_handler (sock : value)
| Call_listen_on (handler : value -> frame) (sock : value)
| In_nonblocking_read (f : read_frame)
| In_nonblocking_write (f : write_frame)
| In_nonblocking_accept (f : accept_frame)
| EchoReading (sock : value) (sub : read_frame)     (* line 134 *)
| EchoWriting (sock : value) (sub : write_frame)    (* line 135 *)
| ListenAccepting (handler : value -> frame) (sock : value)
    (sub : accept_frame).                           (* line 145 *)

Abbreviation M := (M frame).

(** [SocketWrapper(sock)], a frozen dataclass. *)
Definition SocketWrapper (sock : value) : M value :=
  ret (VSocketWrapper sock).

(** *** [nonblocking_read] (lines 36-44) *)

(** It returns the data only if there is some. *)
Inductive read_step :=
| ReadSuspends (f : read_frame)
| ReadReturns (b : Byte.byte) (rest : bytes).

Definition nonblocking_read (sock : value) (chunk_size : nat) : M read_step :=
  s <- attr_sock sock ;;
  ready <- select s ;;
  if ready : bool then
    data <- recv sock chunk_size ;;
    match data with
    | [] => raise (Exc ConnectionLost (VStr "Client disconnected."))
    | b :: rest => ret (ReadReturns b rest)
    end
  else ret (ReadSuspends (ReadFrame sock chunk_size)).

Definition resume_nonblocking_read (f : read_frame) (i : input) : M read_step :=
  let 'ReadFrame sock chunk_size := f in
  match i with
  | Send _ => nonblocking_read sock chunk_size
  | Throw e => raise e
  end.

(** *** [nonblocking_write] (lines 46-52) *)

(** Lines 48-52, the body of [while data]. *)
Definition write_turn (sock : value) (data : bytes) : M write_frame :=
  s <- attr_sock sock ;;
  ready <- select s ;;
  if ready : bool then
    sent <- send sock data ;;
    ret (WriteFrame sock (skipn sent data))
  else ret (WriteFrame sock data).

Definition nonblocking_write (sock : value) (data : bytes)
    : M (step write_frame) :=
  match data with
  | [] => ret (Return VNone)
  | _ :: _ => f <- write_turn sock data ;; ret (Yield VNone f)
  end.

Definition resume_nonblocking_write (f : write_frame) (i : input)
    : M (step write_frame) :=
  let 'WriteFrame sock data := f in
  match i with
  | Send _ => nonblocking_write sock data
  | Throw e => raise e
  end.

(** *** [nonblocking_accept] (lines 54-61) *)

(** Up to the first [yield]; there always is one. *)
Definition nonblocking_accept (sock : value) : M (value * accept_frame) :=
  s <- attr_sock sock ;;
  ready <- select s ;;
  if ready : bool then
    client_sock <- accept SocketWrapper sock ;;
    ret (client_sock, AcceptedFrame sock)
  else ret (VNone, RetryFrame sock).

Definition resume_nonblocking_accept (f : accept_frame) (i : input)
    : M (step accept_frame) :=
  match i, f with
  | Throw e, _ => raise e
  | Send _, AcceptedFrame _ => ret (Return VNone)
  | Send _, RetryFrame sock =>
      r <- nonblocking_accept sock ;; ret (Yield (fst r) (snd r))
  end.

(** *** [echo_handler] (lines 131-137) *)

(** [except ConnectionLost: pass], then the end of the function. *)
Definition echo_guard (m : M (step frame)) : M (step frame) :=
  try_except m ConnectionLost (ret (Return VNone)).

(** Line 135 with the data line 134 has just produced: the write
    generator runs to its first [yield]. *)
Definition echo_write (sock : value) (b : Byte.byte) (rest : bytes)
    : M (step frame) :=
  f <- generator_boundary (write_turn sock (b :: rest)) ;;
  ret (Yield VNone (EchoWriting sock f)).

(** Line 134 entered from the top of the loop. *)
Definition echo_read (sock : value) : M (step frame) :=
  r <- generator_boundary (nonblocking_read sock chunk_size_default) ;;
  match r with
  | ReadSuspends f => ret (Yield VNone (EchoReading sock f))
  | ReadReturns b rest => echo_write sock b rest
  end.

Definition echo_handler (sock : value) : M (step frame) :=
  echo_guard (echo_read sock).

Definition resume_echo_reading (sock : value) (sub : read_frame) (i : input)
    : M (step frame) :=
  echo_guard (
    r <- generator_boundary (resume_nonblocking_read sub i) ;;
    match r with
    | ReadSuspends f => ret (Yield VNone (EchoReading sock f))
    | ReadReturns b rest => echo_write sock b rest
    end).

Definition resume_echo_writing (sock : value) (sub : write_frame) (i : input)
    : M (step frame) :=
  echo_guard (
    r <- generator_boundary (resume_nonblocking_write sub i) ;;
    match r with
    | Yield v f => ret (Yield v (EchoWriting sock f))
    | Return _ => echo_read sock
    end).

(** *** [listen_on] (lines 142-148) *)

Definition listen_guard (m : M (step frame)) : M (step frame) :=
  try_except m ConnectionLost (ret (Return VNone)).

(** Line 145 entered from the top of the loop. *)
Definition listen_accept (handler : value -> frame) (sock : value)
    : M (step frame) :=
  r <- generator_boundary (nonblocking_accept sock) ;;
  ret (Yield (fst r) (ListenAccepting handler sock (snd r))).

Definition listen_on (handler : value -> frame) (sock : value)
    : M (step frame) :=
  listen_guard (listen_accept handler sock).

Definition resume_listen_on (handler : value -> frame) (sock : value)
    (sub : accept_frame) (i : input) : M (step frame) :=
  listen_guard (
    r <- generator_boundary (resume_nonblocking_accept sub i) ;;
    match r with
    | Yield v f => ret (Yield v (ListenAccepting handler sock f))
    | Return client_sock =>
        g <- new_generator (handler client_sock) ;;
        trampoline_call (CallAdd g) ;;
        listen_accept handler sock
    end).

(** *** The generator objects of this file *)

Definition read_as_generator (m : M read_step) : M (step frame) :=
  r <- m ;;
  match r with
  | ReadSuspends f => ret (Yield VNone (In_nonblocking_read f))
  | ReadReturns b rest => ret (Return (VBytes (b :: rest)))
  end.

Definition write_as_generator (m : M (step write_frame)) : M (step frame) :=
  r <- m ;;
  match r with
  | Yield v f => ret (Yield v (In_nonblocking_write f))
  | Return v => ret (Return v)
  end.

Definition accept_as_generator (m : M (step accept_frame)) : M (step frame) :=
  r <- m ;;
  match r with
  | Yield v f => ret (Yield v (In_nonblocking_accept f))
  | Return v => ret (Return v)
  end.

Definition started (f : frame) : bool :=
  match f with
  | Call_nonblocking_read _ _ | Call_nonblocking_write _ _
  | Call_nonblocking_accept _ | Call_echo_handler _
  | Call_listen_on _ _ => false
  | _ => true
  end.

Definition delegating (f : frame) : bool :=
  match f with
  | EchoReading _ _ | EchoWriting _ _ | ListenAccepting _ _ _ => true
  | _ => false
  end.

Definition resume_frame (f : frame) (i : input) : M (step frame) :=
  match f with
  | Call_nonblocking_read sock chunk_size =>
      read_as_generator (nonblocking_read sock chunk_size)
  | Call_nonblocking_write sock data =>
      write_as_generator (nonblocking_write sock data)
  | Call_nonblocking_accept sock =>
      accept_as_generator
        (r <- nonblocking_accept sock ;; ret (Yield (fst r) (snd r)))
  | Call_echo_handler sock => echo_handler sock
  | Call_listen_on handler sock => listen_on handler sock
  | In_nonblocking_read f => read_as_generator (resume_nonblocking_read f i)
  | In_nonblocking_write f => write_as_generator (resume_nonblocking_write f i)
  | In_nonblocking_accept f =>
      accept_as_generator (resume_nonblocking_accept f i)
  | EchoReading sock sub => resume_echo_reading sock sub i
  | EchoWriting sock sub => resume_echo_writing sock sub i
  | ListenAccepting handler sock sub => resume_listen_on handler sock sub i
  end.

#[export] Instance python : Runtime (world frame) :=
  python_runtime started delegating resume_frame.

(** *** Driving a write generator

    Whoever holds the generator resumes it with [inputs] in turn, for as
    long as it stays suspended. *)
Fixpoint drive_write (inputs : list input)
    (r : result (step write_frame) * world frame)
    : result (step write_frame) * world frame :=
  match inputs, r with
  | i :: rest, (Ok (Yield _ f), w) =>
      drive_write rest (resume_nonblocking_write f i w)
  | _, _ => r
  end.

(** The state of a write in progress: the bytes on the wire followed by
    those still held by the generator are [all]; a generator that has
    returned holds none. *)
Definition write_state (sock : value) (fd : sock_id) (all : bytes)
    (r : result (step write_frame) * world frame) : Prop :=
  match r with
  | (Ok (Yield v (WriteFrame sock' rest)), w) =>
      v = VNone /\ sock' = sock /\ wire fd w ++ rest = all
  | (Ok (Return _), w) => wire fd w = all
  | (Err _, _) => True
  end.

Definition is_echo_frame (f : frame) : bool :=
  match f with
  | Call_echo_handler _ | EchoReading _ _ | EchoWriting _ _ => true
  | _ => false
  end.

(** *** The scheduler (lines 84-126) *)
Section Scheduler.
Context {W : Type} {RT : Runtime W}.

(** The call inside the [try] of [resume]: [coroutine.throw] on the items of [exc] when [exc] is not
    empty, [coroutine.send(value)] otherwise. *)
Definition invoke (r : resume_closure) (w : W)
    : outcome * list call * W :=
  match exc r with
  | [] => coroutine_send (coroutine r) (val r) w
  | _ :: _ => coroutine_throw (coroutine r) (exc r) w
  end.

(** The body of [resume] (lines 93-109).  Only [StopIteration] is
    caught; the [else] branch handles a yielded value. *)
Definition resume (r : resume_closure) (t : Trampoline) (w : W)
    : completion * Trampoline * W :=
  let '(out, calls, w') := invoke r w in
  let t' := exec_calls calls t in
  match out with
  | Raises e =>
      if exn_class_eqb (exc_type e) StopIteration then
        match stack r with
        | parent :: rest =>
            let '(ty, ex) := exc_info e in
            (Normal, schedule parent rest ty ex t', w')
        | [] => (Propagates e, t', w')
        end
      else (Propagates e, t', w')
  | Yields value =>
      match value with
      | VGenerator g =>
          (Normal, schedule g (coroutine r :: stack r) VNone [] t', w')
      | _ =>
          match stack r with
          | parent :: rest => (Normal, schedule parent rest value [] t', w')
          | [] => (Normal, t', w')
          end
      end
  end.

(** The [while self.running] loop of [run] (lines 116-121); one unit of
    fuel per iteration. *)
Fixpoint run_loop (fuel : nat) (t : Trampoline) (w : W) : run_result W :=
  match fuel with
  | O => RunOutOfFuel t w
  | S fuel' =>
      if running t then
        match queue t with
        | task :: q =>
            match resume task (Tramp q (running t)) w with
            | (Normal, t', w') => run_loop fuel' t' w'
            | (Propagates e, t', w') => RunRaises e t' w'
            end
        | [] => run_loop fuel' t (time_sleep w)
        end
      else RunReturns VNone t w
  end.

(** [run] (lines 113-123). *)
Definition run (fuel : nat) (t : Trampoline) (w : W) : run_result W :=
  finally_not_running (run_loop fuel (Tramp (queue t) true) w).
End Scheduler.

End trampolinepfp.

(** ** [src/treamp2.py] *)
Module treamp2.

Inductive read_frame :=
| ReadFrame (sock : value) (chunk_size : nat).      (* line 38 *)

Inductive write_frame :=
| WriteFrame (sock : value) (data : bytes).         (* line 51 *)

Inductive accept_frame :=
| AcceptedFrame (sock : value)                      (* line 63 *)
| RetryFrame (sock : value).                        (* line 65 *)

(** As in the other file; here only [listen_on] delegates with
    [yield from], and [echo_handler] yields the generators it creates
    to the trampoline. *)
Inductive frame :=
| Call_nonblocking_read (sock : value) (chunk_size : nat)
| Call_nonblocking_write (sock : value) (data : bytes)
| Call_nonblocking_accept (sock : value)
| Call_echo_handler (sock : value)
| Call_listen_on (handler : value -> frame) (sock : value)
| In_nonblocking_read (f : read_frame)
| In_nonblocking_write (f : write_frame)
| In_nonblocking_accept (f : accept_frame)
| EchoAtRead (wrapped_sock : value)                       (* line 158 *)
| EchoAtWrite (wrapped_sock : value) (data : bytes)       (* line 161 *)
| ListenAccepting (handler : value -> frame) (wrapped_sock : value)
    (sub : accept_frame).                                 (* line 175 *)

Abbreviation M := (M frame).

(** [SocketWrapper(sock)] (lines 9-12). *)
Definition SocketWrapper (sock : value) : M value :=
  if truthy sock then ret (VSocketWrapper sock)
  else raise (Exc ValueError (VStr "Socket cannot be None")).

(** [if not isinstance(sock, SocketWrapper): sock = SocketWrapper(sock)] *)
Definition ensure_wrapped (sock : value) : M value :=
  match sock with
  | VSocketWrapper _ => ret sock
  | _ => SocketWrapper sock
  end.

(** [except socket.error: raise ConnectionLost()] *)
Definition socket_guard {A} (m : M A) : M A :=
  try_except m OSError (raise (Exc ConnectionLost VNone)).

(** *** [nonblocking_read] (lines 27-40) *)

Inductive read_step :=
| ReadSuspends (f : read_frame)
| ReadReturns (b : Byte.byte) (rest : bytes).

(** Lines 31-40, one turn of [while True]. *)
Definition read_turn (sock : value) (chunk_size : nat) : M read_step :=
  socket_guard (
    ready <- select sock ;;
    if ready : bool then
      data <- recv sock chunk_size ;;
      match data with
      | [] => raise (Exc ConnectionLost VNone)
      | b :: rest => ret (ReadReturns b rest)
      end
    else ret (ReadSuspends (ReadFrame sock chunk_size))).

Definition nonblocking_read (sock : value) (chunk_size : nat) : M read_step :=
  sock <- ensure_wrapped sock ;;
  read_turn sock chunk_size.

Definition resume_nonblocking_read (f : read_frame) (i : input) : M read_step :=
  let 'ReadFrame sock chunk_size := f in
  match i with
  | Send _ => read_turn sock chunk_size
  | Throw e => socket_guard (raise e)
  end.

(** *** [nonblocking_write] (lines 42-53) *)

(** Lines 46-53, the body of [while data]. *)
Definition write_turn (sock : value) (data : bytes) : M write_frame :=
  socket_guard (
    ready <- select sock ;;
    if ready : bool then
      sent <- send sock data ;;
      ret (WriteFrame sock (skipn sent data))
    else ret (WriteFrame sock data)).

(** Line 45. *)
Definition write_loop (sock : value) (data : bytes) : M (step write_frame) :=
  match data with
  | [] => ret (Return VNone)
  | _ :: _ => f <- write_turn sock data ;; ret (Yield VNone f)
  end.

Definition nonblocking_write (sock : value) (data : bytes)
    : M (step write_frame) :=
  sock <- ensure_wrapped sock ;;
  write_loop sock data.

Definition resume_nonblocking_write (f : write_frame) (i : input)
    : M (step write_frame) :=
  let 'WriteFrame sock data := f in
  match i with
  | Send _ => write_loop sock data
  | Throw e => socket_guard (raise e)
  end.

(** *** [nonblocking_accept] (lines 55-67) *)

(** Lines 59-67, one turn of [while True], up to its [yield]. *)
Definition accept_turn (sock : value) : M (value * accept_frame) :=
  socket_guard (
    ready <- select sock ;;
    if ready : bool then
      client_sock <- accept SocketWrapper sock ;;
      ret (client_sock, AcceptedFrame sock)
    else ret (VNone, RetryFrame sock)).

Definition nonblocking_accept (sock : value) : M (value * accept_frame) :=
  sock <- ensure_wrapped sock ;;
  accept_turn sock.

Definition resume_nonblocking_accept (f : accept_frame) (i : input)
    : M (step accept_frame) :=
  match i, f with
  | Throw e, _ => socket_guard (raise e)
  | Send _, AcceptedFrame _ => ret (Return VNone)
  | Send _, RetryFrame sock =>
      r <- accept_turn sock ;; ret (Yield (fst r) (snd r))
  end.

(** *** [echo_handler] (lines 148-165) *)

(** [v.decode('utf-8')] *)
Definition decode (v : value) : M string :=
  match v with
  | VBytes b =>
      if utf8_valid b then ret (string_of_list_byte b)
      else raise (Exc UnicodeDecodeError VNone)
  | _ => attribute_error
  end.

(** Lines 163-165, then the end of the function. *)
Definition echo_guard (m : M (step frame)) : M (step frame) :=
  try_except m ConnectionLost
    (print "Connection lost." ;; ret (Return VNone)).

(** Line 158 entered from the top of the loop. *)
Definition echo_read (wrapped_sock : value) : M (step frame) :=
  echo_guard (
    g <- new_generator (Call_nonblocking_read wrapped_sock chunk_size_default) ;;
    ret (Yield (VGenerator g) (EchoAtRead wrapped_sock))).

Definition echo_handler (sock : value) : M (step frame) :=
  match sock with
  | VNone => raise (Exc ValueError (VStr "Socket must be initialized"))
  | _ =>
      wrapped_sock <- SocketWrapper sock ;;
      print "Handler started for a new client." ;;
      echo_read wrapped_sock
  end.

(** Resumed at line 158: [data] is what was sent. *)
Definition resume_echo_at_read (wrapped_sock : value) (i : input)
    : M (step frame) :=
  echo_guard (
    match i with
    | Throw e => raise e
    | Send data =>
        text <- decode data ;;
        print ("Received data: " ++ text) ;;
        match data with
        | VBytes b =>
            g <- new_generator (Call_nonblocking_write wrapped_sock b) ;;
            ret (Yield (VGenerator g) (EchoAtWrite wrapped_sock b))
        | _ => attribute_error
        end
    end).

(** Resumed at line 161. *)
Definition resume_echo_at_write (wrapped_sock : value) (data : bytes)
    (i : input) : M (step frame) :=
  echo_guard (
    match i with
    | Throw e => raise e
    | Send _ =>
        text <- decode (VBytes data) ;;
        print ("Echoed back: " ++ text) ;;
        echo_read wrapped_sock
    end).

(** *** [listen_on] (lines 167-182) *)

Definition listen_guard (m : M (step frame)) : M (step frame) :=
  try_except m ConnectionLost
    (print "Connection lost while accepting." ;; ret (Return VNone)).

(** Line 175 entered from the top of the loop. *)
Definition listen_accept (handler : value -> frame) (wrapped_sock : value)
    : M (step frame) :=
  listen_guard (
    r <- generator_boundary (nonblocking_accept wrapped_sock) ;;
    ret (Yield (fst r) (ListenAccepting handler wrapped_sock (snd r)))).

Definition listen_on (handler : value -> frame) (sock : value)
    : M (step frame) :=
  match sock with
  | VNone => raise (Exc ValueError (VStr "Listening socket must be initialized"))
  | _ =>
      wrapped_sock <- SocketWrapper sock ;;
      listen_accept handler wrapped_sock
  end.

Definition resume_listen_on (handler : value -> frame) (wrapped_sock : value)
    (sub : accept_frame) (i : input) : M (step frame) :=
  listen_guard (
    r <- generator_boundary (resume_nonblocking_accept sub i) ;;
    match r with
    | Yield v f => ret (Yield v (ListenAccepting handler wrapped_sock f))
    | Return client_sock =>
        (if truthy client_sock then
           print "New connection accepted." ;;
           handler_coro <- new_generator (handler client_sock) ;;
           trampoline_call (CallAdd handler_coro)
         else ret tt) ;;
        listen_accept handler wrapped_sock
    end).

(** *** The generator objects of this file *)

Definition read_as_generator (m : M read_step) : M (step frame) :=
  r <- m ;;
  match r with
  | ReadSuspends f => ret (Yield VNone (In_nonblocking_read f))
  | ReadReturns b rest => ret (Return (VBytes (b :: rest)))
  end.

Definition write_as_generator (m : M (step write_frame)) : M (step frame) :=
  r <- m ;;
  match r with
  | Yield v f => ret (Yield v (In_nonblocking_write f))
  | Return v => ret (Return v)
  end.

Definition accept_as_generator (m : M (step accept_frame)) : M (step frame) :=
  r <- m ;;
  match r with
  | Yield v f => ret (Yield v (In_nonblocking_accept f))
  | Return v => ret (Return v)
  end.

Definition started (f : frame) : bool :=
  match f with
  | Call_nonblocking_read _ _ | Call_nonblocking_write _ _
  | Call_nonblocking_accept _ | Call_echo_handler _
  | Call_listen_on _ _ => false
  | _ => true
  end.

Definition delegating (f : frame) : bool :=
  match f with
  | ListenAccepting _ _ _ => true
  | _ => false
  end.

Definition resume_frame (f : frame) (i : input) : M (step frame) :=
  match f with
  | Call_nonblocking_read sock chunk_size =>
      read_as_generator (nonblocking_read sock chunk_size)
  | Call_nonblocking_write sock data =>
      write_as_generator (nonblocking_write sock data)
  | Call_nonblocking_accept sock =>
      accept_as_generator
        (r <- nonblocking_accept sock ;; ret (Yield (fst r) (snd r)))
  | Call_echo_handler sock => echo_handler sock
  | Call_listen_on handler sock => listen_on handler sock
  | In_nonblocking_read f => read_as_generator (resume_nonblocking_read f i)
  | In_nonblocking_write f => write_as_generator (resume_nonblocking_write f i)
  | In_nonblocking_accept f =>
      accept_as_generator (resume_nonblocking_accept f i)
  | EchoAtRead wrapped_sock => resume_echo_at_read wrapped_sock i
  | EchoAtWrite wrapped_sock data => resume_echo_at_write wrapped_sock data i
  | ListenAccepting handler wrapped_sock sub =>
      resume_listen_on handler wrapped_sock sub i
  end.

#[export] Instance python : Runtime (world frame) :=
  python_runtime started delegating resume_frame.

(** *** Driving a write generator

    Whoever holds the generator resumes it with [inputs] in turn, for as
    long as it stays suspended. *)
Fixpoint drive_write (inputs : list input)
    (r : result (step write_frame) * world frame)
    : result (step write_frame) * world frame :=
  match inputs, r with
  | i :: rest, (Ok (Yield _ f), w) =>
      drive_write rest (resume_nonblocking_write f i w)
  | _, _ => r
  end.

(** The state of a write in progress: the bytes on the wire followed by
    those still held by the generator are [all]; a generator that has
    returned holds none. *)
Definition write_state (sock : value) (fd : sock_id) (all : bytes)
    (r : result (step write_frame) * world frame) : Prop :=
  match r with
  | (Ok (Yield v (WriteFrame sock' rest)), w) =>
      v = VNone /\ sock' = sock /\ wire fd w ++ rest = all
  | (Ok (Return _), w) => wire fd w = all
  | (Err _, _) => True
  end.

Definition is_echo_frame (f : frame) : bool :=
  match f with
  | Call_echo_handler _ | EchoAtRead _ | EchoAtWrite _ _ => true
  | _ => false
  end.

(** *** The scheduler (lines 83-146) *)
Section Scheduler.
Context {W : Type} {RT : Runtime W}.

(** Lines 133-144: what [resume] does with [value] once the [try]
    statement is over. *)
Definition dispatch (r : resume_closure) (value : value) (t : Trampoline)
    : Trampoline :=
  match value with
  | VGenerator g => schedule g (coroutine r :: stack r) VNone [] t
  | _ =>
      match stack r with
      | parent :: rest => schedule parent rest value [] t
      | [] => t
      end
  end.

(** The call inside the [try] of [resume]: [coroutine.throw] on [value] and the items of [exc] when [exc] is not
    empty, [coroutine.send(value)] otherwise. *)
Definition invoke (r : resume_closure) (w : W)
    : outcome * list call * W :=
  match exc r with
  | [] => coroutine_send (coroutine r) (val r) w
  | _ :: _ => coroutine_throw (coroutine r) (val r :: exc r) w
  end.

(** The body of [resume] (lines 114-144).  The bare [except:] catches
    everything; with a parent on the stack the handler schedules it and
    falls out of the [try] statement with [value] still bound to
    [val]. *)
Definition resume (r : resume_closure) (t : Trampoline) (w : W)
    : completion * Trampoline * W :=
  let '(out, calls, w') := invoke r w in
  let t' := exec_calls calls t in
  match out with
  | Raises e =>
      match stack r with
      | parent :: rest =>
          let '(ty, ex) := exc_info e in
          (Normal, dispatch r (val r) (schedule parent rest ty ex t'), w')
      | [] => (Propagates e, t', w')
      end
  | Yields value => (Normal, dispatch r value t', w')
  end.

(** The loop of [run] (lines 99-105).  [result = func()] is always
    [None]: [resume] has no [return]. *)
Fixpoint run_loop (fuel : nat) (t : Trampoline) (w : W) : run_result W :=
  match fuel with
  | O => RunOutOfFuel t w
  | S fuel' =>
      if running t then
        match queue t with
        | func :: q =>
            match resume func (Tramp q (running t)) w with
            | (Normal, t', w') => run_loop fuel' t' w'
            | (Propagates e, t', w') => RunRaises e t' w'
            end
        | [] => run_loop fuel' t (time_sleep w)
        end
      else RunReturns VNone t w
  end.

(** [run] (lines 95-108). *)
Definition run (fuel : nat) (t : Trampoline) (w : W) : run_result W :=
  finally_not_running (run_loop fuel (Tramp (queue t) true) w).
End Scheduler.

End treamp2.

(** ** Scripted coroutines

    A generator that takes no notice of what is sent or thrown into it is
    the list of what its successive resumptions do: the calls it makes on
    the trampoline, then the value it yields or the exception it raises.
    Once it has raised, or the list is used up, the generator is
    exhausted. *)
Definition script := list (list call * outcome).

Definition scripted_resume (g : gen_id) (w : gmap gen_id script)
    : outcome * list call * gmap gen_id script :=
  match w !! g with
  | Some ((cs, Yields v) :: rest) => (Yields v, cs, <[g := rest]> w)
  | Some ((cs, Raises e) :: _) => (Raises e, cs, <[g := []]> w)
  | _ => (Raises (Exc StopIteration VNone), [], w)
  end.

Definition scripted : Runtime (gmap gen_id script) :=
  {| coroutine_send := fun g _ => scripted_resume g;
     coroutine_throw := fun g _ => scripted_resume g;
     time_sleep := fun w => w |}.

(** ** Concrete inputs *)

Definition hello : bytes := list_byte_of_string "hello".

(** Two scripted coroutines: the first raises at its first step, the
    second is queued behind it. *)
Definition faulty_then_idle : gmap gen_id script :=
  <[0 := [([], Raises (Exc (UserError 0) VNone))]]>
    (<[1 := [([], Yields VNone)]]> ∅).

(** Two scripted coroutines: the first calls [stop()] and suspends, the
    second is queued behind it. *)
Definition stopper_then_idle : gmap gen_id script :=
  <[0 := [([CallStop], Yields VNone)]]>
    (<[1 := [([], Yields VNone)]]> ∅).

(** Two scripted coroutines: the first calls [stop()] and returns, the
    second is queued behind it. *)
Definition stopper_that_returns : gmap gen_id script :=
  <[0 := [([CallStop], Raises (Exc StopIteration VNone))]]>
    (<[1 := [([], Yields VNone)]]> ∅).

(** [t = Trampoline(); t.add(g0); t.add(g1)] *)
Definition two_tasks : Trampoline := add 1 (add 0 Trampoline_init).

(** A scripted parent that yields a sub-task (generator 1) and expects
    to be resumed twice more; the sub-task raises [ConnectionLost] at
    its first step. *)
Definition parent_of_faulty_child : gmap gen_id script :=
  <[0 := [([], Yields (VGenerator 1)); ([], Yields VNone); ([], Yields VNone)]]>
    (<[1 := [([], Raises (Exc ConnectionLost VNone))]]> ∅).

(** A scripted sub-task (generator 1) that is exhausted at its first
    step, under the parent chain [[0]]. *)
Definition exhausted_child : gmap gen_id script :=
  <[0 := [([], Yields VNone)]]> (<[1 := []]> ∅).

(** A scripted parent that yields a sub-task (generator 1) which is
    exhausted at its first step. *)
Definition parent_of_exhausted_child : gmap gen_id script :=
  <[0 := [([], Yields (VGenerator 1)); ([], Yields VNone)]]> (<[1 := []]> ∅).

(** A connected socket whose peer has closed, one with five bytes to
    read, as [echo_handler] and [nonblocking_read] receive them in
    [trampolinepfp.py] (wrapped once). *)
Definition closed_and_busy : gmap sock_id socket :=
  <[3 := Socket [Ready; Data []] []]>
    (<[4 := Socket [Ready; Data hello] []]> ∅).

(** [g0 = nonblocking_read(s3); g1 = nonblocking_read(s4)] *)
Definition pfp_two_readers : world trampolinepfp.frame :=
  allocate [trampolinepfp.Call_nonblocking_read (VSocketWrapper (VSocket 3))
              chunk_size_default;
            trampolinepfp.Call_nonblocking_read (VSocketWrapper (VSocket 4))
              chunk_size_default]
    (fresh_world closed_and_busy).

Definition t2_two_readers : world treamp2.frame :=
  allocate [treamp2.Call_nonblocking_read (VSocketWrapper (VSocket 3))
              chunk_size_default;
            treamp2.Call_nonblocking_read (VSocketWrapper (VSocket 4))
              chunk_size_default]
    (fresh_world closed_and_busy).

(** A socket on which select reports readiness and the operation then
    fails (a reset connection, say). *)
Definition faulty_socket : gmap sock_id socket :=
  <[3 := Socket [Ready; OpFault] []]> ∅.


(** A listening socket (descriptor 3) with two connections waiting
    (descriptors 4 and 5), the first with data to echo. *)
Definition two_clients : gmap sock_id socket :=
  <[3 := Socket [Ready; Conn 4; Ready; Conn 5] []]>
    (<[4 := Socket [Ready; Data hello; Ready; Room 5] []]>
       (<[5 := Socket [] []]> ∅)).

(** [server = listen_on(t, server_socket, echo_handler); t.add(server)],
    [server_socket] being the [SocketWrapper] that [listening_socket]
    returns. *)
Definition pfp_server : world trampolinepfp.frame :=
  allocate [trampolinepfp.Call_listen_on trampolinepfp.Call_echo_handler
              (VSocketWrapper (VSocket 3))]
    (fresh_world two_clients).

Definition t2_server : world treamp2.frame :=
  allocate [treamp2.Call_listen_on treamp2.Call_echo_handler
              (VSocketWrapper (VSocket 3))]
    (fresh_world two_clients).

Definition one_task : Trampoline := add 0 Trampoline_init.

(** [t.add(echo_handler(client))] in [treamp2.py], [client] having five
    bytes to read. *)
Definition t2_handler : world treamp2.frame :=
  allocate [treamp2.Call_echo_handler (VSocketWrapper (VSocket 4))]
    (fresh_world two_clients).

(** A handler of [trampolinepfp.py] suspended in its read (line 134) on
    the socket whose peer has closed, as generator 0. *)
Definition pfp_handler_reading : world trampolinepfp.frame :=
  allocate [trampolinepfp.EchoReading (VSocketWrapper (VSocket 3))
              (trampolinepfp.ReadFrame (VSocketWrapper (VSocket 3))
                 chunk_size_default)]
    (fresh_world closed_and_busy).

(** A handler of [treamp2.py] suspended at line 158, as generator 0. *)
Definition t2_handler_reading : world treamp2.frame :=
  allocate [treamp2.EchoAtRead (VSocketWrapper (VSocketWrapper (VSocket 3)))]
    (fresh_world closed_and_busy).

(** [t.add(echo_handler(s3))] in [trampolinepfp.py], on the socket whose
    operations fail. *)
Definition pfp_handler_on_faulty_socket : world trampolinepfp.frame :=
  allocate [trampolinepfp.Call_echo_handler (VSocketWrapper (VSocket 3))]
    (fresh_world faulty_socket).

(** In [trampolinepfp.py]: a generator already suspended (generator 0,
    a read waiting on socket 4) and [nonblocking_write(s3, b"")]
    (generator 1), scheduled with generator 0 as its parent chain:
    [t.schedule(g1, (g0, ()))]. *)
Definition pfp_parent_and_empty_write : world trampolinepfp.frame :=
  allocate [trampolinepfp.In_nonblocking_read
              (trampolinepfp.ReadFrame (VSocketWrapper (VSocket 4))
                 chunk_size_default);
            trampolinepfp.Call_nonblocking_write (VSocketWrapper (VSocket 3)) []]
    (fresh_world closed_and_busy).

Definition child_of_0 : Trampoline := schedule 1 [0] VNone [] Trampoline_init.

(** ** Driving a generator object's frame

    Whoever holds a generator resumes its frame with [inputs] in turn,
    for as long as it stays suspended. *)
Fixpoint drive {F} (resume : F -> input -> M F (step F))
    (inputs : list input) (r : result (step F) * world F)
    : result (step F) * world F :=
  match inputs, r with
  | i :: rest, (Ok (Yield _ f), w) => drive resume rest (resume f i w)
  | _, _ => r
  end.

(** The bytes that have arrived on a socket and that [recv] has not
    returned yet. *)
Fixpoint arriving (evs : list os_event) : bytes :=
  match evs with
  | [] => []
  | Data b :: rest => b ++ arriving rest
  | _ :: rest => arriving rest
  end.

Definition pending {F} (fd : sock_id) (w : world F) : bytes :=
  match sockets w !! fd with
  | Some s => arriving (events s)
  | None => []
  end.

(** The bytes a handler of [trampolinepfp.py] has read and not yet
    handed to [send]: those its write generator still holds. *)
Definition held (f : trampolinepfp.frame) : bytes :=
  match f with
  | trampolinepfp.EchoWriting _ (trampolinepfp.WriteFrame _ rest) => rest
  | _ => []
  end.

(** The frames of [echo_handler(sock)] in [trampolinepfp.py]: the
    generators it delegates to were created on [sock], and the read one
    with the default chunk size. *)
Definition handles (sock : value) (f : trampolinepfp.frame) : Prop :=
  match f with
  | trampolinepfp.Call_echo_handler s => s = sock
  | trampolinepfp.EchoReading s (trampolinepfp.ReadFrame s' n) =>
      s = sock /\ s' = sock /\ n = chunk_size_default
  | trampolinepfp.EchoWriting s (trampolinepfp.WriteFrame s' _) =>
      s = sock /\ s' = sock
  | _ => False
  end.

(** The frames of [listen_on] in either file. *)
Definition pfp_is_listen_frame (f : trampolinepfp.frame) : bool :=
  match f with
  | trampolinepfp.Call_listen_on _ _
  | trampolinepfp.ListenAccepting _ _ _ => true
  | _ => false
  end.

Definition t2_is_listen_frame (f : treamp2.frame) : bool :=
  match f with
  | treamp2.Call_listen_on _ _ | treamp2.ListenAccepting _ _ _ => true
  | _ => false
  end.

(** The handler function a [listen_on] frame was given. *)
Definition pfp_handler_of (f : trampolinepfp.frame)
    : option (value -> trampolinepfp.frame) :=
  match f with
  | trampolinepfp.Call_listen_on h _
  | trampolinepfp.ListenAccepting h _ _ => Some h
  | _ => None
  end.

(** A scripted parent (generator 0) and a sub-task (generator 1) that
    yields a value and would go on. *)
Definition child_with_result : gmap gen_id script :=
  <[0 := [([], Yields (VGenerator 1)); ([], Yields VNone)]]>
    (<[1 := [([], Yields (VBytes hello)); ([], Yields VNone)]]> ∅).

(** A socket on which nothing happens for two polls, then five bytes
    arrive. *)
Definition late_data : gmap sock_id socket :=
  <[3 := Socket [Timeout; Timeout; Ready; Data hello; Ready; Room 3] []]> ∅.

(** A socket with five bytes to read and room for three. *)
Definition data_and_room : gmap sock_id socket :=
  <[3 := Socket [Ready; Data hello; Ready; Room 3; Ready; Room 9] []]> ∅.

(** A listening socket with one connection waiting after one idle
    poll. *)
Definition one_client : gmap sock_id socket :=
  <[3 := Socket [Timeout; Ready; Conn 4] []]> (<[4 := Socket [] []]> ∅).

(** Code that only talks to the system and prints leaves the generator
    objects and the calls made on the trampoline as they were. *)
Definition same_objects {F} (w w' : world F) : Prop :=
  heap w' = heap w /\ next_gen w' = next_gen w /\ calls w' = calls w.

Definition quiet {F A} (m : M F A) : Prop :=
  forall w, same_objects w (snd (m w)).

(** A computation that prints nothing. *)
Definition silent {F A} (m : M F A) : Prop :=
  forall w, stdout (snd (m w)) = stdout w.

(** A listener of [trampolinepfp.py] suspended at the [yield] that
    hands over the first connection (generator 0). *)
Definition pfp_listener_accepted : world trampolinepfp.frame :=
  allocate [trampolinepfp.ListenAccepting trampolinepfp.Call_echo_handler
              (VSocketWrapper (VSocket 3))
              (trampolinepfp.AcceptedFrame (VSocketWrapper (VSocket 3)))]
    (fresh_world two_clients).

(** In [treamp2.py]: the world once the handler [g], called on
    [SocketWrapper(inner)], has taken its first step in [w]: it has
    wrapped its socket again, printed its greeting, created its read
    generator and yielded it. *)
Definition t2_handler_started (g : gen_id) (inner : value)
    (w : world treamp2.frame) : world treamp2.frame :=
  World (<[g := Gen (treamp2.EchoAtRead
                       (VSocketWrapper (VSocketWrapper inner)))]>
           (<[next_gen w
              := Gen (treamp2.Call_nonblocking_read
                        (VSocketWrapper (VSocketWrapper inner))
                        chunk_size_default)]> (heap w)))
        (S (next_gen w)) (sockets w)
        (stdout w ++ ["Handler started for a new client."%string]) [].

(** [t.add(echo_handler(client))] in [treamp2.py], nothing having
    arrived on [client] yet. *)
Definition t2_handler_idle : world treamp2.frame :=
  allocate [treamp2.Call_echo_handler (VSocketWrapper (VSocket 3))]
    (fresh_world late_data).

(** * Properties *)

(** ** The queue only grows at its tail *)

Lemma schedule_queue c stk v ex t :
  queue (schedule c stk v ex t) = queue t ++ [Resume c stk v ex].
Proof. reflexivity. Qed.

Lemma schedule_running c stk v ex t :
  running (schedule c stk v ex t) = running t.
Proof. reflexivity. Qed.

Lemma exec_calls_queue cs : forall t,
  exists added, queue (exec_calls cs t) = queue t ++ added.
Proof.
  unfold exec_calls.
  induction cs as [|c cs IH]; intros t; simpl.
  - exists []. now rewrite app_nil_r.
  - destruct (IH (exec_call t c)) as [added Hq]. rewrite Hq.
    destruct c as [g|]; simpl.
    + exists (Resume g [] VNone [] :: added). now rewrite <- app_assoc.
    + now exists added.
Qed.

Lemma exec_calls_not_running cs : forall t,
  running t = false -> running (exec_calls cs t) = false.
Proof.
  unfold exec_calls.
  induction cs as [|c cs IH]; intros t Ht; simpl; [exact Ht|].
  apply IH. now destruct c.
Qed.

Lemma exec_calls_stop cs : forall t,
  In CallStop cs -> running (exec_calls cs t) = false.
Proof.
  induction cs as [|c cs IH]; intros t Hin; [contradiction|].
  destruct Hin as [->|Hin]; [|now apply IH].
  now apply (exec_calls_not_running cs (stop t)).
Qed.

Lemma dispatch_queue r v t :
  exists added, queue (treamp2.dispatch r v t) = queue t ++ added.
Proof.
  unfold treamp2.dispatch.
  destruct v; try (destruct (stack r); [exists []; now rewrite app_nil_r|]);
    eexists; apply schedule_queue.
Qed.

Lemma dispatch_running r v t :
  running (treamp2.dispatch r v t) = running t.
Proof.
  unfold treamp2.dispatch. destruct v; try reflexivity; now destruct (stack r).
Qed.

Section SchedulerFacts.
Context {W : Type} {RT : Runtime W}.

(** A resume step leaves what was queued in place and in order; whatever
    it or its coroutine schedules comes after. *)
Lemma pfp_resume_queue r t w c t' w' :
  trampolinepfp.resume r t w = (c, t', w') ->
  exists added, queue t' = queue t ++ added.
Proof.
  unfold trampolinepfp.resume.
  destruct (trampolinepfp.invoke r w) as [[out cs] w1].
  destruct (exec_calls_queue cs t) as [a Ha].
  destruct out as [v|e].
  - destruct v; try (destruct (stack r));
      intros [= <- <- <-]; rewrite ?schedule_queue, Ha, <- ?app_assoc; eauto.
  - destruct (exn_class_eqb (exc_type e) StopIteration);
      [destruct (stack r)|]; simpl;
      intros [= <- <- <-]; rewrite ?schedule_queue, Ha, <- ?app_assoc; eauto.
Qed.

Lemma t2_resume_queue r t w c t' w' :
  treamp2.resume r t w = (c, t', w') ->
  exists added, queue t' = queue t ++ added.
Proof.
  unfold treamp2.resume.
  destruct (treamp2.invoke r w) as [[out cs] w1].
  destruct (exec_calls_queue cs t) as [a Ha].
  destruct out as [v|e].
  - intros [= <- <- <-].
    destruct (dispatch_queue r v (exec_calls cs t)) as [b Hb].
    rewrite Hb, Ha, <- app_assoc. eauto.
  - destruct (stack r) as [|parent rest]; simpl; intros [= <- <- <-].
    + eauto.
    + destruct (dispatch_queue r (val r)
        (schedule parent rest (VExcClass (exc_type e))
           [VExcInstance (exc_type e) (exc_arg e); VTraceback]
           (exec_calls cs t))) as [b Hb].
      rewrite Hb, schedule_queue, Ha, <- !app_assoc. eauto.
Qed.

(** The scheduler itself never touches [running]: after a resume step
    the flag is what the coroutine's own calls made of it. *)
Lemma pfp_resume_running r t w :
  running (snd (fst (trampolinepfp.resume r t w)))
  = running (exec_calls (snd (fst (trampolinepfp.invoke r w))) t).
Proof.
  unfold trampolinepfp.resume.
  destruct (trampolinepfp.invoke r w) as [[out cs] w1]; simpl.
  destruct out as [v|e].
  - destruct v; try (destruct (stack r)); reflexivity.
  - destruct (exn_class_eqb (exc_type e) StopIteration);
      [destruct (stack r)|]; reflexivity.
Qed.

Lemma t2_resume_running r t w :
  running (snd (fst (treamp2.resume r t w)))
  = running (exec_calls (snd (fst (treamp2.invoke r w))) t).
Proof.
  unfold treamp2.resume.
  destruct (treamp2.invoke r w) as [[out cs] w1]; simpl.
  destruct out as [v|e].
  - simpl. apply dispatch_running.
  - destruct (stack r); simpl; [reflexivity|].
    now rewrite dispatch_running.
Qed.

(** Once the flag is down the loop is over, whatever is queued. *)
Lemma pfp_run_loop_stopped fuel t w :
  running t = false ->
  trampolinepfp.run_loop (S fuel) t w = RunReturns VNone t w.
Proof. intros H. simpl. now rewrite H. Qed.

Lemma t2_run_loop_stopped fuel t w :
  running t = false ->
  treamp2.run_loop (S fuel) t w = RunReturns VNone t w.
Proof. intros H. simpl. now rewrite H. Qed.

End SchedulerFacts.

(** ** [run] and faults of top-level tasks *)

(** C1, as the code has it: when the resume step of a task with an empty
    parent chain raises, [resume] re-raises and [run] has no handler, so
    the fault leaves [run] at once.  The [finally] clause resets
    [running]; the tasks that were queued behind stay queued, none of
    them resumed. *)
Theorem top_level_fault_escapes_run
    (W : Type) (RT : Runtime W) (fuel : nat) (t : Trampoline) (w : W)
    (task : resume_closure) (q : list resume_closure)
    (e : exception) (cs : list call) (w' : W) :
  queue t = task :: q ->
  stack task = [] ->
  (trampolinepfp.invoke task w = (Raises e, cs, w') ->
   trampolinepfp.run (S fuel) t w
   = RunRaises e (stop (exec_calls cs (Tramp q true))) w')
  /\ (treamp2.invoke task w = (Raises e, cs, w') ->
      treamp2.run (S fuel) t w
      = RunRaises e (stop (exec_calls cs (Tramp q true))) w')
  /\ exists added, queue (stop (exec_calls cs (Tramp q true))) = q ++ added.
Proof.
  intros Hq Hstack. repeat split.
  - intros Hinv. unfold trampolinepfp.run. simpl. rewrite Hq.
    unfold trampolinepfp.resume. rewrite Hinv, Hstack.
    now destruct (exn_class_eqb (exc_type e) StopIteration).
  - intros Hinv. unfold treamp2.run. simpl. rewrite Hq.
    unfold treamp2.resume. now rewrite Hinv, Hstack.
  - apply (exec_calls_queue cs (Tramp q true)).
Qed.

Lemma top_level_fault_escapes_run_witness :
  trampolinepfp.run (RT := scripted) 1 two_tasks faulty_then_idle
  = RunRaises (Exc (UserError 0) VNone)
      (Tramp [Resume 1 [] VNone []] false) (<[0 := []]> faulty_then_idle)
  /\ treamp2.run (RT := scripted) 1 two_tasks faulty_then_idle
     = RunRaises (Exc (UserError 0) VNone)
         (Tramp [Resume 1 [] VNone []] false) (<[0 := []]> faulty_then_idle).
Proof.
  pose proof (@top_level_fault_escapes_run _ scripted 0 two_tasks
    faulty_then_idle (Resume 0 [] VNone []) [Resume 1 [] VNone []]
    (Exc (UserError 0) VNone) [] (<[0 := []]> faulty_then_idle)
    eq_refl eq_refl) as [Hpfp [Ht2 _]].
  split; [apply Hpfp | apply Ht2]; reflexivity.
Defined.

(** C10: however [run] ends, by returning or by an exception, the flag
    is down once it has ended. *)
Theorem run_exits_not_running
    (W : Type) (RT : Runtime W) (fuel : nat) (t : Trampoline) (w : W) :
  (exited (trampolinepfp.run fuel t w) = true ->
   running (final_trampoline (trampolinepfp.run fuel t w)) = false)
  /\ (exited (treamp2.run fuel t w) = true ->
      running (final_trampoline (treamp2.run fuel t w)) = false).
Proof.
  unfold trampolinepfp.run, treamp2.run. split.
  - now destruct (trampolinepfp.run_loop fuel (Tramp (queue t) true) w).
  - now destruct (treamp2.run_loop fuel (Tramp (queue t) true) w).
Qed.

Lemma run_exits_not_running_witness :
  running (final_trampoline
    (trampolinepfp.run (RT := scripted) 2 two_tasks stopper_then_idle)) = false
  /\ running (final_trampoline
       (treamp2.run (RT := scripted) 1 two_tasks faulty_then_idle)) = false.
Proof.
  split.
  - apply (proj1 (@run_exits_not_running _ scripted 2 two_tasks
                    stopper_then_idle)). reflexivity.
  - apply (proj2 (@run_exits_not_running _ scripted 1 two_tasks
                    faulty_then_idle)). reflexivity.
Defined.

(** ** [stop] *)

(** C7 as stated fails: a task without a parent chain that calls
    [stop()] and then returns makes [run] raise, not return.  Its
    [StopIteration] is re-raised by [resume] and leaves [run]; the task
    queued behind it is left in the queue. *)
Lemma stop_then_return_makes_run_raise :
  trampolinepfp.run (RT := scripted) 5 two_tasks stopper_that_returns
  = RunRaises (Exc StopIteration VNone) (Tramp [Resume 1 [] VNone []] false)
      (<[0 := []]> stopper_that_returns)
  /\ treamp2.run (RT := scripted) 5 two_tasks stopper_that_returns
     = RunRaises (Exc StopIteration VNone) (Tramp [Resume 1 [] VNone []] false)
         (<[0 := []]> stopper_that_returns).
Proof. split; vm_compute; reflexivity. Qed.

(** C7: when the coroutine of the step being executed calls [stop()],
    [run] ends right after that step: the flag is down, and the tasks
    [q] that were pending are still at the head of the queue, in order,
    none of them resumed.  [run] returns [None] when the step leaves
    [resume] normally: the coroutine yields, or it ends or fails with a
    parent on its chain that [resume] schedules (in [trampolinepfp.py]
    for [StopIteration] alone).  Otherwise the exception of the step
    leaves [resume], and [run] raises it instead of returning.  A loop
    whose flag is found down does nothing at all. *)
Theorem stop_ends_run_after_current_step
    (W : Type) (RT : Runtime W) (fuel : nat) (t : Trampoline) (w : W)
    (task : resume_closure) (q : list resume_closure)
    (out : outcome) (cs : list call) (w' : W) :
  queue t = task :: q ->
  In CallStop cs ->
  (trampolinepfp.invoke task w = (out, cs, w') ->
   exists t' added,
     trampolinepfp.run (S (S fuel)) t w
     = match out with
       | Yields _ => RunReturns VNone t' w'
       | Raises e =>
           match stack task with
           | _ :: _ =>
               if exn_class_eqb (exc_type e) StopIteration
               then RunReturns VNone t' w'
               else RunRaises e t' w'
           | [] => RunRaises e t' w'
           end
       end
     /\ running t' = false /\ queue t' = q ++ added)
  /\ (treamp2.invoke task w = (out, cs, w') ->
      exists t' added,
        treamp2.run (S (S fuel)) t w
        = match out with
          | Yields _ => RunReturns VNone t' w'
          | Raises e =>
              match stack task with
              | _ :: _ => RunReturns VNone t' w'
              | [] => RunRaises e t' w'
              end
          end
        /\ running t' = false /\ queue t' = q ++ added)
  /\ (forall t0 w0, running t0 = false ->
      trampolinepfp.run_loop (S fuel) t0 w0 = RunReturns VNone t0 w0
      /\ treamp2.run_loop (S fuel) t0 w0 = RunReturns VNone t0 w0).
Proof.
  intros Hq Hstop. repeat split.
  - intros Hinv.
    pose proof (pfp_resume_running task (Tramp q true) w) as Hrun.
    rewrite Hinv in Hrun. simpl in Hrun. rewrite (exec_calls_stop _ _ Hstop) in Hrun.
    destruct (trampolinepfp.resume task (Tramp q true) w) as [[c t'] w1] eqn:Hres.
    simpl in Hrun.
    destruct (pfp_resume_queue _ _ _ Hres) as [added Hadd].
    exists (stop t'), added.
    split; [|split; [reflexivity|exact Hadd]].
    unfold trampolinepfp.run.
    change (trampolinepfp.run_loop (S (S fuel)) (Tramp (queue t) true) w)
      with (match queue t with
            | task :: q =>
                match trampolinepfp.resume task (Tramp q true) w with
                | (Normal, t', w') => trampolinepfp.run_loop (S fuel) t' w'
                | (Propagates e, t', w') => RunRaises e t' w'
                end
            | [] => trampolinepfp.run_loop (S fuel) (Tramp (queue t) true)
                      (time_sleep w)
            end).
    rewrite Hq, Hres.
    unfold trampolinepfp.resume in Hres. rewrite Hinv in Hres.
    destruct out as [v|e].
    + assert (c = Normal /\ w1 = w') as [-> ->].
      { destruct v; try destruct (stack task); inversion Hres; auto. }
      now rewrite (pfp_run_loop_stopped _ _ _ Hrun).
    + destruct (stack task) as [|parent rest];
        destruct (exn_class_eqb (exc_type e) StopIteration);
        inversion Hres; subst; cbv beta iota;
        try rewrite (pfp_run_loop_stopped _ _ _ Hrun); reflexivity.
  - intros Hinv.
    pose proof (t2_resume_running task (Tramp q true) w) as Hrun.
    rewrite Hinv in Hrun. simpl in Hrun. rewrite (exec_calls_stop _ _ Hstop) in Hrun.
    destruct (treamp2.resume task (Tramp q true) w) as [[c t'] w1] eqn:Hres.
    simpl in Hrun.
    destruct (t2_resume_queue _ _ _ Hres) as [added Hadd].
    exists (stop t'), added.
    split; [|split; [reflexivity|exact Hadd]].
    unfold treamp2.run.
    change (treamp2.run_loop (S (S fuel)) (Tramp (queue t) true) w)
      with (match queue t with
            | task :: q =>
                match treamp2.resume task (Tramp q true) w with
                | (Normal, t', w') => treamp2.run_loop (S fuel) t' w'
                | (Propagates e, t', w') => RunRaises e t' w'
                end
            | [] => treamp2.run_loop (S fuel) (Tramp (queue t) true)
                      (time_sleep w)
            end).
    rewrite Hq, Hres.
    unfold treamp2.resume in Hres. rewrite Hinv in Hres.
    destruct out as [v|e].
    + inversion Hres; subst.
      now rewrite (t2_run_loop_stopped _ _ _ Hrun).
    + destruct (stack task) as [|parent rest];
        inversion Hres; subst; cbv beta iota;
        try rewrite (t2_run_loop_stopped _ _ _ Hrun); reflexivity.
  - now apply pfp_run_loop_stopped.
  - now apply t2_run_loop_stopped.
Qed.

Lemma stop_ends_run_after_current_step_witness :
  (exists t' added,
     trampolinepfp.run (RT := scripted) 2 two_tasks stopper_then_idle
     = RunReturns VNone t' (<[0 := []]> stopper_then_idle)
     /\ running t' = false /\ queue t' = [Resume 1 [] VNone []] ++ added)
  /\ (exists t' added,
        treamp2.run (RT := scripted) 2 two_tasks stopper_that_returns
        = RunRaises (Exc StopIteration VNone) t'
            (<[0 := []]> stopper_that_returns)
        /\ running t' = false /\ queue t' = [Resume 1 [] VNone []] ++ added).
Proof.
  assert (Hin : In CallStop [CallStop]) by (left; reflexivity).
  split.
  - apply (proj1 (@stop_ends_run_after_current_step _ scripted 0 two_tasks
                    stopper_then_idle (Resume 0 [] VNone [])
                    [Resume 1 [] VNone []] (Yields VNone) [CallStop]
                    (<[0 := []]> stopper_then_idle) eq_refl Hin)).
    reflexivity.
  - apply (proj1 (proj2
             (@stop_ends_run_after_current_step _ scripted 0 two_tasks
                stopper_that_returns (Resume 0 [] VNone [])
                [Resume 1 [] VNone []] (Raises (Exc StopIteration VNone))
                [CallStop] (<[0 := []]> stopper_that_returns) eq_refl Hin))).
    reflexivity.
Defined.

(** ** What [resume] schedules *)

(** C8: a task without a parent chain that yields a value which is not
    a generator is not scheduled again, and nothing else is: once the
    step is over the trampoline is as the coroutine's own calls left it
    (unchanged if it made none), and the yielded value is dropped. *)
Theorem bare_yield_schedules_nothing
    (W : Type) (RT : Runtime W) (r : resume_closure) (t : Trampoline) (w : W)
    (v : value) (cs : list call) (w' : W) :
  stack r = [] ->
  is_generator v = false ->
  (trampolinepfp.invoke r w = (Yields v, cs, w') ->
   trampolinepfp.resume r t w = (Normal, exec_calls cs t, w')
   /\ (cs = [] -> trampolinepfp.resume r t w = (Normal, t, w')))
  /\ (treamp2.invoke r w = (Yields v, cs, w') ->
      treamp2.resume r t w = (Normal, exec_calls cs t, w')
      /\ (cs = [] -> treamp2.resume r t w = (Normal, t, w'))).
Proof.
  intros Hstack Hgen. split; intros Hinv.
  - assert (H : trampolinepfp.resume r t w = (Normal, exec_calls cs t, w')).
    { unfold trampolinepfp.resume. rewrite Hinv, Hstack.
      now destruct v. }
    split; [exact H|]. intros ->. exact H.
  - assert (H : treamp2.resume r t w = (Normal, exec_calls cs t, w')).
    { unfold treamp2.resume, treamp2.dispatch. rewrite Hinv, Hstack.
      now destruct v. }
    split; [exact H|]. intros ->. exact H.
Qed.

Lemma bare_yield_schedules_nothing_witness :
  trampolinepfp.resume (RT := scripted) (Resume 1 [] VNone [])
    (Tramp [] true) faulty_then_idle
  = (Normal, Tramp [] true, <[1 := []]> faulty_then_idle)
  /\ treamp2.resume (RT := scripted) (Resume 1 [] VNone [])
       (Tramp [] true) faulty_then_idle
     = (Normal, Tramp [] true, <[1 := []]> faulty_then_idle).
Proof.
  pose proof (@bare_yield_schedules_nothing _ scripted (Resume 1 [] VNone [])
    (Tramp [] true) faulty_then_idle VNone [] (<[1 := []]> faulty_then_idle)
    eq_refl eq_refl) as [Hpfp Ht2].
  split; [apply Hpfp | apply Ht2]; reflexivity.
Defined.

(** C2, as the code has it: when the coroutine of a step is exhausted
    and the step has a parent chain, [resume] appends a step for the
    parent at the top of the chain, with the rest of the chain, and that
    step carries [sys.exc_info()], the [StopIteration] to throw into the
    parent: [val] is the class and [exc] holds the instance and the
    traceback. *)
Theorem exhausted_child_schedules_throw_into_parent
    (W : Type) (RT : Runtime W) (r : resume_closure) (t : Trampoline) (w : W)
    (v : value) (cs : list call) (w' : W)
    (parent : gen_id) (rest : list gen_id) :
  stack r = parent :: rest ->
  (trampolinepfp.invoke r w = (Raises (Exc StopIteration v), cs, w') ->
   exists t' extra,
     trampolinepfp.resume r t w = (Normal, t', w')
     /\ queue t' = queue (exec_calls cs t)
                   ++ Resume parent rest (VExcClass StopIteration)
                        [VExcInstance StopIteration v; VTraceback] :: extra)
  /\ (treamp2.invoke r w = (Raises (Exc StopIteration v), cs, w') ->
      exists t' extra,
        treamp2.resume r t w = (Normal, t', w')
        /\ queue t' = queue (exec_calls cs t)
                      ++ Resume parent rest (VExcClass StopIteration)
                           [VExcInstance StopIteration v; VTraceback] :: extra).
Proof.
  intros Hstack. split; intros Hinv.
  - unfold trampolinepfp.resume. rewrite Hinv, Hstack. simpl.
    eexists _, []. split; reflexivity.
  - unfold treamp2.resume. rewrite Hinv, Hstack. simpl.
    match goal with
    | |- context [treamp2.dispatch r (val r) ?t0] =>
        destruct (dispatch_queue r (val r) t0) as [extra Hextra]
    end.
    eexists _, extra. split; [reflexivity|].
    rewrite Hextra, schedule_queue, <- app_assoc. reflexivity.
Qed.

Lemma exhausted_child_schedules_throw_into_parent_witness :
  (exists t' extra,
     trampolinepfp.resume (RT := scripted) (Resume 1 [0] VNone [])
       (Tramp [] true) exhausted_child = (Normal, t', exhausted_child)
     /\ queue t' = [] ++ Resume 0 [] (VExcClass StopIteration)
                          [VExcInstance StopIteration VNone; VTraceback] :: extra)
  /\ (exists t' extra,
        treamp2.resume (RT := scripted) (Resume 1 [0] VNone [])
          (Tramp [] true) exhausted_child = (Normal, t', exhausted_child)
        /\ queue t' = [] ++ Resume 0 [] (VExcClass StopIteration)
                             [VExcInstance StopIteration VNone; VTraceback] :: extra).
Proof.
  pose proof (@exhausted_child_schedules_throw_into_parent _ scripted
    (Resume 1 [0] VNone []) (Tramp [] true) exhausted_child VNone []
    exhausted_child 0 [] eq_refl) as [Hpfp Ht2].
  split; [apply Hpfp | apply Ht2]; reflexivity.
Defined.

(** ** Sockets: what the system calls change *)

Section SocketFacts.
Context {F : Type}.
Implicit Types (w : world F) (fd : sock_id).

Lemma wire_set_socket fd fd' s w :
  wire fd (set_socket fd' s w) = if decide (fd = fd') then sent s else wire fd w.
Proof.
  unfold wire, set_socket; simpl.
  destruct (decide (fd = fd')) as [->|Hne].
  - now rewrite lookup_insert_eq.
  - now rewrite lookup_insert_ne by congruence.
Qed.

Lemma wire_set_events fd fd' s evs w :
  sockets w !! fd' = Some s ->
  wire fd (set_socket fd' (Socket evs (sent s)) w) = wire fd w.
Proof.
  intros Hs. rewrite wire_set_socket.
  destruct (decide (fd = fd')) as [->|]; [|reflexivity].
  unfold wire. now rewrite Hs.
Qed.

Lemma os_select_wire fd' w (r : result bool) w' fd :
  os_select fd' w = (r, w') -> wire fd w' = wire fd w.
Proof.
  unfold os_select. destruct (sockets w !! fd') as [s|] eqn:Hs.
  - destruct (events s) as [|[] evs]; intros [= <- <-];
      try reflexivity; now apply wire_set_events.
  - now intros [= <- <-].
Qed.

Lemma fileno_descriptor x w :
  fileno x w = match descriptor x with
               | Some fd => (Ok fd, w)
               | None => (Err (Exc AttributeError VNone), w)
               end.
Proof. induction x; simpl; auto. Qed.

Lemma select_wire x w (r : result bool) w' fd :
  select x w = (r, w') -> wire fd w' = wire fd w.
Proof.
  unfold select.
  destruct x; try (now intros [= <- <-]);
    unfold bind; rewrite fileno_descriptor;
    (destruct (descriptor _); [apply os_select_wire | now intros [= <- <-]]).
Qed.

Lemma send_descriptor x data w :
  send x data w = match descriptor x with
                  | Some fd => os_send fd data w
                  | None => (Err (Exc AttributeError VNone), w)
                  end.
Proof. induction x; simpl; auto. Qed.

Lemma os_send_wire fd data w k w' :
  os_send fd data w = (Ok k, w') ->
  wire fd w' ++ skipn k data = wire fd w ++ data.
Proof.
  unfold os_send. destruct (sockets w !! fd) as [s|] eqn:Hs; [|discriminate].
  destruct (events s) as [|[] evs]; try discriminate.
  intros [= <- <-]. rewrite wire_set_socket.
  destruct (decide (fd = fd)); [|congruence]. simpl.
  unfold wire. rewrite Hs, <- app_assoc. f_equal. apply firstn_skipn.
Qed.

Lemma send_wire x fd data w k w' :
  descriptor x = Some fd ->
  send x data w = (Ok k, w') ->
  wire fd w' ++ skipn k data = wire fd w ++ data.
Proof.
  intros Hd. rewrite send_descriptor, Hd. apply os_send_wire.
Qed.

Lemma try_except_ok {A} (m h : M F A) cls w a w' :
  try_except m cls h w = (Ok a, w') ->
  m w = (Ok a, w') \/ exists e w1, m w = (Err e, w1) /\ h w1 = (Ok a, w').
Proof.
  unfold try_except. destruct (m w) as [[a0|e] w1]; [now left|].
  destruct (exn_class_eqb (exc_type e) cls); [|discriminate].
  intros H. right. eauto.
Qed.

(** A descriptor that select reports and that has room for [n] bytes. *)
Lemma select_ready x fd w s n evs :
  descriptor x = Some fd ->
  sockets w !! fd = Some s -> events s = Ready :: Room n :: evs ->
  select x w = (Ok true, set_socket fd (Socket (Room n :: evs) (sent s)) w).
Proof.
  intros Hd Hs Hev. unfold select.
  destruct x; try discriminate; unfold bind;
    rewrite fileno_descriptor, Hd; unfold os_select; now rewrite Hs, Hev.
Qed.

Lemma send_room x fd data w s n evs :
  descriptor x = Some fd ->
  send x data (set_socket fd (Socket (Room n :: evs) (sent s)) w)
  = (Ok (Nat.min n (length data)),
     set_socket fd
       (Socket evs (sent s ++ firstn (Nat.min n (length data)) data))
       (set_socket fd (Socket (Room n :: evs) (sent s)) w)).
Proof.
  intros Hd. rewrite send_descriptor, Hd. unfold os_send, set_socket at 1.
  simpl. now rewrite lookup_insert_eq.
Qed.


End SocketFacts.

(** ** [nonblocking_write] *)

(** What a turn of the write loop leaves on the wire and in the frame
    is, together, what was there before. *)
Lemma pfp_write_turn_wire sock fd data w f w' :
  descriptor sock = Some fd ->
  trampolinepfp.write_turn sock data w = (Ok f, w') ->
  exists rest, f = trampolinepfp.WriteFrame sock rest
               /\ wire fd w' ++ rest = wire fd w ++ data.
Proof.
  intros Hd. unfold trampolinepfp.write_turn, bind.
  destruct sock; try (now intros [=]). simpl attr_sock. unfold ret at 1.
  destruct (select sock w) as [[ready|e] w1] eqn:Hsel; [|discriminate].
  apply select_wire with (fd := fd) in Hsel.
  destruct ready.
  - destruct (send (VSocketWrapper sock) data w1) as [[k|e] w2] eqn:Hsend;
      [|discriminate].
    intros [= <- <-]. eexists; split; [reflexivity|].
    rewrite <- Hsel. eapply send_wire; eauto.
  - intros [= <- <-]. eexists; split; [reflexivity|]. now rewrite Hsel.
Qed.











(** ** [echo_handler] and [ConnectionLost] *)

Lemma try_except_absorbs {F A} (m h : M F A) cls w :
  (forall w1, raises_class cls (fst (h w1)) = false) ->
  raises_class cls (fst (try_except m cls h w)) = false.
Proof.
  intros Hh. unfold try_except.
  destruct (m w) as [[a|e] w1]; [reflexivity|].
  destruct (exn_class_eqb (exc_type e) cls) eqn:He; [apply Hh|exact He].
Qed.

Lemma bind_raises_class {F A B} (m : M F A) (k : A -> M F B) cls w :
  raises_class cls (fst (m w)) = false ->
  (forall a w1, raises_class cls (fst (k a w1)) = false) ->
  raises_class cls (fst (bind m k w)) = false.
Proof.
  intros Hm Hk. unfold bind. destruct (m w) as [[a|e] w1]; [apply Hk|exact Hm].
Qed.

Lemma pfp_echo_never_lost f i w :
  trampolinepfp.is_echo_frame f = true ->
  raises_class ConnectionLost (fst (trampolinepfp.resume_frame f i w)) = false.
Proof.
  destruct f; try discriminate; intros _; simpl;
    now apply try_except_absorbs.
Qed.

Lemma t2_echo_read_never_lost wrapped w :
  raises_class ConnectionLost (fst (treamp2.echo_read wrapped w)) = false.
Proof. now apply try_except_absorbs. Qed.

Lemma t2_echo_never_lost f i w :
  treamp2.is_echo_frame f = true ->
  raises_class ConnectionLost (fst (treamp2.resume_frame f i w)) = false.
Proof.
  destruct f; try discriminate; intros _; simpl;
    try (now apply try_except_absorbs).
  unfold treamp2.echo_handler.
  destruct sock; try reflexivity;
    (apply bind_raises_class;
     [unfold treamp2.SocketWrapper; now destruct (truthy _)|];
     intros; apply bind_raises_class; [reflexivity|];
     intros; apply t2_echo_read_never_lost).
Qed.

(** What the caller of [send] or [throw] sees when the body cannot end
    with an exception of class [ConnectionLost]. *)
Lemma run_frame_never_lost {F} (resume_frame : F -> input -> M F (step F))
    g f i w :
  raises_class ConnectionLost (fst (resume_frame f i (clear_calls w))) = false ->
  surfaces ConnectionLost (fst (fst (run_frame resume_frame g f i w))) = false.
Proof.
  unfold run_frame.
  destruct (resume_frame f i (clear_calls w)) as [[[v f'|v]|e] w1];
    simpl; try reflexivity.
  unfold escaping.
  now destruct (exn_class_eqb (exc_type e) StopIteration).
Qed.

Lemma generator_never_lost {F} (started delegating : F -> bool)
    (resume_frame : F -> input -> M F (step F)) g f w :
  heap w !! g = Some (Gen f) ->
  (forall i w1, raises_class ConnectionLost (fst (resume_frame f i w1)) = false) ->
  (forall v, surfaces ConnectionLost
     (fst (fst (generator_send started resume_frame g v w))) = false)
  /\ (started f = true ->
      forall args, surfaces ConnectionLost
        (fst (fst (generator_throw started delegating resume_frame g args w)))
        = false).
Proof.
  intros Hg Hf. split.
  - intros v. unfold generator_send. rewrite Hg.
    destruct (started f); [now apply run_frame_never_lost|].
    destruct v; try reflexivity. now apply run_frame_never_lost.
  - intros Hst args. unfold generator_throw. rewrite Hg, Hst.
    destruct (thrown args) as [e|e] eqn:Hargs.
    + now apply run_frame_never_lost.
    + assert (He : e = Exc TypeError VNone).
      { revert Hargs. unfold thrown.
        repeat match goal with
               | |- context [match ?x with _ => _ end] => destruct x
               end; congruence. }
      subst e. destruct (delegating f); [|reflexivity].
      now apply run_frame_never_lost.
Qed.

(** C6: [echo_handler] never ends with [ConnectionLost].  When its read
    or its write raises it ([trampolinepfp.py], through [yield from]) or
    when it is thrown into the handler at the [yield] of its read or
    write ([treamp2.py]), the handler returns.  The caller that resumed
    the handler's generator sees it exhausted ([StopIteration]), never
    [ConnectionLost]. *)
Theorem echo_handler_absorbs_ConnectionLost :
  (forall f i w,
     trampolinepfp.is_echo_frame f = true ->
     raises_class ConnectionLost (fst (trampolinepfp.resume_frame f i w)) = false)
  /\ (forall sock sub i w a w',
        generator_boundary (trampolinepfp.resume_nonblocking_read sub i) w
        = (Err (Exc ConnectionLost a), w') ->
        trampolinepfp.resume_frame (trampolinepfp.EchoReading sock sub) i w
        = (Ok (Return VNone), w'))
  /\ (forall sock sub i w a w',
        generator_boundary (trampolinepfp.resume_nonblocking_write sub i) w
        = (Err (Exc ConnectionLost a), w') ->
        trampolinepfp.resume_frame (trampolinepfp.EchoWriting sock sub) i w
        = (Ok (Return VNone), w'))
  /\ (forall g f w,
        heap w !! g = Some (Gen f) ->
        trampolinepfp.is_echo_frame f = true ->
        (forall v, surfaces ConnectionLost
           (fst (fst (coroutine_send (Runtime := trampolinepfp.python) g v w)))
           = false)
        /\ (trampolinepfp.started f = true ->
            forall args, surfaces ConnectionLost
              (fst (fst (coroutine_throw (Runtime := trampolinepfp.python)
                           g args w))) = false))
  /\ (forall f i w,
        treamp2.is_echo_frame f = true ->
        raises_class ConnectionLost (fst (treamp2.resume_frame f i w)) = false)
  /\ (forall wrapped_sock a w,
        treamp2.resume_frame (treamp2.EchoAtRead wrapped_sock)
          (Throw (Exc ConnectionLost a)) w
        = (Ok (Return VNone), snd (print "Connection lost." w)))
  /\ (forall wrapped_sock data a w,
        treamp2.resume_frame (treamp2.EchoAtWrite wrapped_sock data)
          (Throw (Exc ConnectionLost a)) w
        = (Ok (Return VNone), snd (print "Connection lost." w)))
  /\ (forall g f w,
        heap w !! g = Some (Gen f) ->
        treamp2.is_echo_frame f = true ->
        (forall v, surfaces ConnectionLost
           (fst (fst (coroutine_send (Runtime := treamp2.python) g v w)))
           = false)
        /\ (treamp2.started f = true ->
            forall args, surfaces ConnectionLost
              (fst (fst (coroutine_throw (Runtime := treamp2.python)
                           g args w))) = false)).
Proof.
  repeat apply conj.
  - apply pfp_echo_never_lost.
  - intros sock sub i w a w' H. simpl.
    unfold trampolinepfp.resume_echo_reading, trampolinepfp.echo_guard,
      try_except, bind. now rewrite H.
  - intros sock sub i w a w' H. simpl.
    unfold trampolinepfp.resume_echo_writing, trampolinepfp.echo_guard,
      try_except, bind. now rewrite H.
  - intros g f w Hg Hf.
    apply (@generator_never_lost _ trampolinepfp.started
             trampolinepfp.delegating trampolinepfp.resume_frame g f w Hg).
    intros i w1. now apply pfp_echo_never_lost.
  - apply t2_echo_never_lost.
  - reflexivity.
  - reflexivity.
  - intros g f w Hg Hf.
    apply (@generator_never_lost _ treamp2.started treamp2.delegating
             treamp2.resume_frame g f w Hg).
    intros i w1. now apply t2_echo_never_lost.
Qed.

Lemma echo_handler_absorbs_ConnectionLost_witness :
  trampolinepfp.resume_frame
    (trampolinepfp.EchoReading (VSocketWrapper (VSocket 3))
       (trampolinepfp.ReadFrame (VSocketWrapper (VSocket 3)) chunk_size_default))
    (Send VNone) pfp_handler_reading
  = (Ok (Return VNone),
     set_socket 3 (Socket [] [])
       (set_socket 3 (Socket [Data []] []) pfp_handler_reading))
  /\ surfaces ConnectionLost
       (fst (fst (coroutine_throw (Runtime := treamp2.python) 0
                    [VExcClass ConnectionLost;
                     VExcInstance ConnectionLost VNone; VTraceback]
                    t2_handler_reading))) = false.
Proof.
  destruct echo_handler_absorbs_ConnectionLost
    as (_ & Hread & _ & _ & _ & _ & _ & Ht2).
  split.
  - apply (Hread _ _ _ _ (VStr "Client disconnected.")).
    vm_compute. reflexivity.
  - apply (proj2 (Ht2 0 _ t2_handler_reading eq_refl eq_refl) eq_refl).
Defined.

(** ** The suspension primitives and faults of the system *)

(** X16: a [recv] that returns no data makes [nonblocking_read] raise
    [ConnectionLost], in both files: with the message
    "Client disconnected." in [trampolinepfp.py], with no argument in
    [treamp2.py]. *)
Lemma zero_length_recv_raises_ConnectionLost inner fd chunk_size s evs :
  descriptor inner = Some fd ->
  events s = Ready :: Data [] :: evs ->
  (forall w : world trampolinepfp.frame,
     sockets w !! fd = Some s ->
     fst (trampolinepfp.nonblocking_read (VSocketWrapper inner) chunk_size w)
     = Err (Exc ConnectionLost (VStr "Client disconnected.")))
  /\ (forall w : world treamp2.frame,
        sockets w !! fd = Some s ->
        fst (treamp2.nonblocking_read (VSocketWrapper inner) chunk_size w)
        = Err (Exc ConnectionLost VNone)).
Proof.
  intros Hd Hev.
  assert (Hsel : forall F (w : world F) x, descriptor x = Some fd ->
            sockets w !! fd = Some s ->
            select x w
            = (Ok true, set_socket fd (Socket (Data [] :: evs) (sent s)) w)).
  { intros F w x Hx Hs. unfold select.
    destruct x; try discriminate; unfold bind;
      rewrite fileno_descriptor, Hx; unfold os_select; now rewrite Hs, Hev. }
  assert (Hrecv : forall F (w : world F),
            recv (VSocketWrapper inner) chunk_size
              (set_socket fd (Socket (Data [] :: evs) (sent s)) w)
            = (Ok [], set_socket fd (Socket evs (sent s))
                        (set_socket fd (Socket (Data [] :: evs) (sent s)) w))).
  { intros F w. simpl. clear Hsel. revert Hd.
    induction inner; try discriminate; simpl; intros Hd; auto.
    injection Hd as ->. unfold os_recv, set_socket at 1. simpl.
    rewrite lookup_insert_eq. simpl. now destruct chunk_size. }
  split; intros w Hs.
  - unfold trampolinepfp.nonblocking_read, bind. simpl attr_sock.
    unfold ret at 1. rewrite (Hsel _ w inner Hd Hs), Hrecv. reflexivity.
  - unfold treamp2.nonblocking_read, treamp2.read_turn, treamp2.socket_guard,
      try_except, bind. simpl treamp2.ensure_wrapped. unfold ret at 1.
    rewrite (Hsel _ w (VSocketWrapper inner) Hd Hs), Hrecv. reflexivity.
Qed.

Lemma t2_socket_guard_no_OSError {A} (m : treamp2.M A) w :
  raises_class OSError (fst (treamp2.socket_guard m w)) = false.
Proof. now apply try_except_absorbs. Qed.

Lemma t2_ensure_wrapped_no_OSError sock w :
  raises_class OSError (fst (treamp2.ensure_wrapped sock w)) = false.
Proof.
  unfold treamp2.ensure_wrapped, treamp2.SocketWrapper.
  destruct sock; simpl; try reflexivity;
    repeat match goal with
           | |- context [match ?x with _ => _ end] => destruct x
           end; reflexivity.
Qed.

(** X15: in [treamp2.py] none of the three primitives, started or
    resumed with a value or with a fault thrown in, ends with [OSError]:
    inside their [try] it becomes [ConnectionLost]. *)
Lemma t2_primitives_raise_no_OSError :
  (forall sock chunk_size w,
     raises_class OSError
       (fst (treamp2.nonblocking_read sock chunk_size w)) = false)
  /\ (forall f i w,
        raises_class OSError
          (fst (treamp2.resume_nonblocking_read f i w)) = false)
  /\ (forall sock data w,
        raises_class OSError
          (fst (treamp2.nonblocking_write sock data w)) = false)
  /\ (forall f i w,
        raises_class OSError
          (fst (treamp2.resume_nonblocking_write f i w)) = false)
  /\ (forall sock w,
        raises_class OSError (fst (treamp2.nonblocking_accept sock w)) = false)
  /\ (forall f i w,
        raises_class OSError
          (fst (treamp2.resume_nonblocking_accept f i w)) = false).
Proof.
  assert (Hloop : forall sock data w,
            raises_class OSError (fst (treamp2.write_loop sock data w)) = false).
  { intros sock [|b data] w; [reflexivity|]. unfold treamp2.write_loop.
    apply bind_raises_class; [apply t2_socket_guard_no_OSError|reflexivity]. }
  repeat apply conj.
  - intros. apply bind_raises_class; [apply t2_ensure_wrapped_no_OSError|].
    intros. apply t2_socket_guard_no_OSError.
  - intros [sock chunk_size] [v|e] w; apply t2_socket_guard_no_OSError.
  - intros. apply bind_raises_class; [apply t2_ensure_wrapped_no_OSError|].
    intros. apply Hloop.
  - intros [sock data] [v|e] w; [apply Hloop|apply t2_socket_guard_no_OSError].
  - intros. apply bind_raises_class; [apply t2_ensure_wrapped_no_OSError|].
    intros. apply t2_socket_guard_no_OSError.
  - intros [sock|sock] [v|e] w; try apply t2_socket_guard_no_OSError.
    + reflexivity.
    + simpl. apply bind_raises_class;
        [apply t2_socket_guard_no_OSError|reflexivity].
Qed.

(** C4, where the code departs from it: on a socket whose operation
    fails after select has reported it, the three primitives of
    [trampolinepfp.py] end with the system's [OSError], not with
    [ConnectionLost], and [echo_handler], which catches [ConnectionLost]
    only, lets it through to [run]; the primitives of [treamp2.py] raise
    [ConnectionLost] on the same socket. *)
Theorem pfp_primitives_let_OSError_through :
  fst (trampolinepfp.nonblocking_read (VSocketWrapper (VSocket 3))
         chunk_size_default (fresh_world faulty_socket))
  = Err (Exc OSError VNone)
  /\ fst (trampolinepfp.nonblocking_write (VSocketWrapper (VSocket 3)) hello
            (fresh_world faulty_socket))
     = Err (Exc OSError VNone)
  /\ fst (trampolinepfp.nonblocking_accept (VSocketWrapper (VSocket 3))
            (fresh_world faulty_socket))
     = Err (Exc OSError VNone)
  /\ (exists t w,
        trampolinepfp.run (RT := trampolinepfp.python) 1 one_task
          pfp_handler_on_faulty_socket
        = RunRaises (Exc OSError VNone) t w)
  /\ fst (treamp2.nonblocking_read (VSocketWrapper (VSocket 3))
            chunk_size_default (fresh_world faulty_socket))
     = Err (Exc ConnectionLost VNone)
  /\ fst (treamp2.nonblocking_write (VSocketWrapper (VSocket 3)) hello
            (fresh_world faulty_socket))
     = Err (Exc ConnectionLost VNone)
  /\ fst (treamp2.nonblocking_accept (VSocketWrapper (VSocket 3))
            (fresh_world faulty_socket))
     = Err (Exc ConnectionLost VNone).
Proof.
  repeat apply conj; try (vm_compute; reflexivity).
  eexists _, _. vm_compute. reflexivity.
Qed.

(** ** Running the schedulers on concrete tasks *)

Section LoopFacts.
Context {W : Type} {RT : Runtime W}.

(** With nothing queued and nobody to call [stop()], the loop sleeps
    for as long as it is observed. *)
Lemma pfp_idle_loop fuel (w : W) :
  time_sleep w = w ->
  trampolinepfp.run_loop fuel (Tramp [] true) w = RunOutOfFuel (Tramp [] true) w.
Proof.
  intros Hw. induction fuel as [|fuel IH]; simpl; [reflexivity|].
  now rewrite Hw.
Qed.

Lemma t2_idle_loop fuel (w : W) :
  time_sleep w = w ->
  treamp2.run_loop fuel (Tramp [] true) w = RunOutOfFuel (Tramp [] true) w.
Proof.
  intros Hw. induction fuel as [|fuel IH]; simpl; [reflexivity|].
  now rewrite Hw.
Qed.

Lemma pfp_run_loop_step fuel task q (w : W) t' w' :
  trampolinepfp.resume task (Tramp q true) w = (Normal, t', w') ->
  trampolinepfp.run_loop (S fuel) (Tramp (task :: q) true) w
  = trampolinepfp.run_loop fuel t' w'.
Proof. intros H. simpl. now rewrite H. Qed.

Lemma t2_run_loop_step fuel task q (w : W) t' w' :
  treamp2.resume task (Tramp q true) w = (Normal, t', w') ->
  treamp2.run_loop (S fuel) (Tramp (task :: q) true) w
  = treamp2.run_loop fuel t' w'.
Proof. intros H. simpl. now rewrite H. Qed.

(** Delegation: a task that yields a generator is pushed on the chain
    of the sub-task, which is scheduled with no value to send. *)
Lemma delegation_pushes_current_task r t (w : W) g cs w' :
  (trampolinepfp.invoke r w = (Yields (VGenerator g), cs, w') ->
   trampolinepfp.resume r t w
   = (Normal, schedule g (coroutine r :: stack r) VNone [] (exec_calls cs t), w'))
  /\ (treamp2.invoke r w = (Yields (VGenerator g), cs, w') ->
      treamp2.resume r t w
      = (Normal, schedule g (coroutine r :: stack r) VNone [] (exec_calls cs t), w')).
Proof.
  split; intros H.
  - unfold trampolinepfp.resume. now rewrite H.
  - unfold treamp2.resume. now rewrite H.
Qed.

(** The fault of a sub-task and its parent.  [treamp2.py] schedules the
    parent, with the rest of the chain, to have the fault thrown into it;
    [trampolinepfp.py] does so for [StopIteration] alone and lets every
    other fault out of [resume]. *)
Lemma t2_fault_is_scheduled_for_parent r t (w : W) e cs w' parent rest :
  stack r = parent :: rest ->
  treamp2.invoke r w = (Raises e, cs, w') ->
  exists t' extra,
    treamp2.resume r t w = (Normal, t', w')
    /\ queue t' = queue (exec_calls cs t)
                  ++ Resume parent rest (VExcClass (exc_type e))
                       [VExcInstance (exc_type e) (exc_arg e); VTraceback]
                     :: extra.
Proof.
  intros Hstack Hinv. unfold treamp2.resume. rewrite Hinv, Hstack. simpl.
  match goal with
  | |- context [treamp2.dispatch r (val r) ?t0] =>
      destruct (dispatch_queue r (val r) t0) as [extra Hextra]
  end.
  eexists _, extra. split; [reflexivity|].
  rewrite Hextra, schedule_queue, <- app_assoc. reflexivity.
Qed.

Lemma pfp_fault_escapes_despite_parent r t (w : W) e cs w' :
  exn_class_eqb (exc_type e) StopIteration = false ->
  trampolinepfp.invoke r w = (Raises e, cs, w') ->
  trampolinepfp.resume r t w = (Propagates e, exec_calls cs t, w').
Proof.
  intros He Hinv. unfold trampolinepfp.resume. now rewrite Hinv, He.
Qed.

End LoopFacts.

(** C1 as stated fails: with two readers queued, the first on a socket
    whose peer has closed, [run] stops at the first step and raises
    [ConnectionLost]; nothing was printed, and the second reader is
    still in the queue, its socket untouched. *)
Lemma run_aborts_on_top_level_fault :
  (exists w,
     trampolinepfp.run (RT := trampolinepfp.python) 5 two_tasks pfp_two_readers
     = RunRaises (Exc ConnectionLost (VStr "Client disconnected."))
         (Tramp [Resume 1 [] VNone []] false) w
     /\ stdout w = []
     /\ sockets w !! 4 = Some (Socket [Ready; Data hello] []))
  /\ (exists w,
        treamp2.run (RT := treamp2.python) 5 two_tasks t2_two_readers
        = RunRaises (Exc ConnectionLost VNone)
            (Tramp [Resume 1 [] VNone []] false) w
        /\ stdout w = []
        /\ sockets w !! 4 = Some (Socket [Ready; Data hello] [])).
Proof.
  split; eexists; (split; [vm_compute; reflexivity|]);
    split; vm_compute; reflexivity.
Qed.

(** C2 as stated fails: the step scheduled for the parent of an
    exhausted sub-task is not a plain resume with a void value; it
    carries the [StopIteration].  In [treamp2.py] the handler's read
    returns its five bytes and two steps are queued for the handler,
    the first of them to throw. *)
Lemma exhausted_child_is_not_a_plain_resume :
  (exists w,
     trampolinepfp.run_loop (RT := scripted) 2 (Tramp (queue one_task) true)
       parent_of_exhausted_child
     = RunOutOfFuel
         (Tramp [Resume 0 [] (VExcClass StopIteration)
                   [VExcInstance StopIteration VNone; VTraceback]] true) w)
  /\ (exists w,
        treamp2.run_loop (RT := treamp2.python) 2 (Tramp (queue one_task) true)
          t2_handler
        = RunOutOfFuel
            (Tramp [Resume 0 [] (VExcClass StopIteration)
                      [VExcInstance StopIteration (VBytes hello); VTraceback];
                    Resume 0 [] VNone []] true) w)
  /\ Resume 0 [] (VExcClass StopIteration)
       [VExcInstance StopIteration VNone; VTraceback]
     <> Resume 0 [] VNone [].
Proof.
  repeat apply conj; try (eexists; vm_compute; reflexivity).
  discriminate.
Qed.

(** In [trampolinepfp.py] the completion of a sub-task does not reach
    the parent either: the step scheduled for the parent calls
    [coroutine.throw] with the instance and the traceback, which is a
    [TypeError] at the call; it leaves [run], and the parent stays
    suspended where it was. *)
Lemma pfp_completion_does_not_reach_parent :
  exists w,
    trampolinepfp.run (RT := trampolinepfp.python) 5 child_of_0
      pfp_parent_and_empty_write
    = RunRaises (Exc TypeError VNone) (Tramp [] false) w
    /\ heap w !! 0 = heap pfp_parent_and_empty_write !! 0
    /\ heap w !! 1 = Some Closed.
Proof. eexists. repeat apply conj; vm_compute; reflexivity. Qed.

(** C3, where the code departs from it: a parent yields a sub-task
    whose first step raises [ConnectionLost].  In [trampolinepfp.py]
    the fault is not delivered to the parent: it leaves [run], and the
    parent is never resumed.  In [treamp2.py] the same fault is
    scheduled for the parent, with the parent's own (empty) chain. *)
Theorem pfp_child_fault_bypasses_parent :
  trampolinepfp.run (RT := scripted) 5 one_task parent_of_faulty_child
  = RunRaises (Exc ConnectionLost VNone) (Tramp [] false)
      (<[1 := []]> (<[0 := [([], Yields VNone); ([], Yields VNone)]]>
                      parent_of_faulty_child))
  /\ treamp2.run_loop (RT := scripted) 2 (Tramp (queue one_task) true)
       parent_of_faulty_child
     = RunOutOfFuel
         (Tramp [Resume 0 [] (VExcClass ConnectionLost)
                   [VExcInstance ConnectionLost VNone; VTraceback];
                 Resume 0 [] VNone []] true)
         (<[1 := []]> (<[0 := [([], Yields VNone); ([], Yields VNone)]]>
                         parent_of_faulty_child)).
Proof. split; vm_compute; reflexivity. Qed.

(** C9, where the code departs from it: the listener is added with two
    connections waiting.  Its first step accepts the first of them and
    yields the client socket to the scheduler, which schedules nothing
    for a task without a parent chain: however long [run] goes on, the
    queue stays empty, the listener stays suspended at that [yield], no
    handler generator exists, and the second connection is never
    accepted.  Resumed by hand, the listener of [trampolinepfp.py] adds
    a handler for [None], that of [treamp2.py] adds none. *)
Theorem listener_is_dropped_after_first_accept (fuel : nat) :
  (exists w,
     trampolinepfp.run (RT := trampolinepfp.python) (S fuel) one_task pfp_server
     = RunOutOfFuel (Tramp [] true) w
     /\ heap w !! 0
        = Some (Gen (trampolinepfp.ListenAccepting
                       trampolinepfp.Call_echo_handler
                       (VSocketWrapper (VSocket 3))
                       (trampolinepfp.AcceptedFrame (VSocketWrapper (VSocket 3)))))
     /\ next_gen w = 1
     /\ sockets w !! 3 = Some (Socket [Ready; Conn 5] [])
     /\ wire 4 w = []
     /\ exists v w',
          coroutine_send (Runtime := trampolinepfp.python) 0 VNone w
          = (Yields v, [CallAdd 1], w')
          /\ heap w' !! 1 = Some (Gen (trampolinepfp.Call_echo_handler VNone)))
  /\ (exists w,
        treamp2.run (RT := treamp2.python) (S fuel) one_task t2_server
        = RunOutOfFuel (Tramp [] true) w
        /\ heap w !! 0
           = Some (Gen (treamp2.ListenAccepting treamp2.Call_echo_handler
                          (VSocketWrapper (VSocketWrapper (VSocket 3)))
                          (treamp2.AcceptedFrame
                             (VSocketWrapper (VSocketWrapper (VSocket 3))))))
        /\ next_gen w = 1
        /\ sockets w !! 3 = Some (Socket [Ready; Conn 5] [])
        /\ wire 4 w = []
        /\ exists v w',
             coroutine_send (Runtime := treamp2.python) 0 VNone w
             = (Yields v, [], w')
             /\ next_gen w' = 1).
Proof.
  split.
  - exists (snd (trampolinepfp.resume (RT := trampolinepfp.python)
                   (Resume 0 [] VNone []) (Tramp [] true) pfp_server)).
    split; [|repeat apply conj; try (vm_compute; reflexivity);
             eexists _, _; split; vm_compute; reflexivity].
    unfold trampolinepfp.run.
    change (queue one_task) with [Resume 0 [] VNone []].
    rewrite (@pfp_run_loop_step _ trampolinepfp.python fuel _ _ pfp_server
               (Tramp [] true)
               (snd (trampolinepfp.resume (RT := trampolinepfp.python)
                       (Resume 0 [] VNone []) (Tramp [] true) pfp_server)))
      by (vm_compute; reflexivity).
    now rewrite pfp_idle_loop.
  - exists (snd (treamp2.resume (RT := treamp2.python)
                   (Resume 0 [] VNone []) (Tramp [] true) t2_server)).
    split; [|repeat apply conj; try (vm_compute; reflexivity);
             eexists _, _; split; vm_compute; reflexivity].
    unfold treamp2.run.
    change (queue one_task) with [Resume 0 [] VNone []].
    rewrite (@t2_run_loop_step _ treamp2.python fuel _ _ t2_server
               (Tramp [] true)
               (snd (treamp2.resume (RT := treamp2.python)
                       (Resume 0 [] VNone []) (Tramp [] true) t2_server)))
      by (vm_compute; reflexivity).
    now rewrite t2_idle_loop.
Qed.

(** * Further properties of the two files *)

(** ** The queue discipline *)

Section QueueDiscipline.
Context {W : Type} {RT : Runtime W}.

Lemma pfp_run_loop_unfold fuel t (w : W) :
  trampolinepfp.run_loop (S fuel) t w
  = if running t then
      match queue t with
      | task :: q =>
          match trampolinepfp.resume task (Tramp q (running t)) w with
          | (Normal, t', w') => trampolinepfp.run_loop fuel t' w'
          | (Propagates e, t', w') => RunRaises e t' w'
          end
      | [] => trampolinepfp.run_loop fuel t (time_sleep w)
      end
    else RunReturns VNone t w.
Proof. reflexivity. Qed.

Lemma t2_run_loop_unfold fuel t (w : W) :
  treamp2.run_loop (S fuel) t w
  = if running t then
      match queue t with
      | task :: q =>
          match treamp2.resume task (Tramp q (running t)) w with
          | (Normal, t', w') => treamp2.run_loop fuel t' w'
          | (Propagates e, t', w') => RunRaises e t' w'
          end
      | [] => treamp2.run_loop fuel t (time_sleep w)
      end
    else RunReturns VNone t w.
Proof. reflexivity. Qed.

(** One more iteration of the loop is one iteration from where the
    others left off; a loop that has ended stays ended. *)
Lemma pfp_run_loop_more fuel : forall t (w : W),
  trampolinepfp.run_loop (S fuel) t w
  = match trampolinepfp.run_loop fuel t w with
    | RunOutOfFuel tn wn => trampolinepfp.run_loop 1 tn wn
    | r => r
    end.
Proof.
  induction fuel as [|fuel IH]; intros t w; [reflexivity|].
  rewrite (pfp_run_loop_unfold (S fuel) t w), (pfp_run_loop_unfold fuel t w).
  destruct (running t); [|reflexivity].
  destruct (queue t) as [|task q]; [apply IH|].
  destruct (trampolinepfp.resume task (Tramp q true) w) as [[[|e] t'] w'];
    [apply IH|reflexivity].
Qed.

Lemma t2_run_loop_more fuel : forall t (w : W),
  treamp2.run_loop (S fuel) t w
  = match treamp2.run_loop fuel t w with
    | RunOutOfFuel tn wn => treamp2.run_loop 1 tn wn
    | r => r
    end.
Proof.
  induction fuel as [|fuel IH]; intros t w; [reflexivity|].
  rewrite (t2_run_loop_unfold (S fuel) t w), (t2_run_loop_unfold fuel t w).
  destruct (running t); [|reflexivity].
  destruct (queue t) as [|task q]; [apply IH|].
  destruct (treamp2.resume task (Tramp q true) w) as [[[|e] t'] w'];
    [apply IH|reflexivity].
Qed.

End QueueDiscipline.

(** X1: [run] serves the queue first in, first out.  Observe [run]
    after any number of iterations of its loop.  If it has ended, it
    stays as it is.  If it is still going, with the flag up and the
    queue not empty, the next iteration resumes the step at the head of
    the queue and no other: the steps behind it stay in the queue, in
    their order, and whatever the step schedules comes after them; if
    the step raises, [run] ends there, the flag down.  With the queue
    empty the iteration sleeps; with the flag down [run] returns
    [None]. *)
Theorem run_is_first_in_first_out
    (W : Type) (RT : Runtime W) (fuel : nat) (t : Trampoline) (w : W) :
  match trampolinepfp.run fuel t w with
  | RunOutOfFuel tn wn =>
      if running tn then
        match queue tn with
        | task :: q =>
            exists c t' w' added,
              trampolinepfp.resume task (Tramp q true) wn = (c, t', w')
              /\ queue t' = q ++ added
              /\ trampolinepfp.run (S fuel) t w
                 = match c with
                   | Normal => RunOutOfFuel t' w'
                   | Propagates e => RunRaises e (stop t') w'
                   end
        | [] => trampolinepfp.run (S fuel) t w = RunOutOfFuel tn (time_sleep wn)
        end
      else trampolinepfp.run (S fuel) t w = RunReturns VNone (stop tn) wn
  | r => trampolinepfp.run (S fuel) t w = r
  end
  /\ match treamp2.run fuel t w with
     | RunOutOfFuel tn wn =>
         if running tn then
           match queue tn with
           | task :: q =>
               exists c t' w' added,
                 treamp2.resume task (Tramp q true) wn = (c, t', w')
                 /\ queue t' = q ++ added
                 /\ treamp2.run (S fuel) t w
                    = match c with
                      | Normal => RunOutOfFuel t' w'
                      | Propagates e => RunRaises e (stop t') w'
                      end
           | [] => treamp2.run (S fuel) t w = RunOutOfFuel tn (time_sleep wn)
           end
         else treamp2.run (S fuel) t w = RunReturns VNone (stop tn) wn
     | r => treamp2.run (S fuel) t w = r
     end.
Proof.
  unfold trampolinepfp.run, treamp2.run. split.
  - rewrite pfp_run_loop_more.
    destruct (trampolinepfp.run_loop fuel (Tramp (queue t) true) w)
      as [v tn wn|e tn wn|tn wn]; try reflexivity.
    simpl finally_not_running at 1. cbv beta iota.
    rewrite (pfp_run_loop_unfold 0 tn wn).
    destruct (running tn); [|reflexivity].
    destruct (queue tn) as [|task q]; [reflexivity|].
    destruct (trampolinepfp.resume task (Tramp q true) wn)
      as [[c t'] w'] eqn:Hres.
    destruct (pfp_resume_queue _ _ _ Hres) as [added Hadd].
    exists c, t', w', added. repeat split; [exact Hadd|].
    now destruct c.
  - rewrite t2_run_loop_more.
    destruct (treamp2.run_loop fuel (Tramp (queue t) true) w)
      as [v tn wn|e tn wn|tn wn]; try reflexivity.
    simpl finally_not_running at 1. cbv beta iota.
    rewrite (t2_run_loop_unfold 0 tn wn).
    destruct (running tn); [|reflexivity].
    destruct (queue tn) as [|task q]; [reflexivity|].
    destruct (treamp2.resume task (Tramp q true) wn)
      as [[c t'] w'] eqn:Hres.
    destruct (t2_resume_queue _ _ _ Hres) as [added Hadd].
    exists c, t', w', added. repeat split; [exact Hadd|].
    now destruct c.
Qed.

(** ** Call and return through the scheduler *)

Lemma delegation_pushes_current_task_witness :
  trampolinepfp.resume (RT := scripted) (Resume 0 [] VNone [])
    (Tramp [] true) child_with_result
  = (Normal, schedule 1 [0] VNone [] (Tramp [] true),
     <[0 := [([], Yields VNone)]]> child_with_result)
  /\ treamp2.resume (RT := scripted) (Resume 0 [] VNone [])
       (Tramp [] true) child_with_result
     = (Normal, schedule 1 [0] VNone [] (Tramp [] true),
        <[0 := [([], Yields VNone)]]> child_with_result).
Proof.
  pose proof (@delegation_pushes_current_task _ scripted
    (Resume 0 [] VNone []) (Tramp [] true) child_with_result 1 []
    (<[0 := [([], Yields VNone)]]> child_with_result)) as [Hpfp Ht2].
  split; [apply Hpfp | apply Ht2]; reflexivity.
Defined.

(** A sub-task returns a result by yielding it.  When the coroutine
    of a step that has a parent chain yields a value that is not a
    generator, one step is appended: the parent at the top of the chain,
    with the rest of the chain, to be sent that value.  The sub-task
    itself is not scheduled again. *)
Theorem yielded_value_is_sent_to_parent
    (W : Type) (RT : Runtime W) (r : resume_closure) (t : Trampoline) (w : W)
    (v : value) (cs : list call) (w' : W)
    (parent : gen_id) (rest : list gen_id) :
  stack r = parent :: rest ->
  is_generator v = false ->
  (trampolinepfp.invoke r w = (Yields v, cs, w') ->
   trampolinepfp.resume r t w
   = (Normal, schedule parent rest v [] (exec_calls cs t), w'))
  /\ (treamp2.invoke r w = (Yields v, cs, w') ->
      treamp2.resume r t w
      = (Normal, schedule parent rest v [] (exec_calls cs t), w')).
Proof.
  intros Hstack Hv. split; intros Hinv.
  - unfold trampolinepfp.resume. rewrite Hinv, Hstack. now destruct v.
  - unfold treamp2.resume, treamp2.dispatch. rewrite Hinv, Hstack.
    now destruct v.
Qed.

Lemma yielded_value_is_sent_to_parent_witness :
  trampolinepfp.resume (RT := scripted) (Resume 1 [0] VNone [])
    (Tramp [] true) child_with_result
  = (Normal, Tramp [Resume 0 [] (VBytes hello) []] true,
     <[1 := [([], Yields VNone)]]> child_with_result)
  /\ treamp2.resume (RT := scripted) (Resume 1 [0] VNone [])
       (Tramp [] true) child_with_result
     = (Normal, Tramp [Resume 0 [] (VBytes hello) []] true,
        <[1 := [([], Yields VNone)]]> child_with_result).
Proof.
  pose proof (@yielded_value_is_sent_to_parent _ scripted
    (Resume 1 [0] VNone []) (Tramp [] true) child_with_result
    (VBytes hello) [] (<[1 := [([], Yields VNone)]]> child_with_result)
    0 [] eq_refl eq_refl) as [Hpfp Ht2].
  split; [apply Hpfp | apply Ht2]; reflexivity.
Defined.

(** X2: call and return through [run].  A task that yields a generator
    and whose generator, run next, yields a value that is not a
    generator, is resumed after these two steps with that value sent to
    it, on the same chain of parents as before; the sub-task is not in
    the queue any more.  This holds in both files. *)
Theorem call_and_return_round_trip
    (W : Type) (RT : Runtime W) (fuel : nat) (p g : gen_id)
    (st : list gen_id) (val0 : value) (exc0 : list value) (v : value)
    (w w1 w2 : W) :
  is_generator v = false ->
  (trampolinepfp.invoke (Resume p st val0 exc0) w
   = (Yields (VGenerator g), [], w1) ->
   trampolinepfp.invoke (Resume g (p :: st) VNone []) w1
   = (Yields v, [], w2) ->
   trampolinepfp.run_loop (2 + fuel) (Tramp [Resume p st val0 exc0] true) w
   = trampolinepfp.run_loop fuel (Tramp [Resume p st v []] true) w2)
  /\ (treamp2.invoke (Resume p st val0 exc0) w
      = (Yields (VGenerator g), [], w1) ->
      treamp2.invoke (Resume g (p :: st) VNone []) w1
      = (Yields v, [], w2) ->
      treamp2.run_loop (2 + fuel) (Tramp [Resume p st val0 exc0] true) w
      = treamp2.run_loop fuel (Tramp [Resume p st v []] true) w2).
Proof.
  intros Hv. change (2 + fuel) with (S (S fuel)).
  split; intros Hcall Hret.
  - pose proof (proj1 (@delegation_pushes_current_task _ _
                         (Resume p st val0 exc0) (Tramp [] true) w g [] w1)
                  Hcall) as H1.
    pose proof (proj1 (@yielded_value_is_sent_to_parent _ _
                         (Resume g (p :: st) VNone []) (Tramp [] true) w1
                         v [] w2 p st eq_refl Hv) Hret) as H2.
    simpl in H1, H2. unfold schedule in H1. simpl in H1.
    rewrite (@pfp_run_loop_step _ _ (S fuel) _ [] w _ w1 H1).
    rewrite (@pfp_run_loop_step _ _ fuel _ [] w1 _ w2 H2).
    reflexivity.
  - pose proof (proj2 (@delegation_pushes_current_task _ _
                         (Resume p st val0 exc0) (Tramp [] true) w g [] w1)
                  Hcall) as H1.
    pose proof (proj2 (@yielded_value_is_sent_to_parent _ _
                         (Resume g (p :: st) VNone []) (Tramp [] true) w1
                         v [] w2 p st eq_refl Hv) Hret) as H2.
    simpl in H1, H2. unfold schedule in H1. simpl in H1.
    rewrite (@t2_run_loop_step _ _ (S fuel) _ [] w _ w1 H1).
    rewrite (@t2_run_loop_step _ _ fuel _ [] w1 _ w2 H2).
    reflexivity.
Qed.

Lemma call_and_return_round_trip_witness :
  trampolinepfp.run_loop (RT := scripted) (2 + 3)
    (Tramp [Resume 0 [] VNone []] true) child_with_result
  = trampolinepfp.run_loop (RT := scripted) 3
      (Tramp [Resume 0 [] (VBytes hello) []] true)
      (<[1 := [([], Yields VNone)]]>
         (<[0 := [([], Yields VNone)]]> child_with_result)).
Proof.
  apply (proj1 (@call_and_return_round_trip _ scripted 3 0 1 [] VNone []
                  (VBytes hello) child_with_result
                  (<[0 := [([], Yields VNone)]]> child_with_result)
                  (<[1 := [([], Yields VNone)]]>
                     (<[0 := [([], Yields VNone)]]> child_with_result))
                  eq_refl)); reflexivity.
Defined.

(** X3: in [treamp2.py] a fault in a step that has a parent chain
    resumes the parent twice.  The [except] clause schedules the parent
    to have the fault thrown into it, control then leaves the [try]
    statement with [value] still bound to [val], and the code for a
    yielded value schedules the parent again, to be sent [val]: exactly
    these two steps are appended, in this order. *)
Theorem t2_fault_schedules_parent_twice
    (W : Type) (RT : Runtime W) (r : resume_closure) (t : Trampoline) (w : W)
    (e : exception) (cs : list call) (w' : W)
    (parent : gen_id) (rest : list gen_id) :
  stack r = parent :: rest ->
  is_generator (val r) = false ->
  treamp2.invoke r w = (Raises e, cs, w') ->
  exists t',
    treamp2.resume r t w = (Normal, t', w')
    /\ queue t' = queue (exec_calls cs t)
                  ++ [Resume parent rest (VExcClass (exc_type e))
                        [VExcInstance (exc_type e) (exc_arg e); VTraceback];
                      Resume parent rest (val r) []]
    /\ running t' = running (exec_calls cs t).
Proof.
  intros Hstack Hval Hinv. unfold treamp2.resume, treamp2.dispatch.
  rewrite Hinv, Hstack. simpl.
  destruct (val r); try discriminate;
    (eexists; split; [reflexivity|]; split;
     [simpl; now rewrite <- app_assoc | reflexivity]).
Qed.

Lemma t2_fault_schedules_parent_twice_witness :
  exists t',
    treamp2.resume (RT := scripted) (Resume 1 [0] VNone [])
      (Tramp [] true) parent_of_faulty_child
    = (Normal, t', <[1 := []]> parent_of_faulty_child)
    /\ queue t' = queue (exec_calls [] (Tramp [] true))
                  ++ [Resume 0 [] (VExcClass ConnectionLost)
                        [VExcInstance ConnectionLost VNone; VTraceback];
                      Resume 0 [] VNone []]
    /\ running t' = running (exec_calls [] (Tramp [] true)).
Proof.
  apply (@t2_fault_schedules_parent_twice _ scripted (Resume 1 [0] VNone [])
           (Tramp [] true) parent_of_faulty_child
           (Exc ConnectionLost VNone) [] (<[1 := []]> parent_of_faulty_child)
           0 [] eq_refl eq_refl).
  reflexivity.
Defined.

(** X5: with nothing queued, [run] does not return: it sleeps and looks
    again, for as long as it is observed.  A [stop()] called before
    [run] does not change this, since [run] sets [running] anew, and
    once inside only a coroutine could call [stop()], and none is there
    to run. *)
Theorem run_on_empty_queue_idles (fuel : nat) (t : Trampoline) :
  queue t = [] ->
  (forall w : world trampolinepfp.frame,
     trampolinepfp.run (RT := trampolinepfp.python) fuel t w
     = RunOutOfFuel (Tramp [] true) w)
  /\ (forall w : world treamp2.frame,
        treamp2.run (RT := treamp2.python) fuel t w
        = RunOutOfFuel (Tramp [] true) w).
Proof.
  intros Hq. split; intros w.
  - unfold trampolinepfp.run. rewrite Hq.
    now rewrite (@pfp_idle_loop _ trampolinepfp.python fuel w eq_refl).
  - unfold treamp2.run. rewrite Hq.
    now rewrite (@t2_idle_loop _ treamp2.python fuel w eq_refl).
Qed.

Lemma run_on_empty_queue_idles_witness :
  trampolinepfp.run (RT := trampolinepfp.python) 5 (stop Trampoline_init)
    (fresh_world late_data)
  = RunOutOfFuel (Tramp [] true) (fresh_world late_data).
Proof.
  apply (proj1 (@run_on_empty_queue_idles 5 (stop Trampoline_init) eq_refl)).
Defined.


(** ** [SocketWrapper] *)

Lemma recv_descriptor {F} x size (w : world F) :
  recv x size w = match descriptor x with
                  | Some fd => os_recv fd size w
                  | None => (Err (Exc AttributeError VNone), w)
                  end.
Proof. induction x; simpl; auto. Qed.

Lemma accept_descriptor {F} (wrap : value -> M F value) x fd :
  (forall v c w, descriptor v = Some c ->
     exists v', wrap v w = (Ok v', w) /\ descriptor v' = Some c) ->
  descriptor x = Some fd ->
  forall w,
    match accept wrap x w with
    | (Ok v, w') => exists c, os_accept fd w = (Ok c, w') /\ descriptor v = Some c
    | (Err e, w') => os_accept fd w = (Err e, w')
    end.
Proof.
  intros Hwrap. induction x; try discriminate; simpl; intros Hd w.
  - injection Hd as ->. unfold bind.
    destruct (os_accept fd w) as [[c|e] w']; simpl; eauto.
  - specialize (IHx Hd w). unfold bind.
    destruct (accept wrap x w) as [[v|e] w']; [|exact IHx].
    destruct IHx as (c & Hos & Hc).
    destruct (Hwrap v c w' Hc) as (v' & -> & Hv'). eauto.
Qed.

Lemma pfp_wrap_descriptor v c (w : world trampolinepfp.frame) :
  descriptor v = Some c ->
  exists v', trampolinepfp.SocketWrapper v w = (Ok v', w)
             /\ descriptor v' = Some c.
Proof. intros H. eexists. split; [reflexivity|exact H]. Qed.

Lemma t2_wrap_descriptor v c (w : world treamp2.frame) :
  descriptor v = Some c ->
  exists v', treamp2.SocketWrapper v w = (Ok v', w) /\ descriptor v' = Some c.
Proof.
  intros H. unfold treamp2.SocketWrapper.
  destruct v; try discriminate; simpl; eexists; (split; [reflexivity|exact H]).
Qed.

(** X6: the methods of a [SocketWrapper] act on the socket it wraps,
    however many wrappers deep ([treamp2.py] wraps what is wrapped
    already): [fileno] returns its descriptor, [send] and [recv] are
    that socket's, and what [accept] returns is a wrapper, as deep, of
    the connection that socket accepts. *)
Theorem SocketWrapper_methods_reach_the_socket (x : value) (fd : sock_id) :
  descriptor x = Some fd ->
  (forall F (w : world F),
     fileno x w = (Ok fd, w)
     /\ (forall data, send x data w = os_send fd data w)
     /\ (forall size, recv x size w = os_recv fd size w))
  /\ (forall w : world trampolinepfp.frame,
        match accept trampolinepfp.SocketWrapper x w with
        | (Ok v, w') =>
            exists c, os_accept fd w = (Ok c, w') /\ descriptor v = Some c
        | (Err e, w') => os_accept fd w = (Err e, w')
        end)
  /\ (forall w : world treamp2.frame,
        match accept treamp2.SocketWrapper x w with
        | (Ok v, w') =>
            exists c, os_accept fd w = (Ok c, w') /\ descriptor v = Some c
        | (Err e, w') => os_accept fd w = (Err e, w')
        end).
Proof.
  intros Hd. repeat apply conj.
  - intros F w. repeat apply conj.
    + now rewrite fileno_descriptor, Hd.
    + intros data. now rewrite send_descriptor, Hd.
    + intros size. now rewrite recv_descriptor, Hd.
  - apply (@accept_descriptor _ trampolinepfp.SocketWrapper x fd);
      [apply pfp_wrap_descriptor | exact Hd].
  - apply (@accept_descriptor _ treamp2.SocketWrapper x fd);
      [apply t2_wrap_descriptor | exact Hd].
Qed.

Lemma SocketWrapper_methods_reach_the_socket_witness :
  send (VSocketWrapper (VSocketWrapper (VSocket 3))) hello
    (fresh_world (F := treamp2.frame) data_and_room)
  = os_send 3 hello (fresh_world data_and_room).
Proof.
  apply (proj1 (@SocketWrapper_methods_reach_the_socket
                  (VSocketWrapper (VSocketWrapper (VSocket 3))) 3 eq_refl)).
Defined.

(** ** [nonblocking_accept] *)

Lemma select_ready_then {F} x fd (w : world F) s ev evs :
  descriptor x = Some fd ->
  (exists y, x = VSocketWrapper y) \/ (exists n, x = VSocket n) ->
  sockets w !! fd = Some s -> events s = Ready :: ev :: evs ->
  select x w = (Ok true, set_socket fd (Socket (ev :: evs) (sent s)) w).
Proof.
  intros Hd Hx Hs Hev. unfold select.
  destruct Hx as [[y ->]|[n ->]]; unfold bind;
    rewrite fileno_descriptor, Hd; unfold os_select; now rewrite Hs, Hev.
Qed.

Lemma select_timeout {F} x fd (w : world F) s evs :
  descriptor x = Some fd ->
  (exists y, x = VSocketWrapper y) \/ (exists n, x = VSocket n) ->
  sockets w !! fd = Some s -> events s = Timeout :: evs ->
  select x w = (Ok false, set_socket fd (Socket evs (sent s)) w).
Proof.
  intros Hd Hx Hs Hev. unfold select.
  destruct Hx as [[y ->]|[n ->]]; unfold bind;
    rewrite fileno_descriptor, Hd; unfold os_select; now rewrite Hs, Hev.
Qed.

Lemma descriptor_is_socket x fd :
  descriptor x = Some fd ->
  (exists y, x = VSocketWrapper y) \/ (exists n, x = VSocket n).
Proof. destruct x; try discriminate; eauto. Qed.

(** X7: [nonblocking_accept] hands the accepted connection over with
    [yield] and then returns nothing.  Resumed after that [yield] it
    ends at once, without touching the socket, and the value it returns
    (the value of a [yield from] on it) is [None], in both files; it
    never returns anything else. *)
Theorem nonblocking_accept_yields_client_and_returns_None :
  (forall f i w v w',
     trampolinepfp.resume_nonblocking_accept f i w = (Ok (Return v), w') ->
     v = VNone /\ w' = w /\ exists sock, f = trampolinepfp.AcceptedFrame sock)
  /\ (forall f i w v w',
        treamp2.resume_nonblocking_accept f i w = (Ok (Return v), w') ->
        v = VNone /\ w' = w /\ exists sock, f = treamp2.AcceptedFrame sock)
  /\ (forall inner fd c (w : world trampolinepfp.frame) s evs,
        descriptor inner = Some fd ->
        sockets w !! fd = Some s -> events s = Ready :: Conn c :: evs ->
        exists v w',
          trampolinepfp.nonblocking_accept (VSocketWrapper inner) w
          = (Ok (v, trampolinepfp.AcceptedFrame (VSocketWrapper inner)), w')
          /\ descriptor v = Some c
          /\ sockets w' !! fd = Some (Socket evs (sent s)))
  /\ (forall inner fd c (w : world treamp2.frame) s evs,
        descriptor inner = Some fd ->
        sockets w !! fd = Some s -> events s = Ready :: Conn c :: evs ->
        exists v w',
          treamp2.nonblocking_accept (VSocketWrapper inner) w
          = (Ok (v, treamp2.AcceptedFrame (VSocketWrapper inner)), w')
          /\ descriptor v = Some c
          /\ sockets w' !! fd = Some (Socket evs (sent s))).
Proof.
  assert (Hacc : forall F (w : world F) fd s c evs,
            os_accept fd (set_socket fd (Socket (Conn c :: evs) (sent s)) w)
            = (Ok c, set_socket fd (Socket evs (sent s))
                       (set_socket fd (Socket (Conn c :: evs) (sent s)) w))).
  { intros. unfold os_accept, set_socket at 1. simpl.
    now rewrite lookup_insert_eq. }
  repeat apply conj.
  - intros [sock|sock] [x|e] w v w'; simpl; try discriminate.
    + intros [= <- <-]. eauto.
    + unfold bind.
      destruct (trampolinepfp.nonblocking_accept sock w) as [[r|e] w1];
        discriminate.
  - intros [sock|sock] [x|e] w v w'; simpl;
      unfold treamp2.socket_guard, try_except, raise;
      try (destruct (exn_class_eqb (exc_type e) OSError); discriminate).
    + intros [= <- <-]. eauto.
    + unfold bind.
      destruct (treamp2.accept_turn sock w) as [[r|e] w1]; discriminate.
  - intros inner fd c w s evs Hd Hs Hev.
    unfold trampolinepfp.nonblocking_accept, bind. simpl attr_sock.
    unfold ret at 1.
    rewrite (@select_ready_then _ inner fd w s (Conn c) evs Hd
               (descriptor_is_socket _ Hd) Hs Hev).
    pose proof (@accept_descriptor _ trampolinepfp.SocketWrapper
                  (VSocketWrapper inner) fd
                  (@pfp_wrap_descriptor) Hd
                  (set_socket fd (Socket (Conn c :: evs) (sent s)) w)) as Ha.
    destruct (accept trampolinepfp.SocketWrapper (VSocketWrapper inner) _)
      as [[v|e] w1].
    + destruct Ha as (c' & Hos & Hv). rewrite Hacc in Hos.
      injection Hos as -> <-.
      eexists _, _. split; [reflexivity|]. split; [exact Hv|].
      simpl. now rewrite lookup_insert_eq.
    + rewrite Hacc in Ha. discriminate.
  - intros inner fd c w s evs Hd Hs Hev.
    unfold treamp2.nonblocking_accept, treamp2.accept_turn,
      treamp2.socket_guard, try_except, bind.
    simpl treamp2.ensure_wrapped. unfold ret at 1.
    rewrite (@select_ready_then _ (VSocketWrapper inner) fd w s (Conn c) evs Hd
               (or_introl (ex_intro _ inner eq_refl)) Hs Hev).
    pose proof (@accept_descriptor _ treamp2.SocketWrapper
                  (VSocketWrapper inner) fd
                  (@t2_wrap_descriptor) Hd
                  (set_socket fd (Socket (Conn c :: evs) (sent s)) w)) as Ha.
    destruct (accept treamp2.SocketWrapper (VSocketWrapper inner) _)
      as [[v|e] w1].
    + destruct Ha as (c' & Hos & Hv). rewrite Hacc in Hos.
      injection Hos as -> <-.
      eexists _, _. split; [reflexivity|]. split; [exact Hv|].
      simpl. now rewrite lookup_insert_eq.
    + rewrite Hacc in Ha. discriminate.
Qed.

Lemma nonblocking_accept_yields_client_and_returns_None_witness :
  exists v w',
    trampolinepfp.nonblocking_accept (VSocketWrapper (VSocket 3))
      (fresh_world two_clients)
    = (Ok (v, trampolinepfp.AcceptedFrame (VSocketWrapper (VSocket 3))), w')
    /\ descriptor v = Some 4
    /\ sockets w' !! 3 = Some (Socket [Ready; Conn 5] (sent (Socket [] []))).
Proof.
  destruct nonblocking_accept_yields_client_and_returns_None
    as (_ & _ & Hpfp & _).
  apply (Hpfp (VSocket 3) 3 4 (fresh_world two_clients)
           (Socket [Ready; Conn 4; Ready; Conn 5] []) [Ready; Conn 5]);
    reflexivity.
Defined.

(** ** What [listen_on] does to the trampoline *)

Section Quiet.
Context {F : Type}.

Lemma same_objects_refl (w : world F) : same_objects w w.
Proof. now repeat split. Qed.

Lemma same_objects_trans (w1 w2 w3 : world F) :
  same_objects w1 w2 -> same_objects w2 w3 -> same_objects w1 w3.
Proof.
  intros (H1 & H2 & H3) (H4 & H5 & H6).
  repeat split; congruence.
Qed.

Lemma same_objects_set_socket fd s (w : world F) :
  same_objects w (set_socket fd s w).
Proof. now repeat split. Qed.

Lemma quiet_ret {A} (a : A) : quiet (F := F) (ret a).
Proof. intros w. apply same_objects_refl. Qed.

Lemma quiet_raise {A} e : quiet (F := F) (A := A) (raise e).
Proof. intros w. apply same_objects_refl. Qed.

Lemma quiet_bind {A B} (m : M F A) (k : A -> M F B) :
  quiet m -> (forall a, quiet (k a)) -> quiet (bind m k).
Proof.
  intros Hm Hk w. unfold bind. specialize (Hm w).
  destruct (m w) as [[a|e] w1]; simpl in Hm; [|exact Hm].
  eapply same_objects_trans; [exact Hm|apply Hk].
Qed.

Lemma quiet_try_except {A} (m h : M F A) cls :
  quiet m -> quiet h -> quiet (try_except m cls h).
Proof.
  intros Hm Hh w. unfold try_except. specialize (Hm w).
  destruct (m w) as [[a|e] w1]; simpl in Hm; [exact Hm|].
  destruct (exn_class_eqb (exc_type e) cls); [|exact Hm].
  eapply same_objects_trans; [exact Hm|apply Hh].
Qed.

Lemma quiet_print line : quiet (F := F) (print line).
Proof. intros w. now repeat split. Qed.

Lemma quiet_os_select fd : quiet (F := F) (os_select fd).
Proof.
  intros w. unfold os_select. destruct (sockets w !! fd) as [s|];
    [|apply same_objects_refl].
  destruct (events s) as [|[] evs]; simpl;
    first [apply same_objects_refl | apply same_objects_set_socket].
Qed.

Lemma quiet_os_accept fd : quiet (F := F) (os_accept fd).
Proof.
  intros w. unfold os_accept. destruct (sockets w !! fd) as [s|];
    [|apply same_objects_refl].
  destruct (events s) as [|[] evs]; simpl;
    first [apply same_objects_refl | apply same_objects_set_socket].
Qed.

Lemma quiet_fileno x : quiet (F := F) (fileno x).
Proof. induction x; simpl; try apply quiet_raise; auto. apply quiet_ret. Qed.

Lemma quiet_select x : quiet (F := F) (select x).
Proof.
  unfold select. destruct x; try apply quiet_raise;
    (apply quiet_bind; [apply quiet_fileno|intros; apply quiet_os_select]).
Qed.

Lemma quiet_accept (wrap : value -> M F value) x :
  (forall v, quiet (wrap v)) -> quiet (accept wrap x).
Proof.
  intros Hwrap. induction x; simpl; try apply quiet_raise.
  - apply quiet_bind; [apply quiet_os_accept|intros; apply quiet_ret].
  - apply quiet_bind; [exact IHx|exact Hwrap].
Qed.

Lemma quiet_attr_sock x : quiet (F := F) (attr_sock x).
Proof. destruct x; simpl; first [apply quiet_ret | apply quiet_raise]. Qed.

Lemma try_except_same {A} (m h : M F A) cls w :
  same_objects w (snd (m w)) -> quiet h ->
  same_objects w (snd (try_except m cls h w)).
Proof.
  intros Hm Hh. unfold try_except.
  destruct (m w) as [[a|e] w1]; simpl in Hm; [exact Hm|].
  destruct (exn_class_eqb (exc_type e) cls); [|exact Hm].
  eapply same_objects_trans; [exact Hm|apply Hh].
Qed.

Lemma bind_same {A B} (m : M F A) (k : A -> M F B) (P : A -> Prop) w :
  same_objects w (snd (m w)) ->
  (forall a w', m w = (Ok a, w') -> P a) ->
  (forall a, P a -> quiet (k a)) ->
  same_objects w (snd (bind m k w)).
Proof.
  intros Hm HP Hk. unfold bind.
  destruct (m w) as [[a|e] w1] eqn:Hmw; simpl in Hm; [|exact Hm].
  eapply same_objects_trans; [exact Hm|]. apply Hk. now apply (HP a w1).
Qed.

Lemma generator_boundary_ok {A} (m : M F A) w a w' :
  generator_boundary m w = (Ok a, w') -> m w = (Ok a, w').
Proof.
  unfold generator_boundary, try_except, raise.
  destruct (m w) as [[a0|e] w1]; [auto|].
  now destruct (exn_class_eqb (exc_type e) StopIteration).
Qed.

End Quiet.

Lemma pfp_quiet_SocketWrapper v : quiet (trampolinepfp.SocketWrapper v).
Proof. apply quiet_ret. Qed.

Lemma t2_quiet_SocketWrapper v : quiet (treamp2.SocketWrapper v).
Proof.
  unfold treamp2.SocketWrapper.
  destruct (truthy v); [apply quiet_ret|apply quiet_raise].
Qed.

Lemma t2_quiet_ensure_wrapped v : quiet (treamp2.ensure_wrapped v).
Proof.
  unfold treamp2.ensure_wrapped.
  destruct v; first [apply quiet_ret | apply t2_quiet_SocketWrapper].
Qed.

Lemma pfp_quiet_nonblocking_accept sock :
  quiet (trampolinepfp.nonblocking_accept sock).
Proof.
  unfold trampolinepfp.nonblocking_accept.
  apply quiet_bind; [apply quiet_attr_sock|intros s].
  apply quiet_bind; [apply quiet_select|intros [|]]; [|apply quiet_ret].
  apply quiet_bind; [|intros; apply quiet_ret].
  apply quiet_accept, pfp_quiet_SocketWrapper.
Qed.

Lemma t2_quiet_accept_turn sock : quiet (treamp2.accept_turn sock).
Proof.
  unfold treamp2.accept_turn, treamp2.socket_guard.
  apply quiet_try_except; [|apply quiet_raise].
  apply quiet_bind; [apply quiet_select|intros [|]]; [|apply quiet_ret].
  apply quiet_bind; [|intros; apply quiet_ret].
  apply quiet_accept, t2_quiet_SocketWrapper.
Qed.

Lemma t2_quiet_nonblocking_accept sock :
  quiet (treamp2.nonblocking_accept sock).
Proof.
  unfold treamp2.nonblocking_accept.
  apply quiet_bind; [apply t2_quiet_ensure_wrapped|intros].
  apply t2_quiet_accept_turn.
Qed.

Lemma pfp_quiet_listen_accept h sock :
  quiet (trampolinepfp.listen_accept h sock).
Proof.
  unfold trampolinepfp.listen_accept, generator_boundary.
  apply quiet_bind; [|intros; apply quiet_ret].
  apply quiet_try_except; [apply pfp_quiet_nonblocking_accept|apply quiet_raise].
Qed.

Lemma t2_quiet_listen_accept h sock : quiet (treamp2.listen_accept h sock).
Proof.
  unfold treamp2.listen_accept, treamp2.listen_guard, generator_boundary.
  apply quiet_try_except;
    [|apply quiet_bind; [apply quiet_print|intros; apply quiet_ret]].
  apply quiet_bind; [|intros; apply quiet_ret].
  apply quiet_try_except; [apply t2_quiet_nonblocking_accept|apply quiet_raise].
Qed.

(** A resumed accept generator: either it is still suspended or failed,
    having talked to the system only, or it has returned [None], having
    done nothing. *)
Lemma pfp_resumed_accept sub i w :
  same_objects w (snd (trampolinepfp.resume_nonblocking_accept sub i w))
  /\ forall v w', trampolinepfp.resume_nonblocking_accept sub i w
                  = (Ok (Return v), w') -> v = VNone /\ w' = w.
Proof.
  destruct sub as [sock|sock], i as [x|e]; simpl;
    (split; [try apply same_objects_refl|try discriminate]).
  - now intros v w' [= <- <-].
  - apply (quiet_bind (fun r => ret (Yield (fst r) (snd r)))
             (pfp_quiet_nonblocking_accept sock) (fun r => quiet_ret _)).
  - intros v w'. unfold bind.
    destruct (trampolinepfp.nonblocking_accept sock w) as [[r|e] w1];
      discriminate.
Qed.

Lemma t2_resumed_accept sub i w :
  same_objects w (snd (treamp2.resume_nonblocking_accept sub i w))
  /\ forall v w', treamp2.resume_nonblocking_accept sub i w
                  = (Ok (Return v), w') -> v = VNone /\ w' = w.
Proof.
  assert (Hthrow : forall e,
            quiet (treamp2.socket_guard
                     (raise (F := treamp2.frame)
                        (A := step treamp2.accept_frame) e))).
  { intros e. apply quiet_try_except; apply quiet_raise. }
  assert (Hnot : forall e w v w',
            treamp2.socket_guard
              (raise (F := treamp2.frame) (A := step treamp2.accept_frame) e) w
            <> (Ok (Return v), w')).
  { intros e w0 v w'. unfold treamp2.socket_guard, try_except, raise.
    now destruct (exn_class_eqb (exc_type e) OSError). }
  destruct sub as [sock|sock], i as [x|e]; simpl; split;
    try apply Hthrow; try (intros v w' H; now apply Hnot in H).
  - apply same_objects_refl.
  - now intros v w' [= <- <-].
  - apply (quiet_bind (fun r => ret (Yield (fst r) (snd r)))
             (t2_quiet_accept_turn sock) (fun r => quiet_ret _)).
  - intros v w'. unfold bind.
    destruct (treamp2.accept_turn sock w) as [[r|e] w1]; discriminate.
Qed.

Section Silent.
Context {F : Type}.

Lemma silent_ret {A} (a : A) : silent (F := F) (ret a).
Proof. intros w. reflexivity. Qed.

Lemma silent_raise {A} e : silent (F := F) (A := A) (raise e).
Proof. intros w. reflexivity. Qed.

Lemma silent_bind {A B} (m : M F A) (k : A -> M F B) :
  silent m -> (forall a, silent (k a)) -> silent (bind m k).
Proof.
  intros Hm Hk w. unfold bind. specialize (Hm w).
  destruct (m w) as [[a|e] w1]; simpl in Hm; [|exact Hm].
  now rewrite Hk.
Qed.

Lemma silent_try_except {A} (m h : M F A) cls :
  silent m -> silent h -> silent (try_except m cls h).
Proof.
  intros Hm Hh w. unfold try_except. specialize (Hm w).
  destruct (m w) as [[a|e] w1]; simpl in Hm; [exact Hm|].
  destruct (exn_class_eqb (exc_type e) cls); [|exact Hm].
  now rewrite Hh.
Qed.

Lemma silent_os_select fd : silent (F := F) (os_select fd).
Proof.
  intros w. unfold os_select. destruct (sockets w !! fd) as [s|];
    [|reflexivity].
  destruct (events s) as [|[] evs]; reflexivity.
Qed.

Lemma silent_os_accept fd : silent (F := F) (os_accept fd).
Proof.
  intros w. unfold os_accept. destruct (sockets w !! fd) as [s|];
    [|reflexivity].
  destruct (events s) as [|[] evs]; reflexivity.
Qed.

Lemma silent_fileno x : silent (F := F) (fileno x).
Proof. induction x; simpl; try apply silent_raise; auto. apply silent_ret. Qed.

Lemma silent_select x : silent (F := F) (select x).
Proof.
  unfold select. destruct x; try apply silent_raise;
    (apply silent_bind; [apply silent_fileno|intros; apply silent_os_select]).
Qed.

Lemma silent_accept (wrap : value -> M F value) x :
  (forall v, silent (wrap v)) -> silent (accept wrap x).
Proof.
  intros Hwrap. induction x; simpl; try apply silent_raise.
  - apply silent_bind; [apply silent_os_accept|intros; apply silent_ret].
  - apply silent_bind; [exact IHx|exact Hwrap].
Qed.

(** A [try] statement either lets the outcome of its body through, which
    is then no exception of the class it catches, or runs its handler
    where the body stopped. *)
Lemma try_except_cases {A} (m h : M F A) cls w :
  (try_except m cls h w = m w /\ raises_class cls (fst (m w)) = false)
  \/ (exists e w1,
        m w = (Err e, w1) /\ exn_class_eqb (exc_type e) cls = true
        /\ try_except m cls h w = h w1).
Proof.
  unfold try_except. destruct (m w) as [[a|e] w1]; simpl; [now left|].
  destruct (exn_class_eqb (exc_type e) cls) eqn:He; [right; eauto|now left].
Qed.

End Silent.

Lemma t2_silent_SocketWrapper v : silent (treamp2.SocketWrapper v).
Proof.
  unfold treamp2.SocketWrapper.
  destruct (truthy v); [apply silent_ret|apply silent_raise].
Qed.

Lemma t2_silent_accept_turn sock : silent (treamp2.accept_turn sock).
Proof.
  unfold treamp2.accept_turn, treamp2.socket_guard.
  apply silent_try_except; [|apply silent_raise].
  apply silent_bind; [apply silent_select|intros [|]]; [|apply silent_ret].
  apply silent_bind; [|intros; apply silent_ret].
  apply silent_accept, t2_silent_SocketWrapper.
Qed.

Lemma t2_silent_nonblocking_accept sock :
  silent (treamp2.nonblocking_accept sock).
Proof.
  unfold treamp2.nonblocking_accept.
  apply silent_bind; [|intros; apply t2_silent_accept_turn].
  unfold treamp2.ensure_wrapped.
  destruct sock; first [apply silent_ret | apply t2_silent_SocketWrapper].
Qed.

Lemma t2_silent_resume_nonblocking_accept sub i :
  silent (treamp2.resume_nonblocking_accept sub i).
Proof.
  destruct sub as [sock|sock], i as [x|e]; simpl;
    try (apply silent_try_except; apply silent_raise);
    try apply silent_ret.
  apply silent_bind; [apply t2_silent_accept_turn|intros; apply silent_ret].
Qed.

(** What the [try] statement of [listen_on] makes of a body that prints
    nothing: the body's outcome, which is no [ConnectionLost], with
    nothing printed, or the one line of the handler and the end of the
    generator. *)
Lemma t2_listen_guard_prints (m : treamp2.M (step treamp2.frame)) w :
  stdout (snd (m w)) = stdout w ->
  (stdout (snd (treamp2.listen_guard m w)) = stdout w
   /\ raises_class ConnectionLost (fst (treamp2.listen_guard m w)) = false)
  \/ (stdout (snd (treamp2.listen_guard m w))
      = stdout w ++ ["Connection lost while accepting."%string]
      /\ fst (treamp2.listen_guard m w) = Ok (Return VNone)).
Proof.
  intros Hm. unfold treamp2.listen_guard.
  destruct (try_except_cases m
              (print "Connection lost while accepting." ;; ret (Return VNone))
              ConnectionLost w) as [[-> Hno]|(e & w1 & Hw1 & _ & ->)].
  - left. now split.
  - right. rewrite Hw1 in Hm. simpl in Hm. unfold bind, print, ret. simpl.
    now rewrite Hm.
Qed.

Lemma t2_listen_accept_prints h sock w :
  (stdout (snd (treamp2.listen_accept h sock w)) = stdout w
   /\ raises_class ConnectionLost (fst (treamp2.listen_accept h sock w)) = false)
  \/ (stdout (snd (treamp2.listen_accept h sock w))
      = stdout w ++ ["Connection lost while accepting."%string]
      /\ fst (treamp2.listen_accept h sock w) = Ok (Return VNone)).
Proof.
  unfold treamp2.listen_accept. apply t2_listen_guard_prints.
  apply (silent_bind
           (fun r => ret (Yield (fst r)
                            (treamp2.ListenAccepting h sock (snd r))))).
  - apply silent_try_except;
      [apply t2_silent_nonblocking_accept|apply silent_raise].
  - intros; apply silent_ret.
Qed.

(** X8: the listener of [treamp2.py] never adds a handler.  Whatever is
    sent or thrown into [listen_on], at any of its suspension points and
    in any state of the sockets, it creates no generator and makes no
    call on the trampoline: the value of its [yield from] is always
    [None], so the guard [if client_sock:] never passes.  Nor does it
    ever print that a connection was accepted: a resumption prints
    nothing, or it prints that the connection was lost while accepting,
    once, and the listener ends. *)
Theorem t2_listen_on_never_adds_a_handler
    (f : treamp2.frame) (i : input) (w : world treamp2.frame) :
  t2_is_listen_frame f = true ->
  same_objects w (snd (treamp2.resume_frame f i w))
  /\ (stdout (snd (treamp2.resume_frame f i w)) = stdout w
      \/ (stdout (snd (treamp2.resume_frame f i w))
          = stdout w ++ ["Connection lost while accepting."%string]
          /\ fst (treamp2.resume_frame f i w) = Ok (Return VNone))).
Proof.
  destruct f; try discriminate; intros _; simpl; split.
  - unfold treamp2.listen_on.
    destruct sock; try apply same_objects_refl;
      (apply quiet_bind; [apply t2_quiet_SocketWrapper|intros];
       apply t2_quiet_listen_accept).
  - assert (Hwrapped : forall v,
              let r := (wrapped_sock <- treamp2.SocketWrapper v ;;
                        treamp2.listen_accept handler wrapped_sock) w in
              stdout (snd r) = stdout w
              \/ (stdout (snd r)
                  = stdout w ++ ["Connection lost while accepting."%string]
                  /\ fst r = Ok (Return VNone))).
    { intros v. unfold bind, treamp2.SocketWrapper.
      destruct (truthy v); simpl; [|now left].
      destruct (t2_listen_accept_prints handler (VSocketWrapper v) w)
        as [[H _]|H]; [now left|now right]. }
    unfold treamp2.listen_on.
    destruct sock; first [now left | apply Hwrapped].
  - unfold treamp2.resume_listen_on, treamp2.listen_guard.
    destruct (t2_resumed_accept sub i w) as [Hsame Hret].
    apply try_except_same;
      [|apply quiet_bind; [apply quiet_print|intros; apply quiet_ret]].
    apply bind_same with
      (P := fun r => match r with Return v => v = VNone | Yield _ _ => True end).
    + apply try_except_same; [exact Hsame|apply quiet_raise].
    + intros [v f'|v] w' H; [exact I|].
      apply generator_boundary_ok in H. now apply Hret in H.
    + intros [v f'|v] Hv; [apply quiet_ret|]. subst v. simpl truthy.
      apply quiet_bind; [apply quiet_ret|intros; apply t2_quiet_listen_accept].
  - destruct (t2_resumed_accept sub i w) as [_ Hret].
    pose proof (t2_silent_resume_nonblocking_accept sub i w) as Hquiet.
    unfold treamp2.resume_listen_on, treamp2.listen_guard.
    match goal with
    | |- context [try_except ?m ConnectionLost ?h w] =>
        destruct (try_except_cases m h ConnectionLost w)
          as [[Heq Hno]|(e & w1 & Hw1 & He & Heq)]; rewrite Heq; clear Heq;
        [|right]
    end.
    + unfold bind in *.
      destruct (generator_boundary (treamp2.resume_nonblocking_accept sub i) w)
        as [[[v f'|v]|e] w1] eqn:Hsub.
      * left. simpl.
        revert Hsub. unfold generator_boundary, try_except, raise.
        destruct (treamp2.resume_nonblocking_accept sub i w) as [[a|e] w2];
          simpl in Hquiet; [intros [= _ <-]; exact Hquiet|].
        destruct (exn_class_eqb (exc_type e) StopIteration); discriminate.
      * apply generator_boundary_ok in Hsub.
        destruct (Hret _ _ Hsub) as [-> ->]. simpl truthy. simpl.
        destruct (t2_listen_accept_prints handler wrapped_sock w)
          as [[H _]|H]; [now left|now right].
      * left. simpl.
        revert Hsub. unfold generator_boundary, try_except, raise.
        destruct (treamp2.resume_nonblocking_accept sub i w) as [[a|e0] w2];
          simpl in Hquiet; [discriminate|].
        destruct (exn_class_eqb (exc_type e0) StopIteration);
          intros [= _ <-]; exact Hquiet.
    + unfold bind in Hw1.
      destruct (generator_boundary (treamp2.resume_nonblocking_accept sub i) w)
        as [[[v f'|v]|e0] w2] eqn:Hsub.
      * discriminate.
      * apply generator_boundary_ok in Hsub.
        destruct (Hret _ _ Hsub) as [-> ->]. simpl truthy in Hw1.
        simpl in Hw1.
        destruct (t2_listen_accept_prints handler wrapped_sock w)
          as [[_ H]|[_ H]]; rewrite Hw1 in H; simpl in H.
        -- congruence.
        -- discriminate.
      * injection Hw1 as <- <-.
        assert (Hout : stdout w2 = stdout w).
        { revert Hsub. unfold generator_boundary, try_except, raise.
          destruct (treamp2.resume_nonblocking_accept sub i w) as [[a|e1] w3];
            simpl in Hquiet; [discriminate|].
          destruct (exn_class_eqb (exc_type e1) StopIteration);
            intros [= _ <-]; exact Hquiet. }
        unfold bind, print, ret. simpl. now rewrite Hout.
Qed.

Lemma t2_listen_on_never_adds_a_handler_witness :
  same_objects t2_server
    (snd (treamp2.resume_frame
            (treamp2.Call_listen_on treamp2.Call_echo_handler
               (VSocketWrapper (VSocket 3)))
            (Send VNone) t2_server))
  /\ (stdout (snd (treamp2.resume_frame
                     (treamp2.Call_listen_on treamp2.Call_echo_handler
                        (VSocketWrapper (VSocket 3)))
                     (Send VNone) t2_server)) = stdout t2_server
      \/ (stdout (snd (treamp2.resume_frame
                         (treamp2.Call_listen_on treamp2.Call_echo_handler
                            (VSocketWrapper (VSocket 3)))
                         (Send VNone) t2_server))
          = stdout t2_server ++ ["Connection lost while accepting."%string]
          /\ fst (treamp2.resume_frame
                    (treamp2.Call_listen_on treamp2.Call_echo_handler
                       (VSocketWrapper (VSocket 3)))
                    (Send VNone) t2_server) = Ok (Return VNone))).
Proof.
  apply (@t2_listen_on_never_adds_a_handler
           (treamp2.Call_listen_on treamp2.Call_echo_handler
              (VSocketWrapper (VSocket 3)))
           (Send VNone) t2_server).
  reflexivity.
Defined.

Lemma try_except_ret_world {F A} (m : M F A) cls (a : A) w :
  snd (try_except m cls (ret a) w) = snd (m w).
Proof.
  unfold try_except. destruct (m w) as [[a0|e] w1]; [reflexivity|].
  now destruct (exn_class_eqb (exc_type e) cls).
Qed.

Lemma bind_world_cases {F A B} (m : M F A) (k : A -> M F B) w :
  (exists a w1, m w = (Ok a, w1) /\ snd (bind m k w) = snd (k a w1))
  \/ (exists e w1, m w = (Err e, w1) /\ snd (bind m k w) = w1).
Proof.
  unfold bind. destruct (m w) as [[a|e] w1]; [left|right]; eauto.
Qed.

(** X9: the listener of [trampolinepfp.py] never adds a handler for a
    connection.  A resumption of [listen_on] either creates nothing and
    calls nothing, or creates one generator, [handler(None)], and adds
    it: [client_sock] is the value of the [yield from], [None], not the
    socket that was accepted. *)
Theorem pfp_listen_on_adds_handlers_for_None
    (f : trampolinepfp.frame) (h : value -> trampolinepfp.frame)
    (i : input) (w : world trampolinepfp.frame) :
  pfp_handler_of f = Some h ->
  same_objects w (snd (trampolinepfp.resume_frame f i w))
  \/ (heap (snd (trampolinepfp.resume_frame f i w))
      = <[next_gen w := Gen (h VNone)]> (heap w)
      /\ next_gen (snd (trampolinepfp.resume_frame f i w)) = S (next_gen w)
      /\ calls (snd (trampolinepfp.resume_frame f i w))
         = calls w ++ [CallAdd (next_gen w)]).
Proof.
  destruct f; try discriminate; intros [= ->]; simpl.
  - left. unfold trampolinepfp.listen_on, trampolinepfp.listen_guard.
    apply try_except_same; [apply pfp_quiet_listen_accept|apply quiet_ret].
  - unfold trampolinepfp.resume_listen_on, trampolinepfp.listen_guard.
    rewrite try_except_ret_world.
    destruct (pfp_resumed_accept sub i w) as [Hsame Hret].
    pose proof (@try_except_same _ _
      (trampolinepfp.resume_nonblocking_accept sub i)
      (raise generator_raised_StopIteration) StopIteration w Hsame
      (quiet_raise _)) as Hgb.
    fold (generator_boundary (trampolinepfp.resume_nonblocking_accept sub i))
      in Hgb.
    match goal with
    | |- context [bind ?m ?k w] =>
        destruct (bind_world_cases m k w)
          as [(a & w1 & Hm & Hw)|(e & w1 & Hm & Hw)]
    end; rewrite Hw; rewrite Hm in Hgb; simpl in Hgb.
    + destruct a as [v f'|v]; [left; exact Hgb|].
      apply generator_boundary_ok in Hm.
      destruct (Hret v w1 Hm) as [-> ->].
      right. unfold bind, new_generator, trampoline_call. simpl.
      pose proof (pfp_quiet_listen_accept h sock
        (World (<[next_gen w := Gen (h VNone)]> (heap w)) (S (next_gen w))
               (sockets w) (stdout w) (calls w ++ [CallAdd (next_gen w)])))
        as (H1 & H2 & H3).
      simpl in H1, H2, H3. auto.
    + left. exact Hgb.
Qed.

Lemma pfp_listen_on_adds_handlers_for_None_witness :
  same_objects pfp_listener_accepted
    (snd (trampolinepfp.resume_frame
            (trampolinepfp.ListenAccepting trampolinepfp.Call_echo_handler
               (VSocketWrapper (VSocket 3))
               (trampolinepfp.AcceptedFrame (VSocketWrapper (VSocket 3))))
            (Send VNone) pfp_listener_accepted))
  \/ (heap (snd (trampolinepfp.resume_frame
                   (trampolinepfp.ListenAccepting
                      trampolinepfp.Call_echo_handler
                      (VSocketWrapper (VSocket 3))
                      (trampolinepfp.AcceptedFrame (VSocketWrapper (VSocket 3))))
                   (Send VNone) pfp_listener_accepted))
      = <[next_gen pfp_listener_accepted
          := Gen (trampolinepfp.Call_echo_handler VNone)]>
          (heap pfp_listener_accepted)
      /\ next_gen (snd (trampolinepfp.resume_frame
                          (trampolinepfp.ListenAccepting
                             trampolinepfp.Call_echo_handler
                             (VSocketWrapper (VSocket 3))
                             (trampolinepfp.AcceptedFrame
                                (VSocketWrapper (VSocket 3))))
                          (Send VNone) pfp_listener_accepted))
         = S (next_gen pfp_listener_accepted)
      /\ calls (snd (trampolinepfp.resume_frame
                       (trampolinepfp.ListenAccepting
                          trampolinepfp.Call_echo_handler
                          (VSocketWrapper (VSocket 3))
                          (trampolinepfp.AcceptedFrame
                             (VSocketWrapper (VSocket 3))))
                       (Send VNone) pfp_listener_accepted))
         = calls pfp_listener_accepted
           ++ [CallAdd (next_gen pfp_listener_accepted)]).
Proof.
  apply (@pfp_listen_on_adds_handlers_for_None _
           trampolinepfp.Call_echo_handler (Send VNone) pfp_listener_accepted).
  reflexivity.
Defined.


(** ** [nonblocking_read] as a restartable operation *)

(** What is left to read after [recv] has taken [size] bytes of [d]. *)
Lemma os_recv_data {F} fd (w : world F) s d evs size :
  os_recv fd size (set_socket fd (Socket (Data d :: evs) (sent s)) w)
  = (Ok (firstn size d),
     set_socket fd
       (Socket match skipn size d with
               | [] => evs
               | later => Ready :: Data later :: evs
               end (sent s))
       (set_socket fd (Socket (Data d :: evs) (sent s)) w)).
Proof.
  unfold os_recv, set_socket at 1. simpl. now rewrite lookup_insert_eq.
Qed.

Lemma set_socket_twice {F} fd s1 s2 (w : world F) :
  set_socket fd s2 (set_socket fd s1 w) = set_socket fd s2 w.
Proof. unfold set_socket. simpl. now rewrite insert_insert_eq. Qed.

Lemma sockets_set_socket {F} fd s (w : world F) :
  sockets (set_socket fd s w) !! fd = Some s.
Proof. simpl. apply lookup_insert_eq. Qed.



Lemma t2_read_not_ready inner fd chunk_size (w : world treamp2.frame) s evs :
  descriptor inner = Some fd ->
  sockets w !! fd = Some s -> events s = Timeout :: evs ->
  treamp2.read_turn (VSocketWrapper inner) chunk_size w
  = (Ok (treamp2.ReadSuspends
           (treamp2.ReadFrame (VSocketWrapper inner) chunk_size)),
     set_socket fd (Socket evs (sent s)) w).
Proof.
  intros Hd Hs Hev.
  unfold treamp2.read_turn, treamp2.socket_guard, try_except, bind.
  now rewrite (@select_timeout _ (VSocketWrapper inner) fd w s evs Hd
                 (or_introl (ex_intro _ inner eq_refl)) Hs Hev).
Qed.





(** ** [echo_handler] of [trampolinepfp.py]: what is read is what is sent *)

Section Conservation.
Context {F : Type}.
Implicit Types (w : world F) (fd : sock_id).

Lemma pending_set_socket fd fd' s w :
  pending fd (set_socket fd' s w)
  = if decide (fd = fd') then arriving (events s) else pending fd w.
Proof.
  unfold pending, set_socket; simpl.
  destruct (decide (fd = fd')) as [->|Hne].
  - now rewrite lookup_insert_eq.
  - now rewrite lookup_insert_ne by congruence.
Qed.

Lemma pending_set_events fd fd' s evs sent' w :
  sockets w !! fd' = Some s ->
  arriving evs = arriving (events s) ->
  pending fd (set_socket fd' (Socket evs sent') w) = pending fd w.
Proof.
  intros Hs Hev. rewrite pending_set_socket.
  destruct (decide (fd = fd')) as [->|]; [|reflexivity].
  unfold pending. rewrite Hs. exact Hev.
Qed.

Lemma os_select_pending fd' w (r : result bool) w' fd :
  os_select fd' w = (r, w') -> pending fd w' = pending fd w.
Proof.
  unfold os_select. destruct (sockets w !! fd') as [s|] eqn:Hs.
  - destruct (events s) as [|[] evs] eqn:Hev; intros [= <- <-];
      try reflexivity; apply pending_set_events with (s := s); auto;
      now rewrite Hev.
  - now intros [= <- <-].
Qed.

Lemma select_pending x w (r : result bool) w' fd :
  select x w = (r, w') -> pending fd w' = pending fd w.
Proof.
  unfold select.
  destruct x; try (now intros [= <- <-]);
    unfold bind; rewrite fileno_descriptor;
    (destruct (descriptor _); [apply os_select_pending | now intros [= <- <-]]).
Qed.

Lemma os_send_pending fd' data w (r : result nat) w' fd :
  os_send fd' data w = (r, w') -> pending fd w' = pending fd w.
Proof.
  unfold os_send. destruct (sockets w !! fd') as [s|] eqn:Hs.
  - destruct (events s) as [|[] evs] eqn:Hev; intros [= <- <-];
      try reflexivity; apply pending_set_events with (s := s); auto;
      now rewrite Hev.
  - now intros [= <- <-].
Qed.

Lemma send_pending x data w (r : result nat) w' fd :
  send x data w = (r, w') -> pending fd w' = pending fd w.
Proof.
  rewrite send_descriptor.
  destruct (descriptor x); [apply os_send_pending | now intros [= <- <-]].
Qed.

Lemma os_recv_conserves fd size w d w' :
  os_recv fd size w = (Ok d, w') ->
  d ++ pending fd w' = pending fd w /\ wire fd w' = wire fd w.
Proof.
  unfold os_recv. destruct (sockets w !! fd) as [s|] eqn:Hs; [|discriminate].
  destruct (events s) as [|[] evs] eqn:Hev; try discriminate.
  intros [= <- <-]. split.
  - rewrite pending_set_socket. destruct (decide (fd = fd)); [|congruence].
    unfold pending. rewrite Hs, Hev. simpl.
    rewrite <- (firstn_skipn size b) at 3. rewrite <- app_assoc. f_equal.
    now destruct (skipn size b).
  - now apply wire_set_events.
Qed.

Lemma recv_conserves x fd size w d w' :
  descriptor x = Some fd ->
  recv x size w = (Ok d, w') ->
  d ++ pending fd w' = pending fd w /\ wire fd w' = wire fd w.
Proof.
  intros Hd. rewrite recv_descriptor, Hd. apply os_recv_conserves.
Qed.

Lemma try_except_yield {A} (m : M F (step A)) cls (x : value) w v f w' :
  try_except m cls (ret (Return x)) w = (Ok (Yield v f), w') ->
  m w = (Ok (Yield v f), w').
Proof.
  intros H. apply try_except_ok in H as [H|(e & w1 & _ & H)];
    [exact H|discriminate].
Qed.

End Conservation.

Lemma pfp_read_conserves sock fd chunk_size w r w' :
  descriptor sock = Some fd ->
  trampolinepfp.nonblocking_read sock chunk_size w = (Ok r, w') ->
  wire fd w' = wire fd w
  /\ match r with
     | trampolinepfp.ReadSuspends f =>
         f = trampolinepfp.ReadFrame sock chunk_size
         /\ pending fd w' = pending fd w
     | trampolinepfp.ReadReturns b rest =>
         (b :: rest) ++ pending fd w' = pending fd w
     end.
Proof.
  intros Hd. unfold trampolinepfp.nonblocking_read, bind.
  destruct sock; try (now intros [=]). simpl attr_sock. unfold ret at 1.
  destruct (select sock w) as [[ready|e] w1] eqn:Hsel; [|discriminate].
  pose proof (select_wire _ _ fd Hsel) as Hw1.
  pose proof (select_pending _ _ fd Hsel) as Hp1.
  destruct ready.
  - destruct (recv (VSocketWrapper sock) chunk_size w1) as [[data|e] w2]
      eqn:Hrecv; [|discriminate].
    destruct (recv_conserves _ _ _ Hd Hrecv) as [Hp2 Hw2].
    destruct data as [|b rest]; [discriminate|].
    intros [= <- <-]. split; congruence.
  - intros [= <- <-]. auto.
Qed.

Lemma pfp_write_turn_pending sock data w f w' fd :
  trampolinepfp.write_turn sock data w = (Ok f, w') ->
  pending fd w' = pending fd w.
Proof.
  unfold trampolinepfp.write_turn, bind.
  destruct sock; try (now intros [=]). simpl attr_sock. unfold ret at 1.
  destruct (select sock w) as [[ready|e] w1] eqn:Hsel; [|discriminate].
  apply select_pending with (fd := fd) in Hsel.
  destruct ready.
  - destruct (send (VSocketWrapper sock) data w1) as [[k|e] w2] eqn:Hsend;
      [|discriminate].
    apply send_pending with (fd := fd) in Hsend.
    intros [= <- <-]. congruence.
  - intros [= <- <-]. exact Hsel.
Qed.

Lemma pfp_echo_write_conserves sock fd b rest w v f' w' :
  descriptor sock = Some fd ->
  trampolinepfp.echo_write sock b rest w = (Ok (Yield v f'), w') ->
  handles sock f'
  /\ wire fd w' ++ held f' ++ pending fd w'
     = wire fd w ++ (b :: rest) ++ pending fd w.
Proof.
  intros Hd. unfold trampolinepfp.echo_write, bind.
  destruct (generator_boundary (trampolinepfp.write_turn sock (b :: rest)) w)
    as [[f|e] w1] eqn:Hturn; [|discriminate].
  apply generator_boundary_ok in Hturn.
  destruct (pfp_write_turn_wire _ _ _ Hd Hturn) as (rest' & -> & Hw).
  pose proof (pfp_write_turn_pending _ _ _ fd Hturn) as Hp.
  intros [= <- <- <-]. simpl. split; [auto|].
  rewrite Hp, app_assoc, Hw, <- app_assoc. reflexivity.
Qed.

Lemma pfp_echo_read_conserves sock fd w v f' w' :
  descriptor sock = Some fd ->
  trampolinepfp.echo_read sock w = (Ok (Yield v f'), w') ->
  handles sock f'
  /\ wire fd w' ++ held f' ++ pending fd w' = wire fd w ++ pending fd w.
Proof.
  intros Hd. unfold trampolinepfp.echo_read, bind.
  destruct (generator_boundary
              (trampolinepfp.nonblocking_read sock chunk_size_default) w)
    as [[r|e] w1] eqn:Hread; [|discriminate].
  apply generator_boundary_ok in Hread.
  destruct (pfp_read_conserves _ _ _ Hd Hread) as [Hw Hr].
  destruct r as [f|b rest].
  - destruct Hr as [-> Hp]. intros [= <- <- <-]. simpl.
    split; [auto|]. now rewrite Hw, Hp.
  - intros H. destruct (pfp_echo_write_conserves _ _ _ _ Hd H) as [Hh Heq].
    split; [exact Hh|]. now rewrite Heq, Hw, <- Hr.
Qed.

Lemma pfp_echo_step_conserves sock fd f i w v f' w' :
  descriptor sock = Some fd ->
  handles sock f ->
  trampolinepfp.resume_frame f i w = (Ok (Yield v f'), w') ->
  handles sock f'
  /\ wire fd w' ++ held f' ++ pending fd w'
     = wire fd w ++ held f ++ pending fd w.
Proof.
  intros Hd Hf.
  destruct f as [| | |s| | | | |s [s' n]|s [s' rest]|]; try contradiction;
    simpl in Hf |- *.
  - subst s. unfold trampolinepfp.echo_handler, trampolinepfp.echo_guard.
    intros H. apply try_except_yield in H.
    eapply pfp_echo_read_conserves; eassumption.
  - destruct Hf as (-> & -> & ->).
    unfold trampolinepfp.resume_echo_reading, trampolinepfp.echo_guard.
    intros H. apply try_except_yield in H.
    destruct i as [x|e].
    + eapply pfp_echo_read_conserves; eassumption.
    + revert H. simpl. unfold generator_boundary, try_except, bind, raise.
      destruct (exn_class_eqb (exc_type e) StopIteration); discriminate.
  - destruct Hf as (-> & ->).
    unfold trampolinepfp.resume_echo_writing, trampolinepfp.echo_guard.
    intros H. apply try_except_yield in H.
    destruct i as [x|e];
      [|revert H; simpl; unfold generator_boundary, try_except, bind, raise;
        destruct (exn_class_eqb (exc_type e) StopIteration); discriminate].
    simpl in H. destruct rest as [|b rest].
    + simpl in H. eapply pfp_echo_read_conserves; eassumption.
    + revert H. unfold trampolinepfp.nonblocking_write, generator_boundary,
        try_except, bind.
      destruct (trampolinepfp.write_turn sock (b :: rest) w)
        as [[f|e] w1] eqn:Hturn;
        [|simpl; destruct (exn_class_eqb (exc_type e) StopIteration);
          discriminate].
      destruct (pfp_write_turn_wire _ _ _ Hd Hturn) as (rest' & -> & Hw).
      pose proof (pfp_write_turn_pending _ _ _ fd Hturn) as Hp.
      simpl. intros [= <- <- <-]. simpl. split; [auto|].
      rewrite Hp, app_assoc, Hw, <- app_assoc. reflexivity.
Qed.

(** X11: as long as the handler of [trampolinepfp.py] is resumed with
    [send] or [throw] and stays suspended, it echoes faithfully: the
    bytes its socket has accepted from [send], followed by those the
    handler has read and still holds, followed by those that have
    arrived and are not read yet, are at every [yield] what they were
    when the handler started.  So what it has sent is always the
    beginning of what it has read, with no byte lost, doubled or out of
    place. *)
Theorem pfp_echo_handler_conserves_bytes
    (sock : value) (fd : sock_id) (inputs : list input)
    (w : world trampolinepfp.frame) (v : value) (f : trampolinepfp.frame)
    (w' : world trampolinepfp.frame) :
  descriptor sock = Some fd ->
  drive trampolinepfp.resume_frame inputs
    (trampolinepfp.resume_frame (trampolinepfp.Call_echo_handler sock)
       (Send VNone) w)
  = (Ok (Yield v f), w') ->
  handles sock f
  /\ wire fd w' ++ held f ++ pending fd w' = wire fd w ++ pending fd w.
Proof.
  intros Hd.
  assert (Hdrive : forall inputs r,
            match r with
            | (Ok (Yield _ f0), w0) =>
                handles sock f0
                /\ wire fd w0 ++ held f0 ++ pending fd w0
                   = wire fd w ++ pending fd w
            | _ => True
            end ->
            match drive trampolinepfp.resume_frame inputs r with
            | (Ok (Yield _ f0), w0) =>
                handles sock f0
                /\ wire fd w0 ++ held f0 ++ pending fd w0
                   = wire fd w ++ pending fd w
            | _ => True
            end).
  { induction inputs0 as [|i inputs0 IH]; intros [[[v0 f0|v0]|e] w0] Hr;
      simpl; try exact Hr; try exact I.
    apply IH. destruct Hr as [Hh Heq].
    destruct (trampolinepfp.resume_frame f0 i w0) as [[[v1 f1|v1]|e] w1]
      eqn:Hstep; try exact I.
    destruct (@pfp_echo_step_conserves sock fd f0 i w0 v1 f1 w1 Hd Hh Hstep)
      as [Hh1 Heq1].
    split; [exact Hh1|]. now rewrite Heq1. }
  intros Hrun.
  specialize (Hdrive inputs
    (trampolinepfp.resume_frame (trampolinepfp.Call_echo_handler sock)
       (Send VNone) w)).
  rewrite Hrun in Hdrive. apply Hdrive.
  destruct (trampolinepfp.resume_frame (trampolinepfp.Call_echo_handler sock)
              (Send VNone) w) as [[[v1 f1|v1]|e] w1] eqn:Hstart; try exact I.
  apply (@pfp_echo_step_conserves sock fd
           (trampolinepfp.Call_echo_handler sock) (Send VNone) w v1 f1 w1
           Hd eq_refl Hstart).
Qed.


Lemma pfp_echo_handler_conserves_bytes_witness :
  exists v f w',
    drive trampolinepfp.resume_frame [Send VNone]
      (trampolinepfp.resume_frame
         (trampolinepfp.Call_echo_handler (VSocketWrapper (VSocket 3)))
         (Send VNone) (fresh_world data_and_room))
    = (Ok (Yield v f), w')
    /\ handles (VSocketWrapper (VSocket 3)) f
    /\ wire 3 w' ++ held f ++ pending 3 w'
       = wire 3 (fresh_world (F := trampolinepfp.frame) data_and_room)
         ++ pending 3 (fresh_world (F := trampolinepfp.frame) data_and_room).
Proof.
  eexists _, _, _. split; [vm_compute; reflexivity|].
  apply (@pfp_echo_handler_conserves_bytes (VSocketWrapper (VSocket 3)) 3
           [Send VNone] (fresh_world data_and_room) VNone);
    [reflexivity | vm_compute; reflexivity].
Defined.

(** ** A disconnect, seen from [run] *)

Lemma pfp_read_closed inner fd chunk_size (w : world trampolinepfp.frame)
    s evs :
  descriptor inner = Some fd ->
  sockets w !! fd = Some s -> events s = Ready :: Data [] :: evs ->
  trampolinepfp.nonblocking_read (VSocketWrapper inner) chunk_size w
  = (Err (Exc ConnectionLost (VStr "Client disconnected.")),
     set_socket fd (Socket evs (sent s)) w).
Proof.
  intros Hd Hs Hev. unfold trampolinepfp.nonblocking_read, bind.
  simpl attr_sock. unfold ret at 1.
  rewrite (@select_ready_then _ inner fd w s (Data []) evs Hd
             (descriptor_is_socket _ Hd) Hs Hev).
  rewrite recv_descriptor. simpl descriptor. rewrite Hd.
  rewrite os_recv_data, firstn_nil, skipn_nil, set_socket_twice. reflexivity.
Qed.

(** X4: a disconnect that the handler deals with still ends [run].  The
    handler catches [ConnectionLost] and returns; it is a task without
    a parent chain, so its [StopIteration] is re-raised by [resume] and
    leaves [run] (whose [finally] clause stops the trampoline), with
    whatever else was queued left behind.  In [trampolinepfp.py] this is
    the step in which the handler's read finds that the peer has
    closed; in [treamp2.py] it is the step that throws [ConnectionLost]
    into the handler. *)
Theorem handled_disconnect_ends_run (fuel : nat) (flag : bool)
    (g : gen_id) (q : list resume_closure) :
  (forall (w : world trampolinepfp.frame) inner fd chunk_size s evs,
     heap w !! g
     = Some (Gen (trampolinepfp.EchoReading (VSocketWrapper inner)
                    (trampolinepfp.ReadFrame (VSocketWrapper inner)
                       chunk_size))) ->
     descriptor inner = Some fd ->
     sockets w !! fd = Some s -> events s = Ready :: Data [] :: evs ->
     exists w',
       trampolinepfp.run (RT := trampolinepfp.python) (S fuel)
         (Tramp (Resume g [] VNone [] :: q) flag) w
       = RunRaises (Exc StopIteration VNone) (Tramp q false) w'
       /\ heap w' !! g = Some Closed
       /\ stdout w' = stdout w)
  /\ (forall (w : world treamp2.frame) wrapped_sock a,
        heap w !! g = Some (Gen (treamp2.EchoAtRead wrapped_sock)) ->
        exists w',
          treamp2.run (RT := treamp2.python) (S fuel)
            (Tramp (Resume g [] (VExcClass ConnectionLost)
                      [VExcInstance ConnectionLost a; VTraceback] :: q) flag) w
          = RunRaises (Exc StopIteration VNone) (Tramp q false) w'
          /\ heap w' !! g = Some Closed
          /\ stdout w' = stdout w ++ ["Connection lost."%string]).
Proof.
  split.
  - intros w inner fd chunk_size s evs Hg Hd Hs Hev.
    eexists. split; [|split].
    + unfold trampolinepfp.run. simpl.
      unfold trampolinepfp.resume, trampolinepfp.invoke. simpl.
      unfold generator_send. rewrite Hg. simpl trampolinepfp.started.
      cbv iota. unfold run_frame. simpl trampolinepfp.resume_frame.
      unfold trampolinepfp.resume_echo_reading, trampolinepfp.echo_guard,
        generator_boundary, try_except, bind.
      simpl trampolinepfp.resume_nonblocking_read.
      rewrite (@pfp_read_closed inner fd chunk_size (clear_calls w) s evs
                 Hd Hs Hev).
      simpl. reflexivity.
    + simpl. apply lookup_insert_eq.
    + reflexivity.
  - intros w wrapped_sock a Hg.
    eexists. split; [|split].
    + unfold treamp2.run. simpl.
      unfold treamp2.resume, treamp2.invoke. simpl.
      unfold generator_throw. rewrite Hg. simpl. reflexivity.
    + simpl. apply lookup_insert_eq.
    + reflexivity.
Qed.

Lemma handled_disconnect_ends_run_witness :
  exists w',
    trampolinepfp.run (RT := trampolinepfp.python) 1
      (Tramp [Resume 0 [] VNone []; Resume 1 [] VNone []] false)
      pfp_handler_reading
    = RunRaises (Exc StopIteration VNone)
        (Tramp [Resume 1 [] VNone []] false) w'
    /\ heap w' !! 0 = Some Closed
    /\ stdout w' = stdout pfp_handler_reading.
Proof.
  destruct (@handled_disconnect_ends_run 0 false 0 [Resume 1 [] VNone []])
    as [Hpfp _].
  apply (Hpfp pfp_handler_reading (VSocket 3) 3 chunk_size_default
           (Socket [Ready; Data []] []) []); reflexivity.
Defined.

(** ** The handler of [treamp2.py] under its scheduler *)


Lemma t2_handler_first_step g inner (w : world treamp2.frame) :
  heap w !! g = Some (Gen (treamp2.Call_echo_handler (VSocketWrapper inner))) ->
  treamp2.resume (RT := treamp2.python) (Resume g [] VNone [])
    (Tramp [] true) w
  = (Normal, Tramp [Resume (next_gen w) [g] VNone []] true,
     t2_handler_started g inner w).
Proof.
  intros Hg. unfold treamp2.resume, treamp2.invoke. simpl.
  unfold generator_send. rewrite Hg. reflexivity.
Qed.

Lemma t2_next_gen_is_not_handler g (f : treamp2.frame)
    (w : world treamp2.frame) :
  heap w !! g = Some (Gen f) -> heap w !! next_gen w = None ->
  next_gen w <> g.
Proof. intros Hg Hfresh Heq. rewrite Heq, Hg in Hfresh. discriminate. Qed.

Lemma t2_started_world_read g inner (w : world treamp2.frame) :
  next_gen w <> g ->
  heap (t2_handler_started g inner w) !! next_gen w
  = Some (Gen (treamp2.Call_nonblocking_read
                 (VSocketWrapper (VSocketWrapper inner)) chunk_size_default)).
Proof.
  intros Hne. simpl. rewrite lookup_insert_ne by congruence.
  apply lookup_insert_eq.
Qed.


Lemma t2_handler_second_step_idle g inner fd (w : world treamp2.frame) s evs :
  next_gen w <> g ->
  descriptor inner = Some fd ->
  sockets w !! fd = Some s -> events s = Timeout :: evs ->
  exists w2,
    treamp2.resume (RT := treamp2.python) (Resume (next_gen w) [g] VNone [])
      (Tramp [] true) (t2_handler_started g inner w)
    = (Normal, Tramp [Resume g [] VNone []] true, w2)
    /\ heap w2 !! g = Some (Gen (treamp2.EchoAtRead (VSocketWrapper (VSocketWrapper inner))))
    /\ wire fd w2 = wire fd w
    /\ stdout w2 = stdout (t2_handler_started g inner w).
Proof.
  intros Hne Hd Hs Hev. eexists. split; [|split; [|split]].
  - unfold treamp2.resume, treamp2.invoke. simpl.
    unfold generator_send. rewrite t2_started_world_read by exact Hne.
    simpl treamp2.started. cbv iota. unfold run_frame.
    simpl treamp2.resume_frame.
    unfold treamp2.read_as_generator, treamp2.nonblocking_read, bind.
    simpl treamp2.ensure_wrapped. unfold ret at 1.
    rewrite (@t2_read_not_ready (VSocketWrapper inner) fd chunk_size_default
               (clear_calls (t2_handler_started g inner w)) s evs Hd Hs Hev).
    simpl. reflexivity.
  - simpl. rewrite lookup_insert_ne by congruence.
    apply lookup_insert_eq.
  - unfold wire. simpl. rewrite lookup_insert_eq. simpl. now rewrite Hs.
  - reflexivity.
Qed.


Lemma t2_handler_sent_None g wrapped_sock t (w : world treamp2.frame) :
  heap w !! g = Some (Gen (treamp2.EchoAtRead wrapped_sock)) ->
  treamp2.resume (RT := treamp2.python) (Resume g [] VNone []) t w
  = (Propagates (Exc AttributeError VNone), t,
     clear_calls (set_generator g Closed (clear_calls w))).
Proof.
  intros Hg. unfold treamp2.resume, treamp2.invoke. simpl.
  unfold generator_send. rewrite Hg. reflexivity.
Qed.


(** X13: nor does it survive a poll that finds nothing.  With nothing
    to read yet, the read generator yields [None]; the scheduler takes
    that for the read's result and sends it to the handler, whose
    [data.decode] then fails: [AttributeError] leaves [run] at the
    third step, the queue empty. *)
Theorem t2_handler_fails_when_not_ready (fuel : nat) (flag : bool)
    (g : gen_id) (inner : value) (fd : sock_id) (w : world treamp2.frame)
    (s : socket) (evs : list os_event) :
  heap w !! g = Some (Gen (treamp2.Call_echo_handler (VSocketWrapper inner))) ->
  heap w !! next_gen w = None ->
  descriptor inner = Some fd ->
  sockets w !! fd = Some s ->
  events s = Timeout :: evs ->
  exists w',
    treamp2.run (RT := treamp2.python) (S (S (S fuel)))
      (Tramp [Resume g [] VNone []] flag) w
    = RunRaises (Exc AttributeError VNone) (Tramp [] false) w'
    /\ heap w' !! g = Some Closed
    /\ wire fd w' = wire fd w
    /\ stdout w' = stdout w ++ ["Handler started for a new client."%string].
Proof.
  intros Hg Hfresh Hd Hs Hev.
  pose proof (@t2_next_gen_is_not_handler g _ w Hg Hfresh) as Hne.
  destruct (@t2_handler_second_step_idle g inner fd w s evs Hne Hd Hs Hev)
    as (w2 & Hstep2 & Hheap & Hwire & Hout).
  exists (clear_calls (set_generator g Closed (clear_calls w2))).
  split; [|split; [|split]].
  - unfold treamp2.run. simpl queue.
    rewrite (@t2_run_loop_step _ treamp2.python _ _ _ _ _ _
               (@t2_handler_first_step g inner w Hg)).
    rewrite (@t2_run_loop_step _ treamp2.python _ _ _ _ _ _ Hstep2).
    simpl treamp2.run_loop.
    now rewrite (@t2_handler_sent_None g _ _ w2 Hheap).
  - simpl. apply lookup_insert_eq.
  - exact Hwire.
  - exact Hout.
Qed.


Lemma t2_handler_fails_when_not_ready_witness :
  exists w',
    treamp2.run (RT := treamp2.python) 3 (Tramp [Resume 0 [] VNone []] false)
      t2_handler_idle
    = RunRaises (Exc AttributeError VNone) (Tramp [] false) w'
    /\ heap w' !! 0 = Some Closed
    /\ wire 3 w' = wire 3 t2_handler_idle
    /\ stdout w'
       = stdout t2_handler_idle ++ ["Handler started for a new client."%string].
Proof.
  apply (@t2_handler_fails_when_not_ready 0 false 0 (VSocket 3) 3
           t2_handler_idle
           (Socket [Timeout; Timeout; Ready; Data hello; Ready; Room 3] [])
           [Timeout; Ready; Data hello; Ready; Room 3]); reflexivity.
Defined.

(** ** [nonblocking_write] makes progress *)

Lemma pfp_write_turn_room inner fd data (w : world trampolinepfp.frame)
    s n evs :
  descriptor inner = Some fd -> data <> [] ->
  sockets w !! fd = Some s -> events s = Ready :: Room n :: evs ->
  trampolinepfp.nonblocking_write (VSocketWrapper inner) data w
  = (Ok (Yield VNone
           (trampolinepfp.WriteFrame (VSocketWrapper inner)
              (skipn (Nat.min n (length data)) data))),
     set_socket fd
       (Socket evs (sent s ++ firstn (Nat.min n (length data)) data)) w).
Proof.
  intros Hd Hne Hs Hev. destruct data as [|b data]; [congruence|].
  unfold trampolinepfp.nonblocking_write, trampolinepfp.write_turn, bind.
  simpl attr_sock. unfold ret at 1.
  rewrite (@select_ready _ inner fd w s n evs Hd Hs Hev).
  rewrite (@send_room _ (VSocketWrapper inner) fd (b :: data) w s n evs Hd).
  now rewrite set_socket_twice.
Qed.

Lemma t2_write_turn_room inner fd data (w : world treamp2.frame) s n evs :
  descriptor inner = Some fd -> data <> [] ->
  sockets w !! fd = Some s -> events s = Ready :: Room n :: evs ->
  treamp2.write_loop (VSocketWrapper inner) data w
  = (Ok (Yield VNone
           (treamp2.WriteFrame (VSocketWrapper inner)
              (skipn (Nat.min n (length data)) data))),
     set_socket fd
       (Socket evs (sent s ++ firstn (Nat.min n (length data)) data)) w).
Proof.
  intros Hd Hne Hs Hev. destruct data as [|b data]; [congruence|].
  unfold treamp2.write_loop, treamp2.write_turn, treamp2.socket_guard,
    try_except, bind.
  rewrite (@select_ready _ (VSocketWrapper inner) fd w s n evs Hd Hs Hev).
  rewrite (@send_room _ (VSocketWrapper inner) fd (b :: data) w s n evs Hd).
  now rewrite set_socket_twice.
Qed.

Lemma skipn_min_length {A} n (l : list A) :
  length (skipn (Nat.min n (length l)) l) = length l - n.
Proof. rewrite length_skipn. lia. Qed.

Lemma pfp_write_progress inner fd evs (rooms : list nat) :
  descriptor inner = Some fd ->
  forall data (w : world trampolinepfp.frame) sent0,
    length data <= list_sum (map S rooms) ->
    sockets w !! fd
    = Some (Socket (flat_map (fun n => [Ready; Room (S n)]) rooms ++ evs)
              sent0) ->
    exists w',
      trampolinepfp.drive_write (repeat (Send VNone) (length rooms))
        (trampolinepfp.nonblocking_write (VSocketWrapper inner) data w)
      = (Ok (Return VNone), w')
      /\ wire fd w' = sent0 ++ data.
Proof.
  intros Hd. induction rooms as [|n rooms IH]; intros data w sent0 Hlen Hs.
  - destruct data; [|simpl in Hlen; lia].
    exists w. split; [reflexivity|].
    unfold wire. rewrite Hs. simpl. now rewrite app_nil_r.
  - destruct data as [|b data].
    + exists w. split; [reflexivity|].
      unfold wire. rewrite Hs. simpl. now rewrite app_nil_r.
    + simpl repeat.
      rewrite (@pfp_write_turn_room inner fd (b :: data) w _ (S n)
                 (flat_map (fun n => [Ready; Room (S n)]) rooms ++ evs)
                 Hd ltac:(discriminate) Hs eq_refl).
      simpl sent. cbn [trampolinepfp.drive_write].
      cbn [trampolinepfp.resume_nonblocking_write].
      destruct (IH (skipn (Nat.min (S n) (length (b :: data))) (b :: data))
                  (set_socket fd
                     (Socket (flat_map (fun n => [Ready; Room (S n)]) rooms
                              ++ evs)
                        (sent0 ++ firstn (Nat.min (S n) (length (b :: data)))
                                    (b :: data))) w)
                  (sent0 ++ firstn (Nat.min (S n) (length (b :: data)))
                              (b :: data)))
        as (w' & Hrun & Hwire).
      * rewrite skipn_min_length. simpl in Hlen |- *. lia.
      * apply sockets_set_socket.
      * exists w'. split; [exact Hrun|].
        rewrite Hwire, <- app_assoc. f_equal. apply firstn_skipn.
Qed.

Lemma t2_write_progress inner fd evs (rooms : list nat) :
  descriptor inner = Some fd ->
  forall data (w : world treamp2.frame) sent0,
    length data <= list_sum (map S rooms) ->
    sockets w !! fd
    = Some (Socket (flat_map (fun n => [Ready; Room (S n)]) rooms ++ evs)
              sent0) ->
    exists w',
      treamp2.drive_write (repeat (Send VNone) (length rooms))
        (treamp2.write_loop (VSocketWrapper inner) data w)
      = (Ok (Return VNone), w')
      /\ wire fd w' = sent0 ++ data.
Proof.
  intros Hd. induction rooms as [|n rooms IH]; intros data w sent0 Hlen Hs.
  - destruct data; [|simpl in Hlen; lia].
    exists w. split; [reflexivity|].
    unfold wire. rewrite Hs. simpl. now rewrite app_nil_r.
  - destruct data as [|b data].
    + exists w. split; [reflexivity|].
      unfold wire. rewrite Hs. simpl. now rewrite app_nil_r.
    + simpl repeat.
      rewrite (@t2_write_turn_room inner fd (b :: data) w _ (S n)
                 (flat_map (fun n => [Ready; Room (S n)]) rooms ++ evs)
                 Hd ltac:(discriminate) Hs eq_refl).
      simpl sent. cbn [treamp2.drive_write].
      cbn [treamp2.resume_nonblocking_write].
      destruct (IH (skipn (Nat.min (S n) (length (b :: data))) (b :: data))
                  (set_socket fd
                     (Socket (flat_map (fun n => [Ready; Room (S n)]) rooms
                              ++ evs)
                        (sent0 ++ firstn (Nat.min (S n) (length (b :: data)))
                                    (b :: data))) w)
                  (sent0 ++ firstn (Nat.min (S n) (length (b :: data)))
                              (b :: data)))
        as (w' & Hrun & Hwire).
      * rewrite skipn_min_length. simpl in Hlen |- *. lia.
      * apply sockets_set_socket.
      * exists w'. split; [exact Hrun|].
        rewrite Hwire, <- app_assoc. f_equal. apply firstn_skipn.
Qed.

(** X14: [nonblocking_write] gets the data out as long as the socket
    keeps taking some.  If the socket, each time the generator polls it,
    is writable and takes at least one byte, and what it will take in
    all covers the data, then resuming the generator once per poll
    brings it to its end, with exactly the data accepted by the socket
    after what it had accepted before. *)
Theorem nonblocking_write_completes
    (inner : value) (fd : sock_id) (rooms : list nat) (evs : list os_event)
    (data sent0 : bytes) :
  descriptor inner = Some fd ->
  length data <= list_sum (map S rooms) ->
  (forall w : world trampolinepfp.frame,
     sockets w !! fd
     = Some (Socket (flat_map (fun n => [Ready; Room (S n)]) rooms ++ evs)
               sent0) ->
     exists w',
       trampolinepfp.drive_write (repeat (Send VNone) (length rooms))
         (trampolinepfp.nonblocking_write (VSocketWrapper inner) data w)
       = (Ok (Return VNone), w')
       /\ wire fd w' = sent0 ++ data)
  /\ (forall w : world treamp2.frame,
        sockets w !! fd
        = Some (Socket (flat_map (fun n => [Ready; Room (S n)]) rooms ++ evs)
                  sent0) ->
        exists w',
          treamp2.drive_write (repeat (Send VNone) (length rooms))
            (treamp2.nonblocking_write (VSocketWrapper inner) data w)
          = (Ok (Return VNone), w')
          /\ wire fd w' = sent0 ++ data).
Proof.
  intros Hd Hlen. split; intros w Hs.
  - now apply (@pfp_write_progress inner fd evs rooms Hd data w sent0).
  - apply (@t2_write_progress inner fd evs rooms Hd data w sent0 Hlen Hs).
Qed.

Lemma nonblocking_write_completes_witness :
  exists w',
    trampolinepfp.drive_write (repeat (Send VNone) (length [1; 0; 3]))
      (trampolinepfp.nonblocking_write (VSocketWrapper (VSocket 3)) hello
         (fresh_world
            (<[3 := Socket (flat_map (fun n => [Ready; Room (S n)]) [1; 0; 3]
                            ++ [Timeout]) []]> ∅)))
    = (Ok (Return VNone), w')
    /\ wire 3 w' = [] ++ hello.
Proof.
  apply (proj1 (@nonblocking_write_completes (VSocket 3) 3 [1; 0; 3]
                  [Timeout] hello [] eq_refl ltac:(vm_compute; lia))).
  reflexivity.
Defined.

Lemma zero_length_recv_raises_ConnectionLost_witness :
  fst (trampolinepfp.nonblocking_read (VSocketWrapper (VSocket 3))
         chunk_size_default (fresh_world closed_and_busy))
  = Err (Exc ConnectionLost (VStr "Client disconnected."))
  /\ fst (treamp2.nonblocking_read (VSocketWrapper (VSocket 3))
            chunk_size_default (fresh_world closed_and_busy))
     = Err (Exc ConnectionLost VNone).
Proof.
  destruct (@zero_length_recv_raises_ConnectionLost (VSocket 3) 3
              chunk_size_default (Socket [Ready; Data []] []) []
              eq_refl eq_refl) as [Hpfp Ht2].
  split; [apply Hpfp | apply Ht2]; reflexivity.
Defined.
